(** * RadScheduler HL7 simulator (simulator/send-hl7.py)

    A shallow embedding of the [HL7Simulator] class: the SIU^S12 message
    builder, the MLLP framing, the TCP sender and the demo scenarios.

    Python values are modelled as follows.
    - [str] is a list of Unicode code points ([list Z]); [bytes] is a list of
      octets ([list Z], each in [0, 256)).
    - [int] is [Z] (unbounded, no wrap-around).
    - the instance attributes [host], [port], [message_count] form a record
      that is threaded through every method together with the outside world
      (random source, wall clock, network peer, console and sleep trace).
    - a raised exception is an outcome of the computation; state changes made
      before the raise are kept, as in Python. *)

From Stdlib Require Import ZArith Lia List Ascii String.
From stdpp Require Import base gmap list strings.

Local Open Scope Z_scope.

(** ** Strings and bytes *)

(** A source-code string literal (all literals of the program are ASCII). *)
Definition lit (s : string) : list Z :=
  (λ a, Z.of_N (N_of_ascii a)) <$> list_ascii_of_string s.

Definition SPACE : Z := 32.
Definition CR : Z := 13.
Definition PIPE : Z := 124.
Definition ZERO_DIGIT : Z := 48.
Definition MINUS : Z := 45.

(** [c in s] for a one-character [c]. *)
Definition str_contains_char (c : Z) (s : list Z) : bool :=
  existsb (Z.eqb c) s.

(** [s.split(c)] for a one-character separator: every occurrence splits. *)
Fixpoint str_split (c : Z) (s : list Z) : list (list Z) :=
  match s with
  | [] => [[]]
  | x :: rest =>
      if x =? c then [] :: str_split c rest
      else match str_split c rest with
           | [] => [[x]]
           | w :: ws => (x :: w) :: ws
           end
  end.

(** [sep.join(parts)]. *)
Fixpoint str_join (sep : list Z) (parts : list (list Z)) : list Z :=
  match parts with
  | [] => []
  | [p] => p
  | p :: ps => p ++ sep ++ str_join sep ps
  end.

(** Substring test [sub in s]. *)
Fixpoint str_startswith (sub s : list Z) : bool :=
  match sub, s with
  | [], _ => true
  | _ :: _, [] => false
  | a :: sub', b :: s' => (a =? b) && str_startswith sub' s'
  end.

Fixpoint str_contains (sub s : list Z) : bool :=
  str_startswith sub s ||
  match s with
  | [] => false
  | _ :: s' => str_contains sub s'
  end.

(** ** Integer formatting: [{n}] and [{n:0wd}] *)

Fixpoint digits_aux (fuel : nat) (n : Z) (acc : list Z) : list Z :=
  match fuel with
  | O => acc
  | S f =>
      let acc' := (ZERO_DIGIT + n mod 10) :: acc in
      if n / 10 =? 0 then acc' else digits_aux f (n / 10) acc'
  end.

(** Decimal digits of a non-negative integer, most significant first. *)
Definition str_of_nonneg (n : Z) : list Z :=
  digits_aux (S (Z.to_nat (Z.log2 n))) n [].

(** [f"{n}"] *)
Definition format_d (n : Z) : list Z :=
  if n <? 0 then MINUS :: str_of_nonneg (- n) else str_of_nonneg n.

(** [f"{n:0wd}"]: sign-aware zero padding to a minimum width of [w]. *)
Definition format_0d (w : nat) (n : Z) : list Z :=
  let ds := str_of_nonneg (Z.abs n) in
  if n <? 0 then MINUS :: replicate (w - 1 - length ds)%nat ZERO_DIGIT ++ ds
  else replicate (w - length ds)%nat ZERO_DIGIT ++ ds.

(** Reading a decimal numeral back (used to state properties of numerals). *)
Definition int_of_digits (s : list Z) : Z :=
  fold_left (λ acc c, 10 * acc + (c - ZERO_DIGIT)) s 0.

Definition is_digit (c : Z) : bool := (48 <=? c) && (c <=? 57).

(** ** UTF-8 *)

Definition is_surrogate (c : Z) : bool := (0xD800 <=? c) && (c <=? 0xDFFF).

(** Encoding of one code point; surrogates cannot be encoded. *)
Definition utf8_encode_char (c : Z) : option (list Z) :=
  if c <? 0x80 then Some [c]
  else if c <? 0x800 then
    Some [Z.lor 0xC0 (Z.shiftr c 6); Z.lor 0x80 (Z.land c 0x3F)]
  else if is_surrogate c then None
  else if c <? 0x10000 then
    Some [Z.lor 0xE0 (Z.shiftr c 12);
          Z.lor 0x80 (Z.land (Z.shiftr c 6) 0x3F);
          Z.lor 0x80 (Z.land c 0x3F)]
  else
    Some [Z.lor 0xF0 (Z.shiftr c 18);
          Z.lor 0x80 (Z.land (Z.shiftr c 12) 0x3F);
          Z.lor 0x80 (Z.land (Z.shiftr c 6) 0x3F);
          Z.lor 0x80 (Z.land c 0x3F)].

(** [s.encode('utf-8')]: [None] stands for [UnicodeEncodeError]. *)
Fixpoint utf8_encode (s : list Z) : option (list Z) :=
  match s with
  | [] => Some []
  | c :: rest =>
      match utf8_encode_char c, utf8_encode rest with
      | Some bs, Some bs' => Some (bs ++ bs')
      | _, _ => None
      end
  end.

Definition is_cont (b : Z) : bool := (0x80 <=? b) && (b <? 0xC0).

(** One step of the decoder on a non-empty input: the decoded code point, if
    any, and the number of bytes consumed.  An invalid or truncated sequence
    decodes to nothing and consumes the offending bytes ([errors='ignore']). *)
Definition utf8_decode_step (s : list Z) : option Z * nat :=
  match s with
  | [] => (None, 0%nat)
  | b1 :: t1 =>
      if b1 <? 0x80 then (Some b1, 1%nat)
      else if b1 <? 0xC2 then (None, 1%nat)
      else if b1 <? 0xE0 then
        match t1 with
        | [] => (None, 1%nat)
        | b2 :: _ =>
            if is_cont b2
            then (Some (Z.shiftl (b1 - 0xC0) 6 + (b2 - 0x80)), 2%nat)
            else (None, 1%nat)
        end
      else if b1 <? 0xF0 then
        match t1 with
        | [] => (None, 1%nat)
        | b2 :: t2 =>
            if negb (is_cont b2)
               || (if b2 <? 0xA0 then b1 =? 0xE0 else b1 =? 0xED)
            then (None, 1%nat)
            else match t2 with
                 | [] => (None, 2%nat)
                 | b3 :: _ =>
                     if is_cont b3
                     then (Some (Z.shiftl (b1 - 0xE0) 12
                                 + Z.shiftl (b2 - 0x80) 6 + (b3 - 0x80)), 3%nat)
                     else (None, 2%nat)
                 end
        end
      else if b1 <? 0xF5 then
        match t1 with
        | [] => (None, 1%nat)
        | b2 :: t2 =>
            if negb (is_cont b2)
               || (if b2 <? 0x90 then b1 =? 0xF0 else b1 =? 0xF4)
            then (None, 1%nat)
            else match t2 with
                 | [] => (None, 2%nat)
                 | b3 :: t3 =>
                     if negb (is_cont b3) then (None, 2%nat)
                     else match t3 with
                          | [] => (None, 3%nat)
                          | b4 :: _ =>
                              if is_cont b4
                              then (Some (Z.shiftl (b1 - 0xF0) 18
                                          + Z.shiftl (b2 - 0x80) 12
                                          + Z.shiftl (b3 - 0x80) 6
                                          + (b4 - 0x80)), 4%nat)
                              else (None, 3%nat)
                          end
                 end
        end
      else (None, 1%nat)
  end.

Fixpoint utf8_decode_fuel (fuel : nat) (s : list Z) : list Z :=
  match fuel with
  | O => []
  | S f =>
      match s with
      | [] => []
      | _ :: _ =>
          let '(oc, n) := utf8_decode_step s in
          let rest := utf8_decode_fuel f (drop n s) in
          match oc with
          | Some c => c :: rest
          | None => rest
          end
      end
  end.

(** [b.decode('utf-8', errors='ignore')]: total, no exception. *)
Definition utf8_decode_ignore (b : list Z) : list Z :=
  utf8_decode_fuel (length b) b.

(** ** [datetime] (proleptic Gregorian calendar, naive local time) *)

Record datetime := mk_datetime {
  year : Z; month : Z; day : Z;
  hour : Z; minute : Z; second : Z; microsecond : Z
}.

Record timedelta := mk_timedelta {
  td_days : Z; td_seconds : Z; td_microseconds : Z
}.

Definition MAXORDINAL : Z := 3652059.
Definition DI400Y : Z := 146097.
Definition DI100Y : Z := 36524.
Definition DI4Y : Z := 1461.

Definition is_leap (y : Z) : bool :=
  (y mod 4 =? 0) && (negb (y mod 100 =? 0) || (y mod 400 =? 0)).

Definition days_before_year (y : Z) : Z :=
  let y' := y - 1 in y' * 365 + y' / 4 - y' / 100 + y' / 400.

Definition DAYS_IN_MONTH : list Z :=
  [-1; 31; 28; 31; 30; 31; 30; 31; 31; 30; 31; 30; 31].

Definition DAYS_BEFORE_MONTH : list Z :=
  [-1; 0; 31; 59; 90; 120; 151; 181; 212; 243; 273; 304; 334].

Definition dim (leap : bool) (m : Z) : Z :=
  if (m =? 2) && leap then 29 else nth (Z.to_nat m) DAYS_IN_MONTH 0.

Definition dbm (leap : bool) (m : Z) : Z :=
  nth (Z.to_nat m) DAYS_BEFORE_MONTH 0 + (if (2 <? m) && leap then 1 else 0).

Definition days_in_month (y m : Z) : Z := dim (is_leap y) m.

Definition days_before_month (y m : Z) : Z := dbm (is_leap y) m.

Definition ymd2ord (y m d : Z) : Z :=
  days_before_year y + days_before_month y m + d.

(** Month and day of the month from the 0-based day of the year: an
    estimate of the month that is exact or one too large, then corrected. *)
Definition month_of_yday (leapyear : bool) (n : Z) : Z * Z :=
  let m := Z.shiftr (n + 50) 5 in
  let preceding := dbm leapyear m in
  if n <? preceding then
    let m' := m - 1 in
    let preceding' := preceding - dim leapyear m' in
    (m', n - preceding' + 1)
  else (m, n - preceding + 1).

Definition ord2ymd (n0 : Z) : Z * Z * Z :=
  let n := n0 - 1 in
  let n400 := n / DI400Y in
  let n := n mod DI400Y in
  let n100 := n / DI100Y in
  let n := n mod DI100Y in
  let n4 := n / DI4Y in
  let n := n mod DI4Y in
  let n1 := n / 365 in
  let n := n mod 365 in
  let y := n400 * 400 + 1 + n100 * 100 + n4 * 4 + n1 in
  if (n1 =? 4) || (n100 =? 4) then (y - 1, 12, 31)
  else
    let leapyear := (n1 =? 3) && (negb (n4 =? 24) || (n100 =? 3)) in
    let '(m, d) := month_of_yday leapyear n in
    (y, m, d).

Definition toordinal (dt : datetime) : Z :=
  ymd2ord (year dt) (month dt) (day dt).

(** [timedelta(days=d, seconds=s, microseconds=us)], normalised. *)
Definition timedelta_norm (d s us : Z) : timedelta :=
  let s' := s + us / 1000000 in
  {| td_days := d + s' / 86400;
     td_seconds := s' mod 86400;
     td_microseconds := us mod 1000000 |}.

Definition timedelta_hours (h : Z) : timedelta :=
  timedelta_norm 0 (h * 3600) 0.

(** [dt + td]: [None] stands for [OverflowError("date value out of range")]. *)
Definition datetime_add (dt : datetime) (td : timedelta) : option datetime :=
  let delta :=
    timedelta_norm
      (toordinal dt + td_days td)
      (hour dt * 3600 + minute dt * 60 + second dt + td_seconds td)
      (microsecond dt + td_microseconds td) in
  let h := td_seconds delta / 3600 in
  let rem := td_seconds delta mod 3600 in
  if (0 <? td_days delta) && (td_days delta <=? MAXORDINAL) then
    let '(y, m, d) := ord2ymd (td_days delta) in
    Some {| year := y; month := m; day := d;
            hour := h; minute := rem / 60; second := rem mod 60;
            microsecond := td_microseconds delta |}
  else None.

(** Every [datetime] object of Python satisfies this. *)
Definition datetime_valid (dt : datetime) : bool :=
  (1 <=? year dt) && (year dt <=? 9999)
  && (1 <=? month dt) && (month dt <=? 12)
  && (1 <=? day dt) && (day dt <=? days_in_month (year dt) (month dt))
  && (0 <=? hour dt) && (hour dt <? 24)
  && (0 <=? minute dt) && (minute dt <? 60)
  && (0 <=? second dt) && (second dt <? 60)
  && (0 <=? microsecond dt) && (microsecond dt <? 1000000).

(** Whole minutes since the start of day 0 of the calendar. *)
Definition minutes_of (dt : datetime) : Z :=
  toordinal dt * 1440 + hour dt * 60 + minute dt.

(** [dt.strftime("%Y%m%d%H%M")] and [dt.strftime("%Y%m%d%H%M%S")].  [%Y] is
    the year in decimal without padding, as the C library of Linux prints it;
    other C libraries pad years below 1000 to four digits, and the statements
    about the format assume years from 1000 on, where all agree. *)
Definition strftime_YmdHM (dt : datetime) : list Z :=
  format_d (year dt) ++ format_0d 2 (month dt) ++ format_0d 2 (day dt)
  ++ format_0d 2 (hour dt) ++ format_0d 2 (minute dt).

Definition strftime_YmdHMS (dt : datetime) : list Z :=
  strftime_YmdHM dt ++ format_0d 2 (second dt).

(** Reading the five fields of a [YYYYMMDDHHMM] string. *)
Definition parse_YmdHM (s : list Z) : Z * Z * Z * Z * Z :=
  (int_of_digits (take 4 s),
   int_of_digits (take 2 (drop 4 s)),
   int_of_digits (take 2 (drop 6 s)),
   int_of_digits (take 2 (drop 8 s)),
   int_of_digits (take 2 (drop 10 s))).

(** ** Exceptions and outcomes *)

Inductive ExcClass :=
| ValueError | OverflowError | UnicodeEncodeError
| OSError | ConnectionRefusedError | ConnectionResetError | TimeoutError
| KeyboardInterrupt | SystemExit.

(** [issubclass(c, Exception)]: the last two derive from [BaseException] only. *)
Definition is_Exception (c : ExcClass) : bool :=
  match c with
  | KeyboardInterrupt | SystemExit => false
  | _ => true
  end.

(** An exception instance: its class and the text of [str(e)]. *)
Record PyExc := mk_exc { exc_class : ExcClass; exc_str : list Z }.

Inductive outcome (A : Type) :=
| Return (a : A)
| Raise (e : PyExc).
Arguments Return {A} a.
Arguments Raise {A} e.

(** ** The instance and the outside world *)

Record HL7Simulator := mk_sim {
  host : list Z;
  port : Z;
  message_count : Z
}.

(** [HL7Simulator(host, port)] *)
Definition HL7Simulator_init (h : list Z) (p : Z) : HL7Simulator :=
  {| host := h; port := p; message_count := 0 |}.

Definition HL7Simulator_default : HL7Simulator :=
  HL7Simulator_init (lit "localhost") 8661.

(** What one TCP exchange with the peer does at each socket call: the call
    succeeds or raises.  For [recv] the bytes are those that have arrived when
    it is called, which need not be all the peer wrote. *)
Inductive io_result (A : Type) :=
| IoOk (a : A)
| IoErr (e : PyExc).
Arguments IoOk {A} a.
Arguments IoErr {A} e.

Record Exchange := mk_exchange {
  x_socket : io_result unit;
  x_connect : io_result unit;
  x_send : io_result unit;
  x_recv : io_result (list Z);
  x_close : io_result unit
}.

(** A printed line; the bytes of a message preview are kept as bytes. *)
Inductive ConsoleLine :=
| Text (s : list Z)
| TextBytes (before : list Z) (b : list Z) (after : list Z).

Inductive Event :=
| EvPrint (line : ConsoleLine)
| EvSleep (millis : Z)
| EvSocket
| EvConnect (h : list Z) (p : Z)
| EvSend (message : list Z)
| EvRecv (bufsize : Z)
| EvClose.

Record World := mk_world {
  rng : nat → Z;            (* raw draws of the random source *)
  rng_pos : nat;
  clock : nat → datetime;   (* successive readings of the local clock *)
  clock_pos : nat;
  peer : nat → Exchange;    (* behaviour of the network at each exchange *)
  peer_pos : nat;
  trace : list Event        (* observable actions, oldest first *)
}.

Record State := mk_state { self : HL7Simulator; world : World }.

(** ** State-and-exception monad *)

Definition M (A : Type) : Type := State → outcome A * State.

Definition ret {A} (a : A) : M A := λ st, (Return a, st).

Definition raise {A} (e : PyExc) : M A := λ st, (Raise e, st).

Definition bind {A B} (m : M A) (k : A → M B) : M B :=
  λ st, match m st with
        | (Return a, st') => k a st'
        | (Raise e, st') => (Raise e, st')
        end.

Notation "'let*' x ':=' m 'in' k" := (bind m (λ x, k))
  (at level 10, x name, m at level 100, k at level 200).
Notation "'let*' ' p ':=' m 'in' k" := (bind m (λ x, match x with p => k end))
  (at level 10, p pattern, m at level 100, k at level 200).

(** [try: body / except Exception as e: handler e] *)
Definition try_except {A} (body : M A) (handler : PyExc → M A) : M A :=
  λ st, match body st with
        | (Return a, st') => (Return a, st')
        | (Raise e, st') =>
            if is_Exception (exc_class e) then handler e st'
            else (Raise e, st')
        end.

(** [for x in l: body x] *)
Fixpoint for_each {A} (l : list A) (body : A → M unit) : M unit :=
  match l with
  | [] => ret tt
  | x :: rest => let* _ := body x in for_each rest body
  end.

Definition lift_option {A} (e : PyExc) (o : option A) : M A :=
  match o with
  | Some a => ret a
  | None => raise e
  end.

Definition emit (ev : Event) : M unit :=
  λ st,
    let w := world st in
    (Return tt,
     {| self := self st;
        world := {| rng := rng w; rng_pos := rng_pos w;
                    clock := clock w; clock_pos := clock_pos w;
                    peer := peer w; peer_pos := peer_pos w;
                    trace := trace w ++ [ev] |} |}).

(** [print(line)].  The console is taken to accept the line: Python raises
    [UnicodeEncodeError] for text the console's encoding cannot write (a lone
    surrogate, say), so statements about text that a caller supplies ask for
    ASCII arguments. *)
Definition print (line : ConsoleLine) : M unit := emit (EvPrint line).

(** [time.sleep(s)], the duration in milliseconds. *)
Definition time_sleep (millis : Z) : M unit := emit (EvSleep millis).

Definition random_raw : M Z :=
  λ st,
    let w := world st in
    (Return (rng w (rng_pos w)),
     {| self := self st;
        world := {| rng := rng w; rng_pos := S (rng_pos w);
                    clock := clock w; clock_pos := clock_pos w;
                    peer := peer w; peer_pos := peer_pos w;
                    trace := trace w |} |}).

(** [random.randint(a, b)]: some integer of [a..b], both ends included. *)
Definition randint (a b : Z) : M Z :=
  let* r := random_raw in ret (a + r mod (b - a + 1)).

(** [random.choice(l)] for a non-empty list. *)
Definition random_choice {A} (d : A) (l : list A) : M A :=
  let* r := random_raw in
  ret (nth (Z.to_nat (r mod Z.of_nat (length l))) l d).

(** [datetime.now()] *)
Definition datetime_now : M datetime :=
  λ st,
    let w := world st in
    (Return (clock w (clock_pos w)),
     {| self := self st;
        world := {| rng := rng w; rng_pos := rng_pos w;
                    clock := clock w; clock_pos := S (clock_pos w);
                    peer := peer w; peer_pos := peer_pos w;
                    trace := trace w |} |}).

Definition next_exchange : M Exchange :=
  λ st,
    let w := world st in
    (Return (peer w (peer_pos w)),
     {| self := self st;
        world := {| rng := rng w; rng_pos := rng_pos w;
                    clock := clock w; clock_pos := clock_pos w;
                    peer := peer w; peer_pos := S (peer_pos w);
                    trace := trace w |} |}).

Definition io {A} (r : io_result A) : M A :=
  match r with
  | IoOk a => ret a
  | IoErr e => raise e
  end.

Definition get_self : M HL7Simulator := λ st, (Return (self st), st).

(** [self.message_count += 1] *)
Definition incr_message_count : M unit :=
  λ st,
    (Return tt,
     {| self := {| host := host (self st); port := port (self st);
                   message_count := message_count (self st) + 1 |};
        world := world st |}).

(** ** [create_hl7_message] *)

Definition exc_unpack : PyExc :=
  mk_exc ValueError (lit "too many values to unpack (expected 2)").
Definition exc_overflow : PyExc :=
  mk_exc OverflowError (lit "date value out of range").

(** The [UnicodeEncodeError] of [s.encode('utf-8')].  The codec reports the
    first run of surrogates of [s]: a single one with its escape and its
    position, a longer run with its first and last position. *)
Definition hex_digit (d : Z) : Z := if d <? 10 then 48 + d else 87 + d.

Definition hex4 (c : Z) : list Z :=
  [hex_digit (c / 4096 mod 16); hex_digit (c / 256 mod 16);
   hex_digit (c / 16 mod 16); hex_digit (c mod 16)].

Fixpoint surrogate_start (s : list Z) : nat :=
  match s with
  | [] => 0
  | c :: rest => if is_surrogate c then 0 else S (surrogate_start rest)
  end.

Fixpoint surrogate_run (s : list Z) : nat :=
  match s with
  | [] => 0
  | c :: rest => if is_surrogate c then S (surrogate_run rest) else 0
  end.

Definition encode_error_str (s : list Z) : list Z :=
  let start := surrogate_start s in
  let run := surrogate_run (drop start s) in
  if (run <=? 1)%nat then
    lit "'utf-8' codec can't encode character '\u" ++ hex4 (nth start s 0)
    ++ lit "' in position " ++ format_d (Z.of_nat start)
    ++ lit ": surrogates not allowed"
  else
    lit "'utf-8' codec can't encode characters in position "
    ++ format_d (Z.of_nat start) ++ lit "-"
    ++ format_d (Z.of_nat (start + run - 1))
    ++ lit ": surrogates not allowed".

Definition exc_encode (s : list Z) : PyExc :=
  mk_exc UnicodeEncodeError (encode_error_str s).

(** [not x] for an optional string argument: [None] and [''] are falsy. *)
Definition falsy (x : option (list Z)) : bool :=
  match x with
  | None => true
  | Some [] => true
  | Some (_ :: _) => false
  end.

(** [last_name, first_name = patient_name.split(' ') if ' ' in patient_name
     else (patient_name, "Test")]: the tuple assignment needs exactly two parts. *)
Definition split_name (patient_name : list Z) : M (list Z * list Z) :=
  if str_contains_char SPACE patient_name then
    match str_split SPACE patient_name with
    | [a; b] => ret (a, b)
    | _ => raise exc_unpack
    end
  else ret (patient_name, lit "Test").

Definition MRI_ENTRY : list Z := lit "MRI001^MRI BRAIN W/O CONTRAST".

Definition study_codes : gmap (list Z) (list Z) :=
  <[lit "MRI" := lit "MRI001^MRI BRAIN W/O CONTRAST"]>
  (<[lit "CT" := lit "CT002^CT CHEST W CONTRAST"]>
  (<[lit "XRAY" := lit "XR003^CHEST XRAY 2 VIEWS"]>
  (<[lit "US" := lit "US004^ABDOMINAL ULTRASOUND"]> ∅))).

(** [study_codes.get(modality, "MRI001^MRI BRAIN W/O CONTRAST")] *)
Definition study_code_of (modality : list Z) : list Z :=
  default MRI_ENTRY (study_codes !! modality).

Definition msh_segment (timestamp message_id : list Z) : list Z :=
  lit "MSH|^~\&|RIS|MEMORIAL|RADSCHED|RAD|" ++ timestamp
  ++ lit "||SIU^S12|" ++ message_id ++ lit "|P|2.5".

Definition sch_segment (filler : Z) (apt_timestamp : list Z) : list Z :=
  lit "SCH||" ++ format_d filler ++ lit "|||||||30|MIN|^^30^" ++ apt_timestamp
  ++ lit "^^R||||||||||||||SCHEDULED".

Definition pid_segment (mrn last_name first_name : list Z) : list Z :=
  lit "PID|1||" ++ mrn ++ lit "||" ++ last_name ++ lit "^" ++ first_name
  ++ lit "||19800101|M|||123 Main St^^Boston^MA^02101||617-555-0123".

Definition rgs_segment : list Z := lit "RGS|1|A".

Definition ais_segment (study_code apt_timestamp : list Z) : list Z :=
  lit "AIS|1|A|" ++ study_code ++ lit "|" ++ apt_timestamp.

Definition aip_segment (apt_timestamp : list Z) : list Z :=
  lit "AIP|1|A|RADIOLOGIST^DOE^JOHN^MD|" ++ apt_timestamp.

(** Lines 21-69: the counter, the identifiers, the two clock readings and the
    six segments, in the order the source evaluates them. *)
Definition create_hl7_segments
    (patient_name : list Z) (mrn : option (list Z)) (modality : list Z)
  : M (list (list Z)) :=
  let* _ := incr_message_count in
  let* mrn :=
    (if falsy mrn
     then let* r := randint 100000 999999 in ret (lit "MRN" ++ format_d r)
     else ret (default [] mrn)) in
  let* s := get_self in
  let message_id := lit "MSG" ++ format_0d 6 (message_count s) in
  let* now := datetime_now in
  let timestamp := strftime_YmdHMS now in
  let* now2 := datetime_now in
  let* apt_time := lift_option exc_overflow (datetime_add now2 (timedelta_hours 2)) in
  let apt_timestamp := strftime_YmdHM apt_time in
  let msh := msh_segment timestamp message_id in
  let* filler := randint 1000 9999 in
  let sch := sch_segment filler apt_timestamp in
  let* ' (last_name, first_name) := split_name patient_name in
  let pid := pid_segment mrn last_name first_name in
  let rgs := rgs_segment in
  let study_code := study_code_of modality in
  let ais := ais_segment study_code apt_timestamp in
  let aip := aip_segment apt_timestamp in
  ret [msh; sch; pid; rgs; ais; aip].

(** Lines 72-77: join with carriage returns, add the MLLP wrapper, encode. *)
Definition mllp_wrap (segments : list (list Z)) : list Z :=
  [0x0B] ++ str_join [CR] segments ++ [0x1C; 0x0D].

Definition create_hl7_message
    (patient_name : list Z) (mrn : option (list Z)) (modality : list Z)
  : M (list Z) :=
  let* segments := create_hl7_segments patient_name mrn modality in
  let wrapped_message := mllp_wrap segments in
  lift_option (exc_encode wrapped_message) (utf8_encode wrapped_message).

(** ** [send_message] *)

Definition send_message (message : list Z) : M (bool * list Z) :=
  try_except
    (let* s := get_self in
     let* x := next_exchange in
     let* _ := emit EvSocket in
     let* _ := io (x_socket x) in
     let* _ := emit (EvConnect (host s) (port s)) in
     let* _ := io (x_connect x) in
     let* _ := emit (EvSend message) in
     let* _ := io (x_send x) in
     let* _ := emit (EvRecv 1024) in
     let* response := io (x_recv x) in
     let response := take 1024 response in
     let* _ := emit EvClose in
     let* _ := io (x_close x) in
     ret (true, utf8_decode_ignore response))
    (λ e, ret (false, exc_str e)).

(** ** [send_test_appointment] *)

Definition NAMES : list (list Z) :=
  [lit "John Doe"; lit "Jane Smith"; lit "Robert Johnson";
   lit "Mary Williams"; lit "David Brown"].

Definition MODALITIES : list (list Z) :=
  [lit "MRI"; lit "CT"; lit "XRAY"; lit "US"].

Definition send_test_appointment
    (patient_name modality : option (list Z)) : M bool :=
  let* patient_name :=
    (if falsy patient_name then random_choice [] NAMES
     else ret (default [] patient_name)) in
  let* modality :=
    (if falsy modality then random_choice [] MODALITIES
     else ret (default [] modality)) in
  let* message := create_hl7_message patient_name None modality in
  let* _ := print (Text (lit "Sending HL7 message for " ++ patient_name
                         ++ lit " - " ++ modality)) in
  let* _ := print (TextBytes (lit "Message preview: ") (take 100 message)
                             (lit "...")) in
  let* ' (success, response) := send_message message in
  let* _ :=
    (if success : bool
     then print (Text (lit "Success! Response: " ++ take 100 response))
     else print (Text (lit "Failed: " ++ response))) in
  ret success.

(** ** [run_demo_scenario] and [main] *)

Definition NL : Z := 10.

Definition run_demo_scenario (scenario : list Z) : M unit :=
  if bool_decide (scenario = lit "dramatic-save") then
    let* _ := print (Text (NL :: lit "=== DRAMATIC SAVE SCENARIO ===")) in
    let* _ := print (Text (lit "Sending appointment for John Doe - MRI with contrast...")) in
    let* _ := time_sleep 1000 in
    let* _ := send_test_appointment (Some (lit "John Doe")) (Some (lit "MRI")) in
    ret tt
  else if bool_decide (scenario = lit "efficiency-boost") then
    let* _ := print (Text (NL :: lit "=== EFFICIENCY BOOST SCENARIO ===")) in
    let* _ := print (Text (lit "Sending burst of appointments...")) in
    for_each (seqZ 0 5) (λ i,
      let* _ := send_test_appointment None None in
      time_sleep 500)
  else if bool_decide (scenario = lit "load-test") then
    let* _ := print (Text (NL :: lit "=== LOAD TEST SCENARIO ===")) in
    let* _ := print (Text (lit "Sending 100 appointments...")) in
    for_each (seqZ 0 100) (λ i,
      let* _ := send_test_appointment None None in
      let* _ :=
        (if i mod 10 =? 0
         then print (Text (lit "Progress: " ++ format_d i ++ lit "/100"))
         else ret tt) in
      time_sleep 100)
  else
    let* _ := send_test_appointment None None in
    ret tt.

(** [simulator = HL7Simulator()]: the methods that follow are called on a
    fresh instance with the default host and port. *)
Definition new_simulator : M unit :=
  λ st, (Return tt, {| self := HL7Simulator_default; world := world st |}).

(** [main()] with [sys.argv] given. *)
Definition main (argv : list (list Z)) : M unit :=
  let* _ := new_simulator in
  match argv with
  | _ :: scenario :: _ =>
      let* _ := run_demo_scenario scenario in
      ret tt
  | _ =>
      let* _ := print (Text (lit "Usage: python send-hl7.py [scenario]")) in
      let* _ := print (Text (lit "Scenarios: dramatic-save, efficiency-boost, load-test, random")) in
      let* _ := print (Text (NL :: lit "Sending random appointment...")) in
      let* _ := send_test_appointment None None in
      ret tt
  end.

(** ** Observations on results *)

(** Number of send attempts in a trace: every call of [send_message] opens
    exactly one socket, as its first action. *)
Definition is_socket_event (ev : Event) : bool :=
  match ev with
  | EvSocket => true
  | _ => false
  end.

Definition send_attempts (t : list Event) : nat :=
  length (List.filter is_socket_event t).

(** The HL7 payload of an MLLP frame and its segments and fields. *)
Definition mllp_payload (frame : list Z) : list Z :=
  take (length frame - 3) (drop 1 frame).

Definition hl7_segments (frame : list Z) : list (list Z) :=
  str_split CR (mllp_payload frame).

Definition hl7_segment (i : nat) (frame : list Z) : list Z :=
  nth i (hl7_segments frame) [].

Definition hl7_field (i j : nat) (frame : list Z) : list Z :=
  nth j (str_split PIPE (hl7_segment i frame)) [].

(** A sample world: a fixed clock, a constant random source, a peer that
    acknowledges every message. *)
Definition sample_now : datetime :=
  {| year := 2024; month := 2; day := 28;
     hour := 22; minute := 59; second := 59; microsecond := 999999 |}.

Definition sample_exchange : Exchange :=
  {| x_socket := IoOk tt; x_connect := IoOk tt; x_send := IoOk tt;
     x_recv := IoOk (lit "MSH|^~\&|RAD|ACK"); x_close := IoOk tt |}.

Definition sample_world : World :=
  {| rng := λ _, 7; rng_pos := 0;
     clock := λ _, sample_now; clock_pos := 0;
     peer := λ _, sample_exchange; peer_pos := 0;
     trace := [] |}.

Definition sample_state : State :=
  {| self := HL7Simulator_default; world := sample_world |}.


(** ** Auxiliary notions used in the statements *)

(** The check that [month_of_yday] is right at one day of the year. *)
Definition month_check (leap : bool) (n : Z) : bool :=
  let '(m, d) := month_of_yday leap n in
  (1 <=? m) && (m <=? 12) && (1 <=? d) && (d <=? dim leap m)
  && (dbm leap m + d =? n + 1).

Definition digit_or_minus (c : Z) : Prop := is_digit c = true ∨ c = MINUS.


(** The world after some draws and clock readings. *)
Definition advance (w : World) (rp cp : nat) : World :=
  {| rng := rng w; rng_pos := rp;
     clock := clock w; clock_pos := cp;
     peer := peer w; peer_pos := peer_pos w;
     trace := trace w |}.

(** The instance after one more call of [create_hl7_message]. *)
Definition bump (s : HL7Simulator) : HL7Simulator :=
  {| host := host s; port := port s; message_count := message_count s + 1 |}.

(** The generated or supplied medical record number and the position of the
    random source after it. *)
Definition mrn_of (mrn : option (list Z)) (w : World) : list Z * nat :=
  if falsy mrn
  then (lit "MRN" ++ format_d (100000 + rng w (rng_pos w) mod (999999 - 100000 + 1)),
        S (rng_pos w))
  else (default [] mrn, rng_pos w).

(** The two parts of a patient name, when the tuple assignment succeeds. *)
Definition name_parts (patient_name : list Z) : option (list Z * list Z) :=
  if str_contains_char SPACE patient_name then
    match str_split SPACE patient_name with
    | [a; b] => Some (a, b)
    | _ => None
    end
  else Some (patient_name, lit "Test").

(** The study code as the specification words it: an exact, case-sensitive
    match on the four modality keys, anything else being the MRI entry. *)
Definition study_code_spec (modality : list Z) : list Z :=
  if bool_decide (modality = lit "MRI") then lit "MRI001^MRI BRAIN W/O CONTRAST"
  else if bool_decide (modality = lit "CT") then lit "CT002^CT CHEST W CONTRAST"
  else if bool_decide (modality = lit "XRAY") then lit "XR003^CHEST XRAY 2 VIEWS"
  else if bool_decide (modality = lit "US") then lit "US004^ABDOMINAL ULTRASOUND"
  else lit "MRI001^MRI BRAIN W/O CONTRAST".

(** The local clock only yields dates of the calendar, and the program is not
    run in the very last year the calendar supports. *)
Definition clock_sane (w : World) : Prop :=
  ∀ i, datetime_valid (clock w i) = true ∧ year (clock w i) < 9999.

(** The exception of the first socket call that fails in an exchange. *)
Definition first_failure (x : Exchange) : option PyExc :=
  match x_socket x with
  | IoErr e => Some e
  | IoOk _ =>
  match x_connect x with
  | IoErr e => Some e
  | IoOk _ =>
  match x_send x with
  | IoErr e => Some e
  | IoOk _ =>
  match x_recv x with
  | IoErr e => Some e
  | IoOk _ =>
  match x_close x with
  | IoErr e => Some e
  | IoOk _ => None
  end end end end end.

(** The bytes [recv(1024)] hands back: at most the first 1024 of those that
    have arrived. *)
Definition received (x : Exchange) : list Z :=
  match x_recv x with
  | IoOk data => take 1024 data
  | IoErr _ => []
  end.

(** Socket calls fail with ordinary exceptions only (no interrupt). *)
Definition peer_sane (w : World) : Prop :=
  ∀ i e, first_failure (peer w i) = Some e → is_Exception (exc_class e) = true.

(** A caller that invokes the builder once per argument triple and keeps
    going when a call raises. *)
Fixpoint run_calls (calls : list (list Z * option (list Z) * list Z))
    (st : State) : list (outcome (list Z)) * State :=
  match calls with
  | [] => ([], st)
  | (patient_name, mrn, modality) :: rest =>
      let '(o, st1) := create_hl7_message patient_name mrn modality st in
      let '(os, st2) := run_calls rest st1 in
      (o :: os, st2)
  end.

(** Characters that may appear in a segment without disturbing the HL7
    structure or the encoding: ASCII, no carriage return, no field separator. *)
Definition plain_char (c : Z) : Prop := c < 0x80 ∧ c ≠ CR ∧ c ≠ PIPE.

Definition plain_charb (c : Z) : bool :=
  (c <? 0x80) && negb (c =? CR) && negb (c =? PIPE).

(** Characters of a segment: ASCII and no carriage return. *)
Definition seg_char (c : Z) : Prop := c < 0x80 ∧ c ≠ CR.

Definition seg_charb (c : Z) : bool := (c <? 0x80) && negb (c =? CR).

(** Three calls used as an example: the second one raises. *)
Definition sample_calls : list (list Z * option (list Z) * list Z) :=
  [(lit "Jane Smith", None, lit "CT");
   (lit "Mary Ann Smith", None, lit "MRI");
   (lit "Bob", Some (lit "X1"), lit "US")].

(** [m] returns (does not raise) from [st], with a result and a final state
    related by [Q]. *)
Definition returns {A} (m : M A) (st : State) (Q : A → State → Prop) : Prop :=
  ∃ a st', m st = (Return a, st') ∧ Q a st'.

(** The clock and the peer are the same and [n] more sends were attempted. *)
Definition sent (n : nat) (st st' : State) : Prop :=
  clock (world st') = clock (world st)
  ∧ peer (world st') = peer (world st)
  ∧ send_attempts (trace (world st')) = (send_attempts (trace (world st)) + n)%nat.

(** A patient-name argument the builder accepts and the console can show:
    absent, empty, or ASCII text without carriage return and with at most one
    space. *)
Definition good_name (patient_name : list Z) : Prop :=
  Forall seg_char patient_name ∧ is_Some (name_parts patient_name).

Definition good_name_arg (arg : option (list Z)) : Prop :=
  match arg with
  | Some (c :: n) => good_name (c :: n)
  | _ => True
  end.

(** An exchange that is refused, and a world whose peer refuses everything. *)
Definition refused : PyExc :=
  mk_exc ConnectionRefusedError (lit "[Errno 111] Connection refused").

Definition refusing_exchange : Exchange :=
  {| x_socket := IoOk tt; x_connect := IoErr refused; x_send := IoOk tt;
     x_recv := IoOk []; x_close := IoOk tt |}.

Definition refusing_state : State :=
  {| self := HL7Simulator_default;
     world := {| rng := λ _, 7; rng_pos := 0;
                 clock := λ _, sample_now; clock_pos := 0;
                 peer := λ _, refusing_exchange; peer_pos := 0;
                 trace := [] |} |}.

(** Unicode scalar values: what a well-formed [str] is made of. *)
Definition valid_scalar (c : Z) : Prop :=
  0 <= c <= 0x10FFFF ∧ ¬ (0xD800 <= c <= 0xDFFF).

Definition is_byte (b : Z) : Prop := 0 <= b < 256.

(** ** Notions used for the remaining functions *)

(** The socket calls of one exchange, in order, up to the first failure. *)
Definition net_events (x : Exchange) (h : list Z) (p : Z) (message : list Z)
  : list Event :=
  EvSocket ::
  match x_socket x with
  | IoErr _ => []
  | IoOk _ =>
  EvConnect h p ::
  match x_connect x with
  | IoErr _ => []
  | IoOk _ =>
  EvSend message ::
  match x_send x with
  | IoErr _ => []
  | IoOk _ =>
  EvRecv 1024 ::
  match x_recv x with
  | IoErr _ => []
  | IoOk _ => [EvClose]
  end end end end.

(** The state after one exchange that performed the socket calls [evs]. *)
Definition after_exchange (st : State) (evs : list Event) : State :=
  {| self := self st;
     world := {| rng := rng (world st); rng_pos := rng_pos (world st);
                 clock := clock (world st); clock_pos := clock_pos (world st);
                 peer := peer (world st); peer_pos := S (peer_pos (world st));
                 trace := trace (world st) ++ evs |} |}.

(** What [send_message] hands back for an exchange. *)
Definition send_outcome (x : Exchange) : outcome (bool * list Z) :=
  match first_failure x with
  | Some e =>
      if is_Exception (exc_class e) then Return (false, exc_str e) else Raise e
  | None => Return (true, utf8_decode_ignore (received x))
  end.

(** An exchange in which every socket call succeeds, [data] being the bytes
    that have arrived when [recv] is called: all the peer wrote, or only the
    first part of it. *)
Definition receiving (data : list Z) : Exchange :=
  {| x_socket := IoOk tt; x_connect := IoOk tt; x_send := IoOk tt;
     x_recv := IoOk data; x_close := IoOk tt |}.

(** [len(s.encode('utf-8'))] for a string the codec accepts. *)
Definition utf8_length (s : list Z) : nat :=
  match utf8_encode s with
  | Some b => length b
  | None => 0
  end.

Definition receiving_state (data : list Z) : State :=
  {| self := HL7Simulator_default;
     world := {| rng := λ _, 7; rng_pos := 0;
                 clock := λ _, sample_now; clock_pos := 0;
                 peer := λ _, receiving data; peer_pos := 0;
                 trace := [] |} |}.

(** A character that [encode('utf-8')] accepts. *)
Definition encodable (c : Z) : Prop := is_surrogate c = false.

Definition encodableb (c : Z) : bool := negb (is_surrogate c).

(** A clock stuck in the last two hours of the calendar. *)
Definition last_hours : datetime :=
  {| year := 9999; month := 12; day := 31;
     hour := 22; minute := 0; second := 0; microsecond := 0 |}.

Definition last_hours_state : State :=
  {| self := HL7Simulator_default;
     world := {| rng := λ _, 7; rng_pos := 0;
                 clock := λ _, last_hours; clock_pos := 0;
                 peer := λ _, sample_exchange; peer_pos := 0;
                 trace := [] |} |}.

(** The names of the six segments, in the order they are emitted. *)
Definition SEGMENT_IDS : list (list Z) :=
  [lit "MSH"; lit "SCH"; lit "PID"; lit "RGS"; lit "AIS"; lit "AIP"].

(** [s.count(c)] for a one-character [c]. *)
Definition str_count (c : Z) (s : list Z) : nat :=
  length (List.filter (Z.eqb c) s).

(** An ASCII string, carriage returns and field separators allowed. *)
Definition ascii_str (s : list Z) : Prop := Forall (λ c, c < 0x80) s.

(** The state with more events on its trace. *)
Definition logged (st : State) (evs : list Event) : State :=
  {| self := self st;
     world := {| rng := rng (world st); rng_pos := rng_pos (world st);
                 clock := clock (world st); clock_pos := clock_pos (world st);
                 peer := peer (world st); peer_pos := peer_pos (world st);
                 trace := trace (world st) ++ evs |} |}.

(** The line [send_test_appointment] prints after the exchange. *)
Definition result_line (x : Exchange) : ConsoleLine :=
  match first_failure x with
  | None => Text (lit "Success! Response: "
                  ++ take 100 (utf8_decode_ignore (received x)))
  | Some e => Text (lit "Failed: " ++ exc_str e)
  end.

(** Everything one appointment adds to the trace. *)
Definition appointment_events (x : Exchange) (h : list Z) (p : Z)
    (patient_name modality frame : list Z) : list Event :=
  [EvPrint (Text (lit "Sending HL7 message for " ++ patient_name
                  ++ lit " - " ++ modality));
   EvPrint (TextBytes (lit "Message preview: ") (take 100 frame) (lit "..."))]
  ++ net_events x h p frame
  ++ [EvPrint (result_line x)].

(** A modality argument the console can show: absent, empty, or ASCII text. *)
Definition printable_arg (arg : option (list Z)) : Prop :=
  ascii_str (default [] arg).

(** The argument is used as given when truthy, else an element of the pool
    is drawn. *)
Definition chosen (arg : option (list Z)) (pool : list (list Z)) (v : list Z) : Prop :=
  if falsy arg then v ∈ pool else arg = Some v.

(** A weighted count of [print] calls and sleeping time: [wp] per call of
    [print], [ws] per millisecond slept; socket calls weigh nothing. *)
Definition weight (wp ws : Z) (ev : Event) : Z :=
  match ev with
  | EvPrint _ => wp
  | EvSleep millis => ws * millis
  | _ => 0
  end.

Definition total (wp ws : Z) (t : list Event) : Z :=
  foldr (λ ev n, weight wp ws ev + n) 0 t.

(** Calls of [print] and milliseconds slept in a trace. *)
Definition print_calls (t : list Event) : Z := total 1 0 t.
Definition slept_millis (t : list Event) : Z := total 0 1 t.

(** The clock and the peer are the same, [host] and [port] are unchanged, the
    counter grew by [k] and the weighted total by [n]. *)
Definition ran (wp ws n k : Z) (st st' : State) : Prop :=
  clock (world st') = clock (world st)
  ∧ peer (world st') = peer (world st)
  ∧ host (self st') = host (self st)
  ∧ port (self st') = port (self st)
  ∧ message_count (self st') = message_count (self st) + k
  ∧ total wp ws (trace (world st')) = total wp ws (trace (world st)) + n.

Definition sumZ {A} (f : A → Z) (l : list A) : Z :=
  foldr (λ x n, f x + n) 0 l.

(** The three [print] calls of [main] when no scenario is given. *)
Definition USAGE : list Event :=
  [EvPrint (Text (lit "Usage: python send-hl7.py [scenario]"));
   EvPrint (Text (lit "Scenarios: dramatic-save, efficiency-boost, load-test, random"));
   EvPrint (Text (NL :: lit "Sending random appointment..."))].

(** The minute a [YYYYMMDDHHMM] text denotes, counted like [minutes_of]. *)
Definition stamp_minutes (ts : list Z) : Z :=
  let '(y, m, d, h, mi) := parse_YmdHM ts in
  ymd2ord y m d * 1440 + h * 60 + mi.

(** A clock read just before and just after ten o'clock: a minute starts
    between the first and the second reading. *)
Definition before_ten : datetime :=
  {| year := 2024; month := 5; day := 17; hour := 9; minute := 59;
     second := 59; microsecond := 999990 |}.

Definition after_ten : datetime :=
  {| year := 2024; month := 5; day := 17; hour := 10; minute := 0;
     second := 0; microsecond := 12 |}.

Definition minute_turn_state : State :=
  {| self := HL7Simulator_default;
     world := {| rng := λ _, 7; rng_pos := 0;
                 clock := λ i, if Nat.eqb i 0 then before_ten else after_ten;
                 clock_pos := 0;
                 peer := λ _, sample_exchange; peer_pos := 0;
                 trace := [] |} |}.

(** * Properties *)

(** ** Strings *)

Lemma str_split_nonempty c s : str_split c s ≠ [].
Proof.
  destruct s as [|x r]; simpl; [done|].
  destruct (x =? c); [done|]. by destruct (str_split c r).
Qed.

Lemma str_contains_char_false c s :
  str_contains_char c s = false ↔ Forall (λ x, x ≠ c) s.
Proof.
  unfold str_contains_char. induction s as [|x r IH]; simpl.
  - split; [constructor | done].
  - rewrite orb_false_iff, IH, Forall_cons. rewrite Z.eqb_neq. split; intros []; split; congruence.
Qed.

Lemma str_split_no_sep c s :
  Forall (λ x, x ≠ c) s → str_split c s = [s].
Proof.
  induction 1 as [|x r Hx _ IH]; simpl; [done|].
  apply Z.eqb_neq in Hx. by rewrite Hx, IH.
Qed.

Lemma str_split_app c a b :
  Forall (λ x, x ≠ c) a → str_split c (a ++ c :: b) = a :: str_split c b.
Proof.
  induction 1 as [|x r Hx _ IH]; simpl.
  - by rewrite Z.eqb_refl.
  - apply Z.eqb_neq in Hx. by rewrite Hx, IH.
Qed.

Lemma str_split_length c s :
  length (str_split c s) = S (length (List.filter (Z.eqb c) s)).
Proof.
  induction s as [|x r IH]; simpl; [done|].
  rewrite (Z.eqb_sym c x). destruct (x =? c); simpl; [by rewrite IH|].
  destruct (str_split c r) eqn:E; simpl in *; [lia | done].
Qed.

Lemma str_startswith_app sub s : str_startswith sub (sub ++ s) = true.
Proof. induction sub as [|a r IH]; simpl; [done|]. by rewrite Z.eqb_refl, IH. Qed.

Lemma str_contains_unfold sub s :
  str_contains sub s
  = str_startswith sub s || match s with [] => false | _ :: s' => str_contains sub s' end.
Proof. by destruct s. Qed.

Lemma str_contains_app sub a b : str_contains sub (a ++ sub ++ b) = true.
Proof.
  induction a as [|x r IH]; simpl.
  - by rewrite str_contains_unfold, str_startswith_app.
  - rewrite IH. apply orb_true_r.
Qed.

Lemma str_join_six sep a b c d e f :
  str_join sep [a; b; c; d; e; f]
  = a ++ sep ++ b ++ sep ++ c ++ sep ++ d ++ sep ++ e ++ sep ++ f.
Proof. reflexivity. Qed.

(** ** Decimal numerals *)

Lemma digits_aux_digits fuel : ∀ n acc,
  Forall (λ c, is_digit c = true) acc →
  Forall (λ c, is_digit c = true) (digits_aux fuel n acc).
Proof.
  induction fuel as [|f IH]; intros n acc Hacc; simpl; [done|].
  assert (Forall (λ c, is_digit c = true) ((ZERO_DIGIT + n mod 10) :: acc)).
  { constructor; [|done]. unfold is_digit, ZERO_DIGIT.
    pose proof (Z.mod_pos_bound n 10). lia. }
  destruct (n / 10 =? 0); auto.
Qed.

Lemma str_of_nonneg_digits n : Forall (λ c, is_digit c = true) (str_of_nonneg n).
Proof. apply digits_aux_digits. constructor. Qed.

Lemma format_d_chars n : Forall digit_or_minus (format_d n).
Proof.
  unfold format_d. destruct (n <? 0).
  - constructor; [by right|].
    eapply Forall_impl; [apply str_of_nonneg_digits|]. by left.
  - eapply Forall_impl; [apply str_of_nonneg_digits|]. by left.
Qed.

Lemma format_0d_chars w n : Forall digit_or_minus (format_0d w n).
Proof.
  assert (Hz : ∀ k, Forall digit_or_minus (replicate k ZERO_DIGIT)).
  { intros k. apply Forall_replicate. by left. }
  assert (Hd : Forall digit_or_minus (str_of_nonneg (Z.abs n))).
  { eapply Forall_impl; [apply str_of_nonneg_digits|]. by left. }
  unfold format_0d. destruct (n <? 0).
  - constructor; [by right|]. apply Forall_app; auto.
  - apply Forall_app; auto.
Qed.

Lemma digits_aux_value fuel : ∀ n acc,
  0 <= n < 2 ^ Z.of_nat fuel →
  int_of_digits (digits_aux fuel n acc)
  = fold_left (λ a c, 10 * a + (c - ZERO_DIGIT)) acc n.
Proof.
  unfold int_of_digits.
  induction fuel as [|f IH]; intros n acc Hn.
  - simpl in *. by replace n with 0 by lia.
  - cbn [digits_aux].
    assert (Hdiv : 0 <= n / 10 < 2 ^ Z.of_nat f).
    { rewrite Nat2Z.inj_succ, Z.pow_succ_r in Hn by lia.
      split; [apply Z.div_pos; lia|].
      apply Z.div_lt_upper_bound; lia. }
    pose proof (Z.div_mod n 10 ltac:(lia)) as Hdm.
    destruct (n / 10 =? 0) eqn:E.
    + apply Z.eqb_eq in E. simpl. f_equal. unfold ZERO_DIGIT. lia.
    + rewrite IH by done. simpl. f_equal. unfold ZERO_DIGIT. lia.
Qed.

Lemma str_of_nonneg_value n : 0 <= n → int_of_digits (str_of_nonneg n) = n.
Proof.
  intros Hn. unfold str_of_nonneg. rewrite digits_aux_value; [done|].
  split; [done|]. rewrite Nat2Z.inj_succ, Z2Nat.id by apply Z.log2_nonneg.
  destruct (Z.eq_dec n 0) as [->|]; [done|].
  apply Z.log2_spec. lia.
Qed.

Lemma int_of_digits_zeros k s :
  int_of_digits (replicate k ZERO_DIGIT ++ s) = int_of_digits s.
Proof. unfold int_of_digits. induction k as [|k IH]; simpl; [done|]. apply IH. Qed.

(** A zero-padded numeral reads back as the number it was made from. *)
Lemma format_0d_value w n : 0 <= n → int_of_digits (format_0d w n) = n.
Proof.
  intros Hn. unfold format_0d.
  destruct (n <? 0) eqn:E; [apply Z.ltb_lt in E; lia|].
  rewrite int_of_digits_zeros, Z.abs_eq by done. by apply str_of_nonneg_value.
Qed.

Lemma format_d_value n : 0 <= n → int_of_digits (format_d n) = n.
Proof.
  intros Hn. unfold format_d.
  destruct (n <? 0) eqn:E; [apply Z.ltb_lt in E; lia|]. by apply str_of_nonneg_value.
Qed.

(** A number with exactly [k] decimal digits is printed with [k] characters. *)
Lemma digits_aux_length k : ∀ fuel n acc,
  (S k ≤ fuel)%nat →
  0 <= n < 10 ^ Z.of_nat (S k) →
  (k = 0%nat ∨ 10 ^ Z.of_nat k <= n) →
  length (digits_aux fuel n acc) = (S k + length acc)%nat.
Proof.
  induction k as [|k IH]; intros fuel n acc Hf Hn Hlow;
    (destruct fuel as [|f]; [lia|]); cbn [digits_aux].
  - change (10 ^ Z.of_nat 1) with 10 in Hn.
    rewrite Z.div_small by lia. done.
  - destruct Hlow as [|Hlow]; [done|].
    rewrite Nat2Z.inj_succ, Z.pow_succ_r in Hn, Hlow by lia.
    assert (10 ^ Z.of_nat k <= n / 10) by (apply Z.div_le_lower_bound; lia).
    assert (n / 10 < 10 ^ Z.of_nat (S k)).
    { apply Z.div_lt_upper_bound; lia. }
    assert (0 < 10 ^ Z.of_nat k) by (apply Z.pow_pos_nonneg; lia).
    destruct (n / 10 =? 0) eqn:E; [apply Z.eqb_eq in E; lia|].
    rewrite IH; simpl; try lia.
Qed.

Lemma str_of_nonneg_length k n :
  10 ^ Z.of_nat k <= n < 10 ^ Z.of_nat (S k) →
  length (str_of_nonneg n) = S k.
Proof.
  intros [Hlo Hhi]. unfold str_of_nonneg.
  assert (0 < 10 ^ Z.of_nat k) by (apply Z.pow_pos_nonneg; lia).
  rewrite (digits_aux_length k); simpl; try lia.
  assert (Z.of_nat k <= Z.log2 n); [|lia].
  apply Z.log2_le_pow2; [lia|].
  etrans; [|exact Hlo]. apply Z.pow_le_mono_l. lia.
Qed.

Lemma str_of_nonneg_length_le k n :
  0 <= n < 10 ^ Z.of_nat (S k) → (1 ≤ length (str_of_nonneg n) ≤ S k)%nat.
Proof.
  revert n. induction k as [|k IH]; intros n [Hlo Hhi].
  - unfold str_of_nonneg. rewrite (digits_aux_length 0); simpl; try lia.
  - destruct (Z_lt_le_dec n (10 ^ Z.of_nat (S k))) as [Hlt|Hge].
    + specialize (IH n ltac:(lia)). lia.
    + rewrite (str_of_nonneg_length (S k)); lia.
Qed.

(** [{n:0wd}] has exactly [w] characters when [n] has at most [w] digits. *)
Lemma format_0d_length w n :
  (1 ≤ w)%nat → 0 <= n < 10 ^ Z.of_nat w →
  length (format_0d w n) = w.
Proof.
  intros Hw Hn. unfold format_0d.
  destruct (n <? 0) eqn:E; [apply Z.ltb_lt in E; lia|].
  rewrite Z.abs_eq by lia. destruct w as [|k]; [lia|].
  pose proof (str_of_nonneg_length_le k n Hn).
  rewrite length_app, length_replicate. lia.
Qed.

Lemma format_0d_digits w n :
  0 <= n → Forall (λ c, is_digit c = true) (format_0d w n).
Proof.
  intros Hn. unfold format_0d.
  destruct (n <? 0) eqn:E; [apply Z.ltb_lt in E; lia|].
  apply Forall_app. split; [by apply Forall_replicate|apply str_of_nonneg_digits].
Qed.

(** ** Calendar arithmetic *)

Lemma is_leap_true y :
  is_leap y = true ↔ y mod 4 = 0 ∧ (y mod 100 ≠ 0 ∨ y mod 400 = 0).
Proof.
  unfold is_leap.
  rewrite andb_true_iff, orb_true_iff, negb_true_iff, !Z.eqb_eq, Z.eqb_neq. done.
Qed.

Lemma year_decomp n400 n100 n4 n1 :
  0 <= n400 → 0 <= n100 <= 3 → 0 <= n4 <= 24 → 0 <= n1 <= 3 →
  let y := n400 * 400 + 1 + n100 * 100 + n4 * 4 + n1 in
  days_before_year y = n400 * DI400Y + n100 * DI100Y + n4 * DI4Y + n1 * 365
  ∧ is_leap y = (n1 =? 3) && (negb (n4 =? 24) || (n100 =? 3)).
Proof.
  intros H400 H100 H4 H1 y. split.
  - unfold days_before_year, DI400Y, DI100Y, DI4Y. subst y.
    Z.div_mod_to_equations. lia.
  - apply eq_true_iff_eq. rewrite is_leap_true.
    rewrite andb_true_iff, orb_true_iff, negb_true_iff, !Z.eqb_eq, Z.eqb_neq.
    subst y. Z.div_mod_to_equations. lia.
Qed.

Lemma month_of_yday_ok leap n :
  0 <= n < 365 →
  ∃ m d, month_of_yday leap n = (m, d)
         ∧ 1 <= m <= 12 ∧ 1 <= d <= dim leap m ∧ dbm leap m + d = n + 1.
Proof.
  intros Hn.
  assert (Hall : forallb (month_check leap) (seqZ 0 365) = true)
    by (destruct leap; vm_compute; reflexivity).
  rewrite forallb_forall in Hall.
  specialize (Hall n). unfold month_check in Hall.
  destruct (month_of_yday leap n) as [m d]. exists m, d.
  assert (Hin : In n (seqZ 0 365)) by (apply list_elem_of_In, elem_of_seqZ; lia).
  specialize (Hall Hin).
  rewrite !andb_true_iff, !Z.leb_le, Z.eqb_eq in Hall.
  split; [done|]. lia.
Qed.

(** [ord2ymd] inverts [ymd2ord] on every ordinal of the supported range and
    yields a date of the calendar. *)
Lemma ord2ymd_spec n0 :
  1 <= n0 <= MAXORDINAL →
  ∃ y m d, ord2ymd n0 = (y, m, d)
    ∧ ymd2ord y m d = n0
    ∧ 1 <= y <= 9999 ∧ 1 <= m <= 12 ∧ 1 <= d <= days_in_month y m.
Proof.
  intros Hn0. unfold ord2ymd, MAXORDINAL in *.
  set (a := n0 - 1).
  set (n400 := a / DI400Y). set (r400 := a mod DI400Y).
  set (n100 := r400 / DI100Y). set (r100 := r400 mod DI100Y).
  set (n4 := r100 / DI4Y). set (r4 := r100 mod DI4Y).
  set (n1 := r4 / 365). set (r1 := r4 mod 365).
  assert (E400 : a = DI400Y * n400 + r400 ∧ 0 <= r400 < DI400Y).
  { split; [apply Z.div_mod; done | apply Z.mod_pos_bound; done]. }
  assert (E100 : r400 = DI100Y * n100 + r100 ∧ 0 <= r100 < DI100Y).
  { split; [apply Z.div_mod; done | apply Z.mod_pos_bound; done]. }
  assert (E4 : r100 = DI4Y * n4 + r4 ∧ 0 <= r4 < DI4Y).
  { split; [apply Z.div_mod; done | apply Z.mod_pos_bound; done]. }
  assert (E1 : r4 = 365 * n1 + r1 ∧ 0 <= r1 < 365).
  { split; [apply Z.div_mod; done | apply Z.mod_pos_bound; done]. }
  assert (Ha : a = n0 - 1) by done.
  clearbody a n400 r400 n100 r100 n4 r4 n1 r1.
  unfold DI400Y, DI100Y, DI4Y in *.
  destruct ((n1 =? 4) || (n100 =? 4)) eqn:Hspecial.
  - (* 31 December of a leap year *)
    exists (n400 * 400 + 1 + n100 * 100 + n4 * 4 + n1 - 1), 12, 31.
    split; [done|].
    apply orb_true_iff in Hspecial. rewrite !Z.eqb_eq in Hspecial.
    destruct Hspecial as [-> | ->].
    + destruct (year_decomp n400 n100 n4 3) as [Hd Hl]; try lia.
      replace (n400 * 400 + 1 + n100 * 100 + n4 * 4 + 4 - 1)
        with (n400 * 400 + 1 + n100 * 100 + n4 * 4 + 3) by lia.
      unfold ymd2ord, days_before_month, days_in_month. rewrite Hd, Hl.
      assert (n4 ≠ 24) by lia.
      replace (n4 =? 24) with false by (symmetry; by apply Z.eqb_neq).
      unfold DI400Y, DI100Y, DI4Y. simpl.
      change (dbm true 12) with 335. change (dim true 12) with 31. lia.
    + destruct (year_decomp n400 3 24 3) as [Hd Hl]; try lia.
      replace (n400 * 400 + 1 + 4 * 100 + n4 * 4 + n1 - 1)
        with (n400 * 400 + 1 + 3 * 100 + 24 * 4 + 3) by lia.
      unfold ymd2ord, days_before_month, days_in_month. rewrite Hd, Hl.
      unfold DI400Y, DI100Y, DI4Y. simpl.
      change (dbm true 12) with 335. change (dim true 12) with 31. lia.
  - apply orb_false_iff in Hspecial. rewrite !Z.eqb_neq in Hspecial.
    destruct (year_decomp n400 n100 n4 n1) as [Hd Hl]; try lia.
    destruct (month_of_yday_ok ((n1 =? 3) && (negb (n4 =? 24) || (n100 =? 3))) r1)
      as (m & d & Hmd & Hm & Hday & Hsum); [lia|].
    rewrite Hmd. eexists _, m, d. split; [done|].
    unfold ymd2ord, days_before_month, days_in_month. rewrite Hd, Hl.
    unfold DI400Y, DI100Y, DI4Y. lia.
Qed.

Lemma datetime_valid_iff dt :
  datetime_valid dt = true ↔
  1 <= year dt <= 9999 ∧ 1 <= month dt <= 12
  ∧ 1 <= day dt <= days_in_month (year dt) (month dt)
  ∧ 0 <= hour dt < 24 ∧ 0 <= minute dt < 60 ∧ 0 <= second dt < 60
  ∧ 0 <= microsecond dt < 1000000.
Proof.
  unfold datetime_valid. rewrite !andb_true_iff, !Z.leb_le, !Z.ltb_lt. tauto.
Qed.

Lemma day_of_year_bounds leap m d :
  1 <= m <= 12 → 1 <= d <= dim leap m →
  1 <= dbm leap m + d <= (if leap then 366 else 365).
Proof.
  intros Hm Hd.
  assert (Hcases : m = 1 ∨ m = 2 ∨ m = 3 ∨ m = 4 ∨ m = 5 ∨ m = 6 ∨ m = 7
                   ∨ m = 8 ∨ m = 9 ∨ m = 10 ∨ m = 11 ∨ m = 12) by lia.
  destruct leap; repeat (destruct Hcases as [-> | Hcases]); try subst m;
    set (x := dim _ _) in Hd; vm_compute in x; subst x;
    set (x := dbm _ _); vm_compute in x; subst x; lia.
Qed.

Lemma days_before_year_bounds y :
  1 <= y <= 9999 → 0 <= days_before_year y <= 3651694.
Proof. intros Hy. unfold days_before_year. Z.div_mod_to_equations. lia. Qed.

Lemma days_before_year_9998 y :
  1 <= y <= 9998 → days_before_year y <= 3651329.
Proof. intros Hy. unfold days_before_year. Z.div_mod_to_equations. lia. Qed.

Lemma toordinal_bounds dt :
  datetime_valid dt = true →
  1 <= toordinal dt <= MAXORDINAL
  ∧ (year dt < 9999 → toordinal dt <= MAXORDINAL - 364).
Proof.
  rewrite datetime_valid_iff. intros (Hy & Hm & Hd & _).
  unfold toordinal, ymd2ord, days_before_month, days_in_month, MAXORDINAL in *.
  pose proof (day_of_year_bounds _ _ _ Hm Hd) as Hdoy.
  pose proof (days_before_year_bounds _ Hy).
  pose proof (days_before_year_9998 (year dt)) as H9998.
  destruct (Z.eq_dec (year dt) 9999) as [E|E].
  - rewrite E in *. change (is_leap 9999) with false in Hdoy.
    change (is_leap 9999) with false. split; lia.
  - destruct (is_leap (year dt)); split; lia.
Qed.

Lemma timedelta_two_hours :
  timedelta_hours 2 = {| td_days := 0; td_seconds := 7200; td_microseconds := 0 |}.
Proof. reflexivity. Qed.

(** What [now + timedelta(hours=2)] is when it does not overflow: a date of
    the calendar exactly 120 minutes later, seconds and microseconds kept. *)
Lemma datetime_add_two_hours dt apt :
  datetime_valid dt = true →
  datetime_add dt (timedelta_hours 2) = Some apt →
  datetime_valid apt = true
  ∧ minutes_of apt = minutes_of dt + 120
  ∧ second apt = second dt ∧ microsecond apt = microsecond dt.
Proof.
  intros Hv. pose proof (toordinal_bounds dt Hv) as [Hord _].
  apply datetime_valid_iff in Hv as (Hy & Hm & Hd & Hh & Hmi & Hs & Hus).
  rewrite timedelta_two_hours. unfold datetime_add, timedelta_norm.
  cbn [td_days td_seconds td_microseconds].
  rewrite Z.add_0_r, (Z.add_0_r (microsecond dt)).
  rewrite (Z.div_small (microsecond dt)), (Z.mod_small (microsecond dt)) by lia.
  rewrite Z.add_0_r.
  set (T := hour dt * 3600 + minute dt * 60 + second dt + 7200).
  set (days := toordinal dt + T / 86400).
  destruct ((0 <? days) && (days <=? MAXORDINAL)) eqn:Hrange; [|done].
  apply andb_true_iff in Hrange as [Hlo Hhi].
  apply Z.ltb_lt in Hlo. apply Z.leb_le in Hhi.
  destruct (ord2ymd_spec days) as (y & m & d & Hymd & Hinv & Hy' & Hm' & Hd');
    [lia|].
  rewrite Hymd. intros [= <-].
  split; [|split; [|split]].
  - apply datetime_valid_iff. cbn [year month day hour minute second microsecond].
    repeat split; try lia; subst T; Z.div_mod_to_equations; lia.
  - unfold minutes_of, toordinal.
    cbn [year month day hour minute second microsecond].
    rewrite Hinv. fold (toordinal dt). subst days T.
    Z.div_mod_to_equations. lia.
  - cbn [second]. subst T. Z.div_mod_to_equations. lia.
  - done.
Qed.

(** Away from the last year of the calendar the addition never overflows. *)
Lemma datetime_add_two_hours_ok dt :
  datetime_valid dt = true → year dt < 9999 →
  ∃ apt, datetime_add dt (timedelta_hours 2) = Some apt.
Proof.
  intros Hv Hy. pose proof (toordinal_bounds dt Hv) as [Hord Hmax].
  specialize (Hmax Hy).
  apply datetime_valid_iff in Hv as (_ & _ & _ & Hh & Hmi & Hs & Hus).
  rewrite timedelta_two_hours. unfold datetime_add, timedelta_norm.
  cbn [td_days td_seconds td_microseconds].
  rewrite Z.add_0_r, (Z.add_0_r (microsecond dt)).
  rewrite (Z.div_small (microsecond dt)) by lia. rewrite Z.add_0_r.
  set (T := hour dt * 3600 + minute dt * 60 + second dt + 7200).
  set (days := toordinal dt + T / 86400).
  assert (Hdays : 0 < days <= MAXORDINAL).
  { subst days T. unfold MAXORDINAL in *. Z.div_mod_to_equations. lia. }
  replace ((0 <? days) && (days <=? MAXORDINAL)) with true.
  - destruct (ord2ymd days) as [[y m] d]. eauto.
  - symmetry. apply andb_true_iff. rewrite Z.ltb_lt, Z.leb_le. lia.
Qed.

(** ** UTF-8 *)

Lemma utf8_encode_app a b :
  utf8_encode (a ++ b)
  = match utf8_encode a, utf8_encode b with
    | Some x, Some y => Some (x ++ y)
    | _, _ => None
    end.
Proof.
  induction a as [|c r IH]; simpl.
  - by destruct (utf8_encode b).
  - rewrite IH. destruct (utf8_encode_char c) as [bs|]; [|done].
    destruct (utf8_encode r) as [x|]; [|done].
    destruct (utf8_encode b) as [y|]; [|done]. by rewrite app_assoc.
Qed.

Lemma utf8_encode_ascii s :
  Forall (λ c, c < 0x80) s → utf8_encode s = Some s.
Proof.
  induction 1 as [|c r Hc _ IH]; simpl; [done|].
  unfold utf8_encode_char. apply Z.ltb_lt in Hc. by rewrite Hc, IH.
Qed.

(** ** Symbolic execution of the builder *)

Lemma create_hl7_segments_unfold patient_name mrn modality st :
  create_hl7_segments patient_name mrn modality st
  = let w := world st in
    let s1 := bump (self st) in
    let '(mrn_str, rp) := mrn_of mrn w in
    let now := clock w (clock_pos w) in
    let now2 := clock w (S (clock_pos w)) in
    match datetime_add now2 (timedelta_hours 2) with
    | None =>
        (Raise exc_overflow,
         {| self := s1; world := advance w rp (S (S (clock_pos w))) |})
    | Some apt_time =>
        let st' := {| self := s1;
                      world := advance w (S rp) (S (S (clock_pos w))) |} in
        let apt_timestamp := strftime_YmdHM apt_time in
        match name_parts patient_name with
        | None => (Raise exc_unpack, st')
        | Some (last_name, first_name) =>
            (Return
               [msh_segment (strftime_YmdHMS now)
                            (lit "MSG" ++ format_0d 6 (message_count s1));
                sch_segment (1000 + rng w rp mod (9999 - 1000 + 1)) apt_timestamp;
                pid_segment mrn_str last_name first_name;
                rgs_segment;
                ais_segment (study_code_of modality) apt_timestamp;
                aip_segment apt_timestamp],
             st')
        end
    end.
Proof.
  unfold create_hl7_segments, mrn_of, name_parts, split_name.
  destruct st as [s w]. cbn [self world].
  destruct (falsy mrn);
    cbv [bind ret raise incr_message_count randint random_raw get_self
         datetime_now lift_option advance bump];
    cbn [self world rng rng_pos clock clock_pos peer peer_pos trace
         message_count host port];
    (destruct (datetime_add _ _) as [apt|]; [|reflexivity]);
    (destruct (str_contains_char SPACE patient_name); [|reflexivity]);
    (destruct (str_split SPACE patient_name) as [|a [|b [|c l]]]; reflexivity).
Qed.

Lemma create_hl7_message_unfold patient_name mrn modality st :
  create_hl7_message patient_name mrn modality st
  = match create_hl7_segments patient_name mrn modality st with
    | (Return segments, st') =>
        match utf8_encode (mllp_wrap segments) with
        | Some frame => (Return frame, st')
        | None => (Raise (exc_encode (mllp_wrap segments)), st')
        end
    | (Raise e, st') => (Raise e, st')
    end.
Proof.
  unfold create_hl7_message, bind.
  destruct (create_hl7_segments _ _ _ _) as [[segs|e] st']; [|done].
  by destruct (utf8_encode _).
Qed.

(** The state after [create_hl7_segments], whatever its outcome. *)
Lemma create_hl7_segments_state patient_name mrn modality st :
  let st' := snd (create_hl7_segments patient_name mrn modality st) in
  self st' = bump (self st)
  ∧ peer (world st') = peer (world st)
  ∧ peer_pos (world st') = peer_pos (world st)
  ∧ trace (world st') = trace (world st)
  ∧ clock (world st') = clock (world st)
  ∧ rng (world st') = rng (world st).
Proof.
  rewrite create_hl7_segments_unfold. cbv zeta.
  destruct (mrn_of mrn (world st)) as [m rp].
  destruct (datetime_add _ _); [|done].
  destruct (name_parts patient_name) as [[a b]|]; done.
Qed.

Lemma create_hl7_message_state patient_name mrn modality st :
  snd (create_hl7_message patient_name mrn modality st)
  = snd (create_hl7_segments patient_name mrn modality st).
Proof.
  rewrite create_hl7_message_unfold.
  destruct (create_hl7_segments _ _ _ _) as [[segs|e] st']; [|done].
  by destruct (utf8_encode _).
Qed.

Lemma create_hl7_message_mutates_counter_aux patient_name mrn modality st :
  message_count (self (snd (create_hl7_message patient_name mrn modality st)))
  = message_count (self st) + 1.
Proof.
  rewrite create_hl7_message_state.
  destruct (create_hl7_segments_state patient_name mrn modality st) as (Hs & _).
  by rewrite Hs.
Qed.

(** ** The frame effect of the builder *)

(** C9: a call of [create_hl7_message] changes, of the instance, only
    [message_count], which grows by one; [host] and [port] are unchanged,
    whether the call returns or raises.  Nothing is printed or sent. *)
Theorem create_hl7_message_mutates_only_counter patient_name mrn modality st :
  let st' := snd (create_hl7_message patient_name mrn modality st) in
  host (self st') = host (self st)
  ∧ port (self st') = port (self st)
  ∧ message_count (self st') = message_count (self st) + 1
  ∧ trace (world st') = trace (world st)
  ∧ peer_pos (world st') = peer_pos (world st).
Proof.
  cbv zeta. rewrite create_hl7_message_state.
  destruct (create_hl7_segments_state patient_name mrn modality st)
    as (Hs & _ & Hp & Ht & _).
  rewrite Hs, Hp, Ht. done.
Qed.

(** ** MLLP framing *)

Lemma mllp_wrap_encode segments frame :
  utf8_encode (mllp_wrap segments) = Some frame →
  ∃ payload, utf8_encode (str_join [CR] segments) = Some payload
             ∧ frame = [0x0B] ++ payload ++ [0x1C; 0x0D].
Proof.
  unfold mllp_wrap. rewrite !utf8_encode_app.
  change (utf8_encode [11]) with (Some [11]).
  change (utf8_encode [28; 13]) with (Some [28; 13]).
  destruct (utf8_encode (str_join [CR] segments)) as [payload|]; [|done].
  intros [= <-]. by exists payload.
Qed.

Lemma create_hl7_segments_six patient_name mrn modality st segments st' :
  create_hl7_segments patient_name mrn modality st = (Return segments, st') →
  length segments = 6%nat.
Proof.
  rewrite create_hl7_segments_unfold. cbv zeta.
  destruct (mrn_of mrn (world st)) as [m rp].
  destruct (datetime_add _ _); [|done].
  destruct (name_parts patient_name) as [[a b]|]; [|done].
  by intros [= <- _].
Qed.

(** The shape of every returned frame. *)
Lemma create_hl7_message_frame_shape patient_name mrn modality st frame st' :
  create_hl7_message patient_name mrn modality st = (Return frame, st') →
  ∃ segments payload,
    create_hl7_segments patient_name mrn modality st = (Return segments, st')
    ∧ length segments = 6%nat
    ∧ utf8_encode (str_join [CR] segments) = Some payload
    ∧ frame = [0x0B] ++ payload ++ [0x1C; 0x0D].
Proof.
  rewrite create_hl7_message_unfold.
  destruct (create_hl7_segments _ _ _ _) as [[segs|e] st1] eqn:Hsegs; [|done].
  destruct (utf8_encode (mllp_wrap segs)) as [fr|] eqn:Henc; [|done].
  intros [= <- <-].
  destruct (mllp_wrap_encode _ _ Henc) as (payload & Hp & Hfr).
  exists segs, payload. split; [done|].
  split; [by eapply create_hl7_segments_six|]. done.
Qed.



(** ** Study codes *)

Lemma study_code_of_spec modality : study_code_of modality = study_code_spec modality.
Proof.
  unfold study_code_of, study_codes, study_code_spec, MRI_ENTRY.
  rewrite !lookup_insert, lookup_empty.
  repeat case_decide; repeat case_bool_decide; subst; done.
Qed.

Lemma study_code_unmatched modality :
  modality ∉ [lit "MRI"; lit "CT"; lit "XRAY"; lit "US"] →
  study_code_spec modality = lit "MRI001^MRI BRAIN W/O CONTRAST".
Proof.
  intros Hnot. unfold study_code_spec.
  repeat case_bool_decide; try done; subst; exfalso; apply Hnot;
    repeat (first [apply list_elem_of_here | apply list_elem_of_further]).
Qed.

(** C6: the AIS segment carries the study code of the modality under an
    exact, case-sensitive match on MRI, CT, XRAY and US; every other modality
    string, lowercase spellings included, gets the MRI entry. *)
Theorem ais_study_code_by_exact_key patient_name mrn modality st segments st' :
  create_hl7_segments patient_name mrn modality st = (Return segments, st') →
  (∃ apt_timestamp,
     segments !! 4%nat
     = Some (lit "AIS|1|A|" ++ study_code_spec modality ++ lit "|" ++ apt_timestamp))
  ∧ (modality ∉ [lit "MRI"; lit "CT"; lit "XRAY"; lit "US"] →
     study_code_spec modality = lit "MRI001^MRI BRAIN W/O CONTRAST")
  ∧ study_code_spec (lit "mri") = lit "MRI001^MRI BRAIN W/O CONTRAST"
  ∧ study_code_spec (lit "ct") = lit "MRI001^MRI BRAIN W/O CONTRAST"
  ∧ study_code_spec (lit "xray") = lit "MRI001^MRI BRAIN W/O CONTRAST"
  ∧ study_code_spec (lit "us") = lit "MRI001^MRI BRAIN W/O CONTRAST".
Proof.
  rewrite create_hl7_segments_unfold. cbv zeta.
  destruct (mrn_of mrn (world st)) as [m rp].
  destruct (datetime_add _ _) as [apt|]; [|done].
  destruct (name_parts patient_name) as [[a b]|]; [|done].
  intros [= <- _]. split; [|split; [apply study_code_unmatched | by vm_compute]].
  exists (strftime_YmdHM apt). rewrite study_code_of_spec. reflexivity.
Qed.

Lemma ais_study_code_by_exact_key_witness :
  ∃ segments apt_timestamp,
    fst (create_hl7_segments (lit "Jane Smith") None (lit "XRAY") sample_state)
    = Return segments
    ∧ segments !! 4%nat
      = Some (lit "AIS|1|A|" ++ lit "XR003^CHEST XRAY 2 VIEWS" ++ lit "|" ++ apt_timestamp).
Proof.
  destruct (create_hl7_segments (lit "Jane Smith") None (lit "XRAY") sample_state)
    as [o st'] eqn:E.
  assert (∃ segments, o = Return segments) as [segments ->].
  { apply (f_equal fst) in E. vm_compute in E. subst o. eauto. }
  destruct (ais_study_code_by_exact_key _ _ _ _ _ _ E) as [[ts Hts] _].
  exists segments, ts. split; [reflexivity | exact Hts].
Defined.

(** ** The medical record number *)

Lemma randint_range a b r : a <= b → a <= a + r mod (b - a + 1) <= b.
Proof. intros Hab. pose proof (Z.mod_pos_bound r (b - a + 1)). lia. Qed.

Lemma format_d_length_6 r : 100000 <= r <= 999999 → length (format_d r) = 6%nat.
Proof.
  intros Hr. unfold format_d.
  destruct (r <? 0) eqn:E; [apply Z.ltb_lt in E; lia|].
  apply (str_of_nonneg_length 5). simpl. lia.
Qed.




(** ** Patient names *)

Lemma name_parts_no_space patient_name :
  Forall (λ c, c ≠ SPACE) patient_name →
  name_parts patient_name = Some (patient_name, lit "Test").
Proof.
  intros H. unfold name_parts.
  by rewrite (proj2 (str_contains_char_false SPACE patient_name) H).
Qed.

Lemma str_contains_char_middle c a b : str_contains_char c (a ++ c :: b) = true.
Proof.
  unfold str_contains_char. rewrite existsb_app. simpl.
  rewrite Z.eqb_refl. by rewrite orb_true_r.
Qed.

(** With exactly one space the two parts are what precedes and what follows it. *)
Lemma name_parts_one_space a b :
  Forall (λ c, c ≠ SPACE) a → Forall (λ c, c ≠ SPACE) b →
  name_parts (a ++ SPACE :: b) = Some (a, b).
Proof.
  intros Ha Hb. unfold name_parts.
  by rewrite str_contains_char_middle, str_split_app, str_split_no_sep.
Qed.

(** With two spaces or more the tuple assignment has too many values. *)
Lemma name_parts_many_spaces a b c :
  Forall (λ x, x ≠ SPACE) a → Forall (λ x, x ≠ SPACE) b →
  name_parts (a ++ SPACE :: b ++ SPACE :: c) = None.
Proof.
  intros Ha Hb. unfold name_parts.
  rewrite str_contains_char_middle, str_split_app, str_split_app by done.
  pose proof (str_split_nonempty SPACE c).
  by destruct (str_split SPACE c).
Qed.

(** C2, at the input ["Mary Ann Smith"]: the name is split at both spaces and
    the call raises [ValueError] instead of returning a message with the
    parts ["Mary"] and ["Ann Smith"]. *)
Theorem patient_name_two_spaces_raises :
  str_split SPACE (lit "Mary Ann Smith") = [lit "Mary"; lit "Ann"; lit "Smith"]
  ∧ fst (create_hl7_message (lit "Mary Ann Smith") None (lit "MRI") sample_state)
    = Raise exc_unpack.
Proof. split; reflexivity. Qed.

(** ** Reading a frame back *)

Lemma plain_charb_spec s : forallb plain_charb s = true → Forall plain_char s.
Proof.
  rewrite forallb_forall, Forall_forall. intros H c Hc.
  apply list_elem_of_In, H in Hc. unfold plain_charb in Hc.
  rewrite !andb_true_iff, !negb_true_iff, Z.ltb_lt, !Z.eqb_neq in Hc.
  unfold plain_char. tauto.
Qed.

Lemma seg_charb_spec s : forallb seg_charb s = true → Forall seg_char s.
Proof.
  rewrite forallb_forall, Forall_forall. intros H c Hc.
  apply list_elem_of_In, H in Hc. unfold seg_charb in Hc.
  rewrite !andb_true_iff, !negb_true_iff, Z.ltb_lt, !Z.eqb_neq in Hc.
  unfold seg_char. tauto.
Qed.

Lemma digit_or_minus_plain c : digit_or_minus c → plain_char c.
Proof.
  unfold digit_or_minus, is_digit, plain_char, MINUS, CR, PIPE.
  rewrite andb_true_iff, !Z.leb_le. lia.
Qed.

Lemma plain_seg c : plain_char c → seg_char c.
Proof. unfold plain_char, seg_char. tauto. Qed.

Lemma Forall_plain_seg s : Forall plain_char s → Forall seg_char s.
Proof. intros H. eapply Forall_impl; [exact H | exact plain_seg]. Qed.

Lemma Forall_digits_plain s : Forall digit_or_minus s → Forall plain_char s.
Proof. intros H. eapply Forall_impl; [exact H | exact digit_or_minus_plain]. Qed.

Lemma Forall_plain_no_pipe s : Forall plain_char s → Forall (λ x, x ≠ PIPE) s.
Proof. intros H. eapply Forall_impl; [exact H | unfold plain_char; tauto]. Qed.

Lemma Forall_seg_no_cr s : Forall seg_char s → Forall (λ x, x ≠ CR) s.
Proof. intros H. eapply Forall_impl; [exact H | unfold seg_char; tauto]. Qed.

Lemma Forall_seg_ascii s : Forall seg_char s → Forall (λ c, c < 0x80) s.
Proof. intros H. eapply Forall_impl; [exact H | unfold seg_char; tauto]. Qed.

Lemma strftime_YmdHM_chars dt : Forall digit_or_minus (strftime_YmdHM dt).
Proof.
  unfold strftime_YmdHM. rewrite !Forall_app.
  auto 10 using format_0d_chars, format_d_chars.
Qed.

Lemma strftime_YmdHMS_chars dt : Forall digit_or_minus (strftime_YmdHMS dt).
Proof.
  unfold strftime_YmdHMS. rewrite Forall_app.
  auto using strftime_YmdHM_chars, format_0d_chars.
Qed.

(** Literals are checked by evaluation; anything else is left alone. *)
Ltac plain_lit :=
  lazymatch goal with
  | |- Forall plain_char (lit _) => apply plain_charb_spec; vm_compute; reflexivity
  end.
Ltac seg_lit :=
  lazymatch goal with
  | |- Forall seg_char (lit _) => apply seg_charb_spec; vm_compute; reflexivity
  end.

Lemma message_id_plain n : Forall plain_char (lit "MSG" ++ format_0d 6 n).
Proof.
  apply Forall_app. split; [plain_lit|].
  apply Forall_digits_plain, format_0d_chars.
Qed.

Lemma msh_segment_seg ts mid :
  Forall plain_char ts → Forall plain_char mid → Forall seg_char (msh_segment ts mid).
Proof.
  intros Hts Hmid. unfold msh_segment. rewrite !Forall_app.
  repeat split; try seg_lit; by apply Forall_plain_seg.
Qed.

(** The twelve fields of the MSH segment. *)
Lemma msh_segment_fields ts mid :
  Forall plain_char ts → Forall plain_char mid →
  str_split PIPE (msh_segment ts mid)
  = [lit "MSH"; lit "^~\&"; lit "RIS"; lit "MEMORIAL"; lit "RADSCHED"; lit "RAD";
     ts; []; lit "SIU^S12"; mid; lit "P"; lit "2.5"].
Proof.
  intros Hts%Forall_plain_no_pipe Hmid%Forall_plain_no_pipe.
  change (msh_segment ts mid)
    with (lit "MSH" ++ PIPE :: lit "^~\&" ++ PIPE :: lit "RIS" ++ PIPE ::
          lit "MEMORIAL" ++ PIPE :: lit "RADSCHED" ++ PIPE :: lit "RAD" ++ PIPE ::
          ts ++ PIPE :: [] ++ PIPE :: lit "SIU^S12" ++ PIPE ::
          mid ++ PIPE :: lit "P" ++ PIPE :: lit "2.5").
  repeat (rewrite str_split_app;
          [|first [assumption | apply str_contains_char_false; reflexivity]]).
  rewrite str_split_no_sep; [done|].
  apply str_contains_char_false; reflexivity.
Qed.

Lemma mllp_payload_frame payload :
  mllp_payload ([0x0B] ++ payload ++ [0x1C; 0x0D]) = payload.
Proof.
  unfold mllp_payload. cbn [app drop length].
  rewrite length_app. cbn [length].
  apply take_app_length'. lia.
Qed.

(** The first segment of a frame whose MSH segment is plain text. *)
Lemma frame_first_segment msh rest payload :
  Forall seg_char msh →
  utf8_encode (str_join [CR] (msh :: rest)) = Some payload →
  rest ≠ [] →
  hl7_segment 0 ([0x0B] ++ payload ++ [0x1C; 0x0D]) = msh.
Proof.
  intros Hmsh Henc Hrest. unfold hl7_segment, hl7_segments.
  rewrite mllp_payload_frame.
  destruct rest as [|b rest']; [done|].
  change (str_join [CR] (msh :: b :: rest'))
    with (msh ++ [CR] ++ str_join [CR] (b :: rest')) in Henc.
  rewrite utf8_encode_app, (utf8_encode_ascii msh) in Henc
    by by apply Forall_seg_ascii.
  rewrite utf8_encode_app in Henc. change (utf8_encode [CR]) with (Some [CR]) in Henc.
  destruct (utf8_encode (str_join [CR] (b :: rest'))) as [tail|]; [|done].
  injection Henc as <-. cbn [app].
  by rewrite str_split_app by by apply Forall_seg_no_cr.
Qed.

Lemma create_hl7_segments_shape patient_name mrn modality st segments st' :
  create_hl7_segments patient_name mrn modality st = (Return segments, st') →
  ∃ apt_time last_name first_name,
    datetime_add (clock (world st) (S (clock_pos (world st)))) (timedelta_hours 2)
    = Some apt_time
    ∧ name_parts patient_name = Some (last_name, first_name)
    ∧ segments
      = [msh_segment (strftime_YmdHMS (clock (world st) (clock_pos (world st))))
                     (lit "MSG" ++ format_0d 6 (message_count (self st) + 1));
         sch_segment (1000 + rng (world st) (snd (mrn_of mrn (world st)))
                             mod (9999 - 1000 + 1))
                     (strftime_YmdHM apt_time);
         pid_segment (fst (mrn_of mrn (world st))) last_name first_name;
         rgs_segment;
         ais_segment (study_code_of modality) (strftime_YmdHM apt_time);
         aip_segment (strftime_YmdHM apt_time)]
    ∧ st' = {| self := bump (self st);
               world := advance (world st) (S (snd (mrn_of mrn (world st))))
                                (S (S (clock_pos (world st)))) |}.
Proof.
  rewrite create_hl7_segments_unfold. cbv zeta.
  destruct (mrn_of mrn (world st)) as [m rp].
  destruct (datetime_add _ _) as [apt|]; [|done].
  destruct (name_parts patient_name) as [[a b]|]; [|done].
  intros [= <- <-]. by exists apt, a, b.
Qed.

(** The control ID of a returned message is [MSG] and the new counter value. *)
Lemma create_hl7_message_control_id patient_name mrn modality st frame st' :
  create_hl7_message patient_name mrn modality st = (Return frame, st') →
  hl7_field 0 9 frame = lit "MSG" ++ format_0d 6 (message_count (self st) + 1).
Proof.
  intros Hrun.
  destruct (create_hl7_message_frame_shape _ _ _ _ _ _ Hrun)
    as (segs & payload & Hsegs & _ & Henc & ->).
  destruct (create_hl7_segments_shape _ _ _ _ _ _ Hsegs)
    as (apt & a & b & _ & _ & -> & _).
  unfold hl7_field.
  assert (Hts : Forall plain_char
                  (strftime_YmdHMS (clock (world st) (clock_pos (world st)))))
    by apply Forall_digits_plain, strftime_YmdHMS_chars.
  pose proof (message_id_plain (message_count (self st) + 1)) as Hmid.
  erewrite frame_first_segment; [| |exact Henc|done].
  - by rewrite msh_segment_fields.
  - by apply msh_segment_seg.
Qed.

(** ** Message control IDs *)

Lemma run_calls_count calls : ∀ st,
  message_count (self (snd (run_calls calls st)))
  = message_count (self st) + Z.of_nat (length calls).
Proof.
  induction calls as [|[[n m] mo] rest IH]; intros st; cbn [run_calls length].
  - simpl. lia.
  - pose proof (create_hl7_message_mutates_counter_aux n m mo st) as Hc.
    destruct (create_hl7_message n m mo st) as [o st1]. cbn [snd] in Hc.
    specialize (IH st1). destruct (run_calls rest st1) as [os st2].
    cbn [snd] in *. lia.
Qed.

Lemma run_calls_control_id calls : ∀ st k frame,
  fst (run_calls calls st) !! k = Some (Return frame) →
  hl7_field 0 9 frame
  = lit "MSG" ++ format_0d 6 (message_count (self st) + Z.of_nat k + 1).
Proof.
  induction calls as [|[[n m] mo] rest IH]; intros st k frame; cbn [run_calls].
  - done.
  - pose proof (create_hl7_message_mutates_counter_aux n m mo st) as Hc.
    pose proof (create_hl7_message_control_id n m mo st) as Hid.
    destruct (create_hl7_message n m mo st) as [o st1]. cbn [snd] in Hc.
    specialize (IH st1). destruct (run_calls rest st1) as [os st2].
    cbn [fst] in *. destruct k as [|k]; cbn [lookup list_lookup].
    + intros [= ->]. rewrite (Hid frame st1 eq_refl). f_equal. f_equal. lia.
    + intros Hk. rewrite (IH k frame Hk). f_equal. f_equal. lia.
Qed.

(** C4: on one instance, starting from its construction, the message of the
    [n]-th call of [create_hl7_message] (calls that raised are counted too)
    has the control ID [MSG] followed by [n] zero-padded to six digits, which
    reads back as [n]; so the IDs go MSG000001, MSG000002, ... and grow by
    exactly one per invocation. *)
Theorem control_id_counts_invocations h p w calls k frame :
  fst (run_calls calls {| self := HL7Simulator_init h p; world := w |}) !! k
  = Some (Return frame) →
  let n := Z.of_nat k + 1 in
  hl7_field 0 9 frame = lit "MSG" ++ format_0d 6 n
  ∧ int_of_digits (format_0d 6 n) = n
  ∧ (n < 1000000 → length (format_0d 6 n) = 6%nat)
  ∧ message_count
      (self (snd (run_calls calls {| self := HL7Simulator_init h p; world := w |})))
    = Z.of_nat (length calls).
Proof.
  intros Hk n. split; [|split; [|split]].
  - rewrite (run_calls_control_id _ _ _ _ Hk). reflexivity.
  - apply format_0d_value. lia.
  - intros Hn. apply format_0d_length; [lia|]. simpl. lia.
  - rewrite run_calls_count. reflexivity.
Qed.

Lemma control_id_counts_invocations_witness :
  ∃ frame,
    fst (run_calls sample_calls sample_state) !! 2%nat = Some (Return frame)
    ∧ hl7_field 0 9 frame = lit "MSG000003".
Proof.
  destruct (fst (run_calls sample_calls sample_state) !! 2%nat) as [o|] eqn:E;
    [|vm_compute in E; discriminate E].
  assert (∃ frame, o = Return frame) as [frame ->].
  { vm_compute in E. injection E as <-. eauto. }
  exists frame. split; [reflexivity|].
  exact (proj1 (control_id_counts_invocations
                  (lit "localhost") 8661 sample_world sample_calls 2 frame E)).
Defined.

(** ** Segments of plain text *)

Lemma str_split_join c segs :
  segs ≠ [] → Forall (Forall (λ x, x ≠ c)) segs →
  str_split c (str_join [c] segs) = segs.
Proof.
  induction segs as [|s rest IH]; [done|]. intros _ Hall.
  apply Forall_cons in Hall as [Hs Hrest].
  destruct rest as [|s' rest'].
  - simpl. by apply str_split_no_sep.
  - change (str_join [c] (s :: s' :: rest'))
      with (s ++ c :: str_join [c] (s' :: rest')).
    rewrite str_split_app by done. f_equal. by apply IH.
Qed.

Lemma str_join_Forall (P : Z → Prop) sep segs :
  Forall P sep → Forall (Forall P) segs → Forall P (str_join sep segs).
Proof.
  intros Hsep. induction 1 as [|s rest Hs Hrest IH]; [constructor|].
  destruct rest as [|s' rest']; [done|].
  change (str_join sep (s :: s' :: rest'))
    with (s ++ sep ++ str_join sep (s' :: rest')).
  rewrite !Forall_app. auto.
Qed.

(** A frame built from plain-text segments is those segments again. *)
Lemma mllp_wrap_plain segs :
  segs ≠ [] → Forall (Forall seg_char) segs →
  utf8_encode (mllp_wrap segs) = Some (mllp_wrap segs)
  ∧ hl7_segments (mllp_wrap segs) = segs.
Proof.
  intros Hne Hall. split.
  - apply utf8_encode_ascii. unfold mllp_wrap. rewrite !Forall_app.
    split; [by repeat constructor|]. split; [|by repeat constructor].
    apply str_join_Forall; [by repeat constructor|].
    eapply Forall_impl; [exact Hall|]. apply Forall_seg_ascii.
  - unfold hl7_segments, mllp_wrap. rewrite mllp_payload_frame.
    apply str_split_join; [done|].
    eapply Forall_impl; [exact Hall|]. apply Forall_seg_no_cr.
Qed.

Lemma str_split_Forall (P : Z → Prop) c s :
  Forall P s → Forall (Forall P) (str_split c s).
Proof.
  induction 1 as [|x r Hx Hr IH]; simpl; [by repeat constructor|].
  destruct (x =? c); [by constructor|].
  destruct (str_split c r) as [|w ws]; [by repeat constructor|].
  apply Forall_cons in IH as [Hw Hws]. constructor; [by constructor | done].
Qed.

Lemma name_parts_Forall (P : Z → Prop) patient_name a b :
  Forall P patient_name → Forall P (lit "Test") →
  name_parts patient_name = Some (a, b) → Forall P a ∧ Forall P b.
Proof.
  intros Hname Htest. unfold name_parts.
  destruct (str_contains_char SPACE patient_name); [|by intros [= <- <-]].
  pose proof (str_split_Forall P SPACE patient_name Hname) as Hparts.
  destruct (str_split SPACE patient_name) as [|x [|y [|z l]]]; try done.
  intros [= <- <-]. apply Forall_cons in Hparts as [Hx Hy].
  apply Forall_cons in Hy as [Hy _]. done.
Qed.

Lemma study_code_of_seg modality : Forall seg_char (study_code_of modality).
Proof.
  rewrite study_code_of_spec. unfold study_code_spec.
  repeat case_bool_decide; seg_lit.
Qed.

Lemma mrn_of_generated_seg w : Forall seg_char (fst (mrn_of None w)).
Proof.
  unfold mrn_of. cbn [falsy fst]. apply Forall_app. split; [seg_lit|].
  apply Forall_plain_seg, Forall_digits_plain, format_d_chars.
Qed.

Ltac each_segment :=
  lazymatch goal with
  | |- Forall _ (_ :: _) => apply Forall_cons_2; [|each_segment]
  | |- Forall _ [] => apply Forall_nil_2
  end.

(** Plain-text arguments give a frame that is the wrapped segments, unchanged
    by the encoding, and that reads back as the six segments. *)
Lemma create_hl7_message_plain patient_name mrn modality st segments st' :
  create_hl7_segments patient_name mrn modality st = (Return segments, st') →
  Forall seg_char patient_name →
  Forall seg_char (fst (mrn_of mrn (world st))) →
  create_hl7_message patient_name mrn modality st = (Return (mllp_wrap segments), st')
  ∧ hl7_segments (mllp_wrap segments) = segments.
Proof.
  intros Hsegs Hname Hmrn.
  destruct (create_hl7_segments_shape _ _ _ _ _ _ Hsegs)
    as (apt & a & b & _ & Hparts & Heq & _).
  destruct (name_parts_Forall seg_char _ _ _ Hname ltac:(seg_lit) Hparts) as [Ha Hb].
  assert (Hts : Forall seg_char (strftime_YmdHM apt))
    by apply Forall_plain_seg, Forall_digits_plain, strftime_YmdHM_chars.
  assert (Hall : Forall (Forall seg_char) segments).
  { subst segments. each_segment.
    - apply msh_segment_seg; [|apply message_id_plain].
      apply Forall_digits_plain, strftime_YmdHMS_chars.
    - unfold sch_segment. rewrite !Forall_app.
      repeat split; try seg_lit; [|done].
      apply Forall_plain_seg, Forall_digits_plain, format_d_chars.
    - unfold pid_segment. rewrite !Forall_app. repeat split; try seg_lit; done.
    - unfold rgs_segment. seg_lit.
    - unfold ais_segment. rewrite !Forall_app.
      repeat split; try seg_lit; [apply study_code_of_seg | done].
    - unfold aip_segment. rewrite !Forall_app. split; [seg_lit | done]. }
  assert (Hne : segments ≠ []) by (by subst segments).
  destruct (mllp_wrap_plain segments Hne Hall) as [Henc Hread].
  split; [|done].
  by rewrite create_hl7_message_unfold, Hsegs, Henc.
Qed.

(** With a sane clock the builder raises only on the tuple assignment. *)
Lemma create_hl7_segments_returns patient_name mrn modality st a b :
  clock_sane (world st) →
  name_parts patient_name = Some (a, b) →
  ∃ segments st',
    create_hl7_segments patient_name mrn modality st = (Return segments, st').
Proof.
  intros Hclock Hparts. rewrite create_hl7_segments_unfold. cbv zeta.
  destruct (mrn_of mrn (world st)) as [m rp].
  destruct (Hclock (S (clock_pos (world st)))) as [Hv Hy].
  destruct (datetime_add_two_hours_ok _ Hv Hy) as [apt ->].
  rewrite Hparts. eauto.
Qed.

(** ** The example of the specification *)

Lemma clock_sane_sample : clock_sane sample_world.
Proof. intros i. split; [reflexivity|]. simpl. lia. Qed.

(** The call of the specification's example at the sample state: the PID
    segment in full. *)
Example jane_smith_pid_segment :
  ∃ frame,
    fst (create_hl7_message (lit "Jane Smith") None (lit "CT") sample_state)
    = Return frame
    ∧ hl7_segment 2 frame
      = lit "PID|1||MRN100007||Jane^Smith||19800101|M|||123 Main St^^Boston^MA^02101||617-555-0123".
Proof. eexists. split; vm_compute; reflexivity. Qed.

(** ** The appointment timestamp *)

Lemma days_before_year_succ y :
  days_before_year (y + 1)
  = days_before_year y + 365 + (if is_leap y then 1 else 0).
Proof.
  destruct (is_leap y) eqn:E.
  - apply is_leap_true in E. unfold days_before_year.
    Z.div_mod_to_equations. lia.
  - assert (Hn : ¬ (y mod 4 = 0 ∧ (y mod 100 ≠ 0 ∨ y mod 400 = 0))).
    { rewrite <- is_leap_true. congruence. }
    unfold days_before_year. Z.div_mod_to_equations. lia.
Qed.

Lemma days_before_year_mono y1 y2 :
  y1 <= y2 → days_before_year y1 <= days_before_year y2.
Proof. intros H. unfold days_before_year. Z.div_mod_to_equations. lia. Qed.

(** A later day does not lie in an earlier year. *)
Lemma year_mono a b :
  datetime_valid a = true → datetime_valid b = true →
  toordinal b <= toordinal a → year b <= year a.
Proof.
  rewrite !datetime_valid_iff.
  intros (Hya & Hma & Hda & _) (Hyb & Hmb & Hdb & _) Hord.
  unfold toordinal, ymd2ord, days_before_month, days_in_month in *.
  pose proof (day_of_year_bounds _ _ _ Hma Hda) as Ha.
  pose proof (day_of_year_bounds _ _ _ Hmb Hdb) as Hb.
  destruct (Z_le_gt_dec (year b) (year a)) as [|Hgt]; [done|].
  pose proof (days_before_year_succ (year a)) as Hsucc.
  pose proof (days_before_year_mono (year a + 1) (year b) ltac:(lia)).
  destruct (is_leap (year a)); lia.
Qed.

Lemma parse_YmdHM_app A B C D E :
  length A = 4%nat → length B = 2%nat → length C = 2%nat →
  length D = 2%nat → length E = 2%nat →
  parse_YmdHM (A ++ B ++ C ++ D ++ E)
  = (int_of_digits A, int_of_digits B, int_of_digits C,
     int_of_digits D, int_of_digits E).
Proof.
  intros HA HB HC HD HE. unfold parse_YmdHM.
  assert (H4 : drop 4 (A ++ B ++ C ++ D ++ E) = B ++ C ++ D ++ E)
    by (by apply drop_app_length').
  assert (H6 : drop 6 (A ++ B ++ C ++ D ++ E) = C ++ D ++ E).
  { rewrite (app_assoc A B). apply drop_app_length'. rewrite length_app. lia. }
  assert (H8 : drop 8 (A ++ B ++ C ++ D ++ E) = D ++ E).
  { rewrite (app_assoc B C), (app_assoc A (B ++ C)).
    apply drop_app_length'. rewrite !length_app. lia. }
  assert (H10 : drop 10 (A ++ B ++ C ++ D ++ E) = E).
  { rewrite (app_assoc C D), (app_assoc B (C ++ D)), (app_assoc A (B ++ C ++ D)).
    apply drop_app_length'. rewrite !length_app. lia. }
  rewrite H4, H6, H8, H10.
  rewrite (take_app_length' A), (take_app_length' B), (take_app_length' C),
    (take_app_length' D) by done.
  rewrite (take_ge E) by lia. done.
Qed.

(** [%Y%m%d%H%M] of a date from year 1000 on: twelve decimal digits that read
    back as year, month, day, hour and minute. *)
Lemma strftime_YmdHM_format dt :
  datetime_valid dt = true → 1000 <= year dt →
  length (strftime_YmdHM dt) = 12%nat
  ∧ Forall (λ c, is_digit c = true) (strftime_YmdHM dt)
  ∧ parse_YmdHM (strftime_YmdHM dt)
    = (year dt, month dt, day dt, hour dt, minute dt).
Proof.
  rewrite datetime_valid_iff. intros (Hy & Hm & Hd & Hh & Hmi & _) Hy1000.
  assert (Hd31 : day dt <= 31).
  { pose proof (day_of_year_bounds (is_leap (year dt)) (month dt) (day dt) Hm) as _.
    unfold days_in_month in Hd.
    assert (Hc : month dt = 1 ∨ month dt = 2 ∨ month dt = 3 ∨ month dt = 4
                 ∨ month dt = 5 ∨ month dt = 6 ∨ month dt = 7 ∨ month dt = 8
                 ∨ month dt = 9 ∨ month dt = 10 ∨ month dt = 11 ∨ month dt = 12)
      by lia.
    destruct (is_leap (year dt));
      repeat (destruct Hc as [Hc | Hc]); rewrite Hc in Hd;
      set (x := dim _ _) in Hd; vm_compute in x; subst x; lia. }
  assert (LY : length (format_d (year dt)) = 4%nat).
  { unfold format_d. destruct (year dt <? 0) eqn:E; [apply Z.ltb_lt in E; lia|].
    apply (str_of_nonneg_length 3). simpl. lia. }
  assert (DY : Forall (λ c, is_digit c = true) (format_d (year dt))).
  { unfold format_d. destruct (year dt <? 0) eqn:E; [apply Z.ltb_lt in E; lia|].
    apply str_of_nonneg_digits. }
  assert (LM : length (format_0d 2 (month dt)) = 2%nat)
    by (apply format_0d_length; [lia | simpl; lia]).
  assert (LD : length (format_0d 2 (day dt)) = 2%nat)
    by (apply format_0d_length; [lia | simpl; lia]).
  assert (LH : length (format_0d 2 (hour dt)) = 2%nat)
    by (apply format_0d_length; [lia | simpl; lia]).
  assert (LMi : length (format_0d 2 (minute dt)) = 2%nat)
    by (apply format_0d_length; [lia | simpl; lia]).
  unfold strftime_YmdHM. split; [|split].
  - rewrite !length_app. lia.
  - rewrite !Forall_app. repeat split; [exact DY|..]; apply format_0d_digits; lia.
  - rewrite parse_YmdHM_app by done.
    rewrite format_d_value, !format_0d_value by lia. done.
Qed.

Lemma stamp_minutes_strftime dt :
  datetime_valid dt = true → 1000 <= year dt →
  stamp_minutes (strftime_YmdHM dt) = minutes_of dt.
Proof.
  intros Hv Hy. destruct (strftime_YmdHM_format dt Hv Hy) as (_ & _ & Hparse).
  unfold stamp_minutes. rewrite Hparse. reflexivity.
Qed.

Lemma strftime_YmdHMS_take dt :
  datetime_valid dt = true → 1000 <= year dt →
  take 12 (strftime_YmdHMS dt) = strftime_YmdHM dt.
Proof.
  intros Hv Hy. destruct (strftime_YmdHM_format dt Hv Hy) as (Hlen & _).
  unfold strftime_YmdHMS. by apply take_app_length'.
Qed.

(** C3, as stated, fails when a minute starts between the two clock readings
    of one call: MSH-7 carries the creation instant 09:59:59, while the SCH,
    AIS and AIP segments carry 12:00 of the same day, which is 121 and not 120
    minutes after the minute of creation. *)
Lemma appointment_timestamp_counterexample :
  ∃ frame,
    fst (create_hl7_message (lit "Jane Smith") None (lit "CT") minute_turn_state)
    = Return frame
    ∧ hl7_field 0 6 frame = lit "20240517095959"
    ∧ hl7_field 1 11 frame = lit "^^30^202405171200^^R"
    ∧ hl7_field 4 4 frame = lit "202405171200"
    ∧ hl7_field 5 4 frame = lit "202405171200"
    ∧ stamp_minutes (hl7_field 5 4 frame)
      = stamp_minutes (take 12 (hl7_field 0 6 frame)) + 121
    ∧ stamp_minutes (hl7_field 5 4 frame) ≠ minutes_of before_ten + 120.
Proof.
  eexists. split; [vm_compute; reflexivity|].
  repeat split; try (vm_compute; reflexivity). vm_compute. discriminate.
Qed.

(** C3, amended: in one message the SCH, AIS and AIP segments carry one and
    the same appointment timestamp; it has the form YYYYMMDDHHMM (twelve
    digits that read back as the fields of a calendar date) and denotes the
    minute lying exactly 120 minutes after the minute of the clock reading
    made for it, a reading of its own that follows the one written into
    MSH-7 as the creation instant.  Whenever the two readings fall in the
    same minute, it is the creation instant plus exactly 120 minutes. *)
Theorem appointment_timestamp_two_hours_ahead
    patient_name mrn modality st segments st' :
  let created := clock (world st) (clock_pos (world st)) in
  let read_again := clock (world st) (S (clock_pos (world st))) in
  create_hl7_segments patient_name mrn modality st = (Return segments, st') →
  datetime_valid created = true → 1000 <= year created →
  datetime_valid read_again = true → 1000 <= year read_again →
  ∃ apt_time ts filler message_id,
    segments !! 0%nat
    = Some (lit "MSH|^~\&|RIS|MEMORIAL|RADSCHED|RAD|" ++ strftime_YmdHMS created
            ++ lit "||SIU^S12|" ++ message_id ++ lit "|P|2.5")
    ∧ segments !! 1%nat
      = Some (lit "SCH||" ++ format_d filler ++ lit "|||||||30|MIN|^^30^" ++ ts
              ++ lit "^^R||||||||||||||SCHEDULED")
    ∧ segments !! 4%nat
      = Some (lit "AIS|1|A|" ++ study_code_of modality ++ lit "|" ++ ts)
    ∧ segments !! 5%nat = Some (lit "AIP|1|A|RADIOLOGIST^DOE^JOHN^MD|" ++ ts)
    ∧ ts = strftime_YmdHM apt_time
    ∧ length ts = 12%nat
    ∧ Forall (λ c, is_digit c = true) ts
    ∧ parse_YmdHM ts
      = (year apt_time, month apt_time, day apt_time, hour apt_time, minute apt_time)
    ∧ datetime_valid apt_time = true
    ∧ stamp_minutes ts = minutes_of read_again + 120
    ∧ stamp_minutes (take 12 (strftime_YmdHMS created)) = minutes_of created
    ∧ (minutes_of read_again = minutes_of created →
       stamp_minutes ts = stamp_minutes (take 12 (strftime_YmdHMS created)) + 120).
Proof.
  intros created read_again Hsegs Hvc Hyc Hvalid Hyear.
  destruct (create_hl7_segments_shape _ _ _ _ _ _ Hsegs)
    as (apt & a & b & Hadd & _ & -> & _).
  destruct (datetime_add_two_hours _ _ Hvalid Hadd) as (Hv & Hmin & _).
  assert (Hy : 1000 <= year apt).
  { etrans; [exact Hyear|]. apply year_mono; try done.
    unfold minutes_of in Hmin.
    apply datetime_valid_iff in Hv as (_ & _ & _ & Hh & Hmi & _).
    apply datetime_valid_iff in Hvalid as (_ & _ & _ & Hh' & Hmi' & _).
    fold read_again in Hmin. lia. }
  destruct (strftime_YmdHM_format apt Hv Hy) as (Hlen & Hdig & Hparse).
  assert (Hstamp : stamp_minutes (strftime_YmdHM apt) = minutes_of read_again + 120)
    by (by rewrite stamp_minutes_strftime).
  assert (Hcreated : stamp_minutes (take 12 (strftime_YmdHMS created))
                     = minutes_of created)
    by (by rewrite strftime_YmdHMS_take, stamp_minutes_strftime).
  exists apt, (strftime_YmdHM apt). eexists. eexists.
  split; [reflexivity|]. split; [reflexivity|].
  split; [reflexivity|]. split; [reflexivity|].
  repeat split; try done.
  intros Hsame. by rewrite Hstamp, Hcreated, Hsame.
Qed.

Lemma appointment_timestamp_two_hours_ahead_witness :
  ∃ segments,
    fst (create_hl7_segments (lit "Jane Smith") None (lit "CT") sample_state)
    = Return segments
    ∧ segments !! 5%nat = Some (lit "AIP|1|A|RADIOLOGIST^DOE^JOHN^MD|202402290059").
Proof.
  destruct (create_hl7_segments (lit "Jane Smith") None (lit "CT") sample_state)
    as [o st'] eqn:E.
  assert (∃ segments, o = Return segments) as [segments ->].
  { apply (f_equal fst) in E. vm_compute in E. subst o. eauto. }
  destruct (appointment_timestamp_two_hours_ahead _ _ _ _ _ _ E eq_refl
              ltac:(simpl; lia) eq_refl ltac:(simpl; lia))
    as (apt & ts & filler & mid & _ & _ & _ & Haip & _).
  exists segments. split; [reflexivity|].
  rewrite Haip. apply (f_equal fst) in E. vm_compute in E.
  injection E as <-. vm_compute in Haip. injection Haip as <-. reflexivity.
Defined.

(** ** The sender *)

Lemma send_attempts_snoc t ev :
  send_attempts (t ++ [ev])
  = (send_attempts t + (if is_socket_event ev then 1 else 0))%nat.
Proof.
  unfold send_attempts. rewrite List.filter_app, length_app. simpl.
  by destruct (is_socket_event ev).
Qed.

(** C7: whichever socket call fails first (creation, connect, send, recv or
    close) with an exception deriving from [Exception], [send_message] returns
    [(False, str(e))] and raises nothing; when every call succeeds it returns
    [(True, text)], the text being the at most 1024 received bytes decoded
    with invalid bytes dropped. *)
Theorem send_message_never_raises message st :
  (∀ e, first_failure (peer (world st) (peer_pos (world st))) = Some e →
        is_Exception (exc_class e) = true) →
  fst (send_message message st)
  = match first_failure (peer (world st) (peer_pos (world st))) with
    | Some e => Return (false, exc_str e)
    | None =>
        Return (true,
                utf8_decode_ignore (received (peer (world st) (peer_pos (world st)))))
    end.
Proof.
  destruct st as [s w]. cbn [world].
  unfold send_message, try_except, first_failure, received.
  cbv [bind ret raise get_self next_exchange emit io]. cbn [self world peer peer_pos].
  destruct (peer w (peer_pos w)) as [[[]|e1] [[]|e2] [[]|e3] [data|e4] [[]|e5]];
    cbn [x_socket x_connect x_send x_recv x_close]; intros Hexc;
    try (rewrite (Hexc _ eq_refl)); reflexivity.
Qed.

Lemma send_message_never_raises_witness :
  fst (send_message [0x0B; 0x1C; 0x0D] refusing_state)
  = Return (false, lit "[Errno 111] Connection refused").
Proof.
  apply (send_message_never_raises [0x0B; 0x1C; 0x0D] refusing_state).
  intros e. vm_compute. intros [= <-]. reflexivity.
Defined.

(** An interrupt is not an [Exception] and does get through. *)
Example send_message_interrupted :
  fst (send_message [0x0B; 0x1C; 0x0D]
         {| self := HL7Simulator_default;
            world := {| rng := λ _, 7; rng_pos := 0;
                        clock := λ _, sample_now; clock_pos := 0;
                        peer := λ _, {| x_socket := IoOk tt; x_connect := IoOk tt;
                                        x_send := IoOk tt;
                                        x_recv := IoErr (mk_exc KeyboardInterrupt []);
                                        x_close := IoOk tt |};
                        peer_pos := 0; trace := [] |} |})
  = Raise (mk_exc KeyboardInterrupt []).
Proof. reflexivity. Qed.

(** Bytes that are not UTF-8 are dropped, the rest is decoded. *)
Example utf8_decode_ignore_invalid :
  utf8_decode_ignore [65; 0xFF; 67; 0xC3; 0xA9; 0xE2; 0x82] = [65; 67; 0xE9].
Proof. reflexivity. Qed.

(** ** Programs that return *)

Lemma returns_ret {A} (a : A) st (Q : A → State → Prop) :
  Q a st → returns (ret a) st Q.
Proof. intros HQ. by exists a, st. Qed.

Lemma returns_bind {A B} (m : M A) (k : A → M B) st (Q : B → State → Prop) :
  returns m st (λ a st1, returns (k a) st1 Q) → returns (bind m k) st Q.
Proof.
  intros (a & st1 & Hm & b & st2 & Hk & HQ).
  exists b, st2. unfold bind. by rewrite Hm.
Qed.

Lemma returns_weaken {A} (m : M A) st (P Q : A → State → Prop) :
  returns m st P → (∀ a st', P a st' → Q a st') → returns m st Q.
Proof. intros (a & st' & Hm & HP) HPQ. exists a, st'. auto. Qed.

Lemma sent_refl st : sent 0 st st.
Proof. unfold sent. repeat split; lia. Qed.

Lemma sent_trans n m st st1 st2 :
  sent n st st1 → sent m st1 st2 → sent (n + m) st st2.
Proof.
  intros (Hc & Hp & Ht) (Hc' & Hp' & Ht'). unfold sent.
  rewrite Hc', Hp', Ht', Hc, Hp, Ht. repeat split; lia.
Qed.

Lemma sent_sane n st st' :
  sent n st st' →
  clock_sane (world st) ∧ peer_sane (world st) →
  clock_sane (world st') ∧ peer_sane (world st').
Proof.
  intros (Hc & Hp & _) [Hclock Hpeer]. unfold clock_sane, peer_sane.
  rewrite Hc, Hp. done.
Qed.

(** Sequencing two programs that return adds up the sends. *)
Lemma returns_seq {A B} (m : M A) (k : A → M B) n1 n2 st :
  clock_sane (world st) ∧ peer_sane (world st) →
  returns m st (λ _ st1, sent n1 st st1) →
  (∀ a st1, clock_sane (world st1) ∧ peer_sane (world st1) →
            returns (k a) st1 (λ _ st2, sent n2 st1 st2)) →
  returns (bind m k) st (λ _ st2, sent (n1 + n2) st st2).
Proof.
  intros Hsane Hm Hk. apply returns_bind.
  eapply returns_weaken; [exact Hm|]. intros a st1 H1. cbv beta in *.
  eapply returns_weaken; [apply Hk; by eapply sent_sane|].
  intros b st2 H2. by eapply sent_trans.
Qed.

Lemma emit_sent ev st :
  is_socket_event ev = false → returns (emit ev) st (λ _ st', sent 0 st st').
Proof.
  intros Hev. eexists tt, _. split; [reflexivity|].
  unfold sent. cbn [world clock peer trace].
  rewrite send_attempts_snoc, Hev. repeat split; lia.
Qed.

Lemma random_choice_sent {A} (d : A) l st :
  returns (random_choice d l) st
    (λ a st', sent 0 st st'
              ∧ a = nth (Z.to_nat (rng (world st) (rng_pos (world st))
                                   mod Z.of_nat (length l))) l d).
Proof.
  eexists _, _. split; [reflexivity|].
  split; [|reflexivity]. unfold sent. cbn [world clock peer trace].
  repeat split; lia.
Qed.

Lemma random_choice_elem (l : list (list Z)) r :
  l ≠ [] → nth (Z.to_nat (r mod Z.of_nat (length l))) l [] ∈ l.
Proof.
  intros Hne. apply list_elem_of_In, nth_In.
  assert (0 < Z.of_nat (length l)) by (destruct l; [done | simpl; lia]).
  pose proof (Z.mod_pos_bound r (Z.of_nat (length l))). lia.
Qed.

Lemma names_good patient_name : patient_name ∈ NAMES → good_name patient_name.
Proof.
  unfold NAMES. rewrite !elem_of_cons, elem_of_nil.
  intros [-> | [-> | [-> | [-> | [-> | []]]]]];
    (split; [seg_lit | by eexists]).
Qed.

Lemma create_hl7_message_sent patient_name modality st :
  clock_sane (world st) → good_name patient_name →
  returns (create_hl7_message patient_name None modality) st
          (λ _ st', sent 0 st st').
Proof.
  intros Hclock [Hplain [[a b] Hparts]].
  destruct (create_hl7_segments_returns patient_name None modality st a b
              Hclock Hparts) as (segs & st' & Hsegs).
  destruct (create_hl7_message_plain _ _ _ _ _ _ Hsegs Hplain
              (mrn_of_generated_seg _)) as [Hmsg _].
  exists (mllp_wrap segs), st'. split; [done|].
  pose proof (create_hl7_segments_state patient_name None modality st) as Hst.
  rewrite Hsegs in Hst. cbn [snd] in Hst.
  destruct Hst as (_ & Hp & _ & Ht & Hc & _).
  unfold sent. rewrite Hp, Ht, Hc. repeat split; lia.
Qed.

Lemma send_message_sent message st :
  peer_sane (world st) →
  returns (send_message message) st (λ _ st', sent 1 st st').
Proof.
  intros Hpeer. specialize (Hpeer (peer_pos (world st))).
  destruct st as [s w]. cbn [world] in *.
  unfold returns, sent, send_message, try_except, first_failure in *.
  cbv [bind ret raise get_self next_exchange emit io].
  cbn [self world peer peer_pos clock trace].
  destruct (peer w (peer_pos w)) as [[[]|e1] [[]|e2] [[]|e3] [data|e4] [[]|e5]];
    cbn [x_socket x_connect x_send x_recv x_close] in *;
    try (rewrite (Hpeer _ eq_refl));
    (eexists _, _; split; [reflexivity|]);
    cbn [world clock peer trace]; rewrite ?send_attempts_snoc;
    cbn [is_socket_event]; repeat split; lia.
Qed.

(** One appointment, whatever its arguments, is one send attempt. *)
Lemma send_test_appointment_sent patient_name modality st :
  clock_sane (world st) ∧ peer_sane (world st) →
  good_name_arg patient_name →
  returns (send_test_appointment patient_name modality) st
          (λ _ st', sent 1 st st').
Proof.
  intros Hsane Hgood. unfold send_test_appointment.
  apply returns_bind.
  assert (Hname : returns
            (if falsy patient_name then random_choice [] NAMES
             else ret (default [] patient_name)) st
            (λ n st1, sent 0 st st1 ∧ good_name n)).
  { destruct patient_name as [[|c n]|]; cbn [falsy default].
    - eapply returns_weaken; [apply random_choice_sent|].
      intros a st1 [Hs ->]. split; [done|].
      by apply names_good, random_choice_elem.
    - apply returns_ret. split; [apply sent_refl | exact Hgood].
    - eapply returns_weaken; [apply random_choice_sent|].
      intros a st1 [Hs ->]. split; [done|].
      by apply names_good, random_choice_elem. }
  eapply returns_weaken; [exact Hname|]. clear Hname.
  intros name st1 [H1 Hgn]. cbv beta.
  pose proof (sent_sane _ _ _ H1 Hsane) as Hsane1.
  apply returns_bind.
  assert (Hmod : returns
            (if falsy modality then random_choice [] MODALITIES
             else ret (default [] modality)) st1
            (λ _ st2, sent 0 st1 st2)).
  { destruct (falsy modality).
    - eapply returns_weaken; [apply random_choice_sent|]. by intros a st2 [Hs _].
    - apply returns_ret, sent_refl. }
  eapply returns_weaken; [exact Hmod|]. clear Hmod.
  intros mo st2 H2. cbv beta.
  pose proof (sent_sane _ _ _ H2 Hsane1) as Hsane2.
  eapply returns_weaken.
  - apply (returns_seq _ _ 0 1); [done| |].
    + apply create_hl7_message_sent; [apply Hsane2 | done].
    + intros message st3 Hsane3.
      apply (returns_seq _ _ 0 1); [done|by apply emit_sent|].
      intros _ st4 Hsane4.
      apply (returns_seq _ _ 0 1); [done|by apply emit_sent|].
      intros _ st5 Hsane5.
      apply (returns_seq _ _ 1 0); [done|apply send_message_sent, Hsane5|].
      intros [success response] st6 Hsane6.
      apply (returns_seq _ _ 0 0); [done| |].
      * destruct success; by apply emit_sent.
      * intros _ st7 _. apply returns_ret, sent_refl.
  - intros b st3 H3. cbv beta in H3.
    pose proof (sent_trans _ _ _ _ _ H1 (sent_trans _ _ _ _ _ H2 H3)) as H.
    exact H.
Qed.

(** A loop whose body makes one send attempt makes as many as it has rounds. *)
Lemma for_each_sent {A} (l : list A) (body : A → M unit) : ∀ st,
  clock_sane (world st) ∧ peer_sane (world st) →
  (∀ x st1, clock_sane (world st1) ∧ peer_sane (world st1) →
            returns (body x) st1 (λ _ st2, sent 1 st1 st2)) →
  returns (for_each l body) st (λ _ st', sent (length l) st st').
Proof.
  induction l as [|x rest IH]; intros st Hsane Hbody; cbn [for_each length].
  - apply returns_ret, sent_refl.
  - apply (returns_seq _ _ 1 (length rest)); [done | by apply Hbody |].
    intros _ st1 Hsane1. by apply IH.
Qed.

(** ** Scenarios *)

Lemma load_test_sent st :
  clock_sane (world st) ∧ peer_sane (world st) →
  returns (run_demo_scenario (lit "load-test")) st (λ _ st', sent 100 st st').
Proof.
  intros Hsane. unfold run_demo_scenario.
  do 2 (case_bool_decide as Hne; [discriminate Hne|]; clear Hne).
  case_bool_decide as Heq; [clear Heq|done].
  apply (returns_seq _ _ 0 100); [done | by apply emit_sent |].
  intros _ st1 Hsane1.
  apply (returns_seq _ _ 0 100); [done | by apply emit_sent |].
  intros _ st2 Hsane2.
  change 100%nat with (length (seqZ 0 100)) at 1.
  apply for_each_sent; [done|].
  intros i st3 Hsane3.
  apply (returns_seq _ _ 1 0); [done | by apply send_test_appointment_sent |].
  intros _ st4 Hsane4.
  apply (returns_seq _ _ 0 0); [done | | intros _ st5 _; by apply emit_sent].
  destruct (i mod 10 =? 0); [by apply emit_sent | apply returns_ret, sent_refl].
Qed.

Lemma efficiency_boost_sent st :
  clock_sane (world st) ∧ peer_sane (world st) →
  returns (run_demo_scenario (lit "efficiency-boost")) st (λ _ st', sent 5 st st').
Proof.
  intros Hsane. unfold run_demo_scenario.
  case_bool_decide as Hne; [discriminate Hne|]; clear Hne.
  case_bool_decide as Heq; [clear Heq|done].
  apply (returns_seq _ _ 0 5); [done | by apply emit_sent |].
  intros _ st1 Hsane1.
  apply (returns_seq _ _ 0 5); [done | by apply emit_sent |].
  intros _ st2 Hsane2.
  change 5%nat with (length (seqZ 0 5)) at 1.
  apply for_each_sent; [done|].
  intros i st3 Hsane3.
  apply (returns_seq _ _ 1 0); [done | by apply send_test_appointment_sent |].
  intros _ st4 _. by apply emit_sent.
Qed.

Lemma dramatic_save_sent st :
  clock_sane (world st) ∧ peer_sane (world st) →
  returns (run_demo_scenario (lit "dramatic-save")) st (λ _ st', sent 1 st st').
Proof.
  intros Hsane. unfold run_demo_scenario.
  case_bool_decide as Heq; [clear Heq|done].
  apply (returns_seq _ _ 0 1); [done | by apply emit_sent |].
  intros _ st1 Hsane1.
  apply (returns_seq _ _ 0 1); [done | by apply emit_sent |].
  intros _ st2 Hsane2.
  apply (returns_seq _ _ 0 1); [done | by apply emit_sent |].
  intros _ st3 Hsane3.
  apply (returns_seq _ _ 1 0); [done | | intros _ st4 _; apply returns_ret, sent_refl].
  apply send_test_appointment_sent; [done|].
  change (good_name (lit "John Doe")). split; [seg_lit | by eexists].
Qed.

Lemma other_scenario_sent scenario st :
  clock_sane (world st) ∧ peer_sane (world st) →
  scenario ∉ [lit "dramatic-save"; lit "efficiency-boost"; lit "load-test"] →
  returns (run_demo_scenario scenario) st (λ _ st', sent 1 st st').
Proof.
  intros Hsane Hother. unfold run_demo_scenario.
  rewrite !not_elem_of_cons in Hother. destruct Hother as (H1 & H2 & H3 & _).
  do 3 (case_bool_decide; [done|]).
  apply (returns_seq _ _ 1 0); [done | by apply send_test_appointment_sent |].
  intros _ st1 _. apply returns_ret, sent_refl.
Qed.

(** C8: the scenario [load-test] makes exactly 100 send attempts,
    [efficiency-boost] exactly 5, and every scenario name other than these
    two and [dramatic-save] exactly one; each run ends without an exception. *)
Theorem scenario_send_attempts st :
  clock_sane (world st) → peer_sane (world st) →
  (∃ st', run_demo_scenario (lit "load-test") st = (Return tt, st')
          ∧ send_attempts (trace (world st'))
            = (send_attempts (trace (world st)) + 100)%nat)
  ∧ (∃ st', run_demo_scenario (lit "efficiency-boost") st = (Return tt, st')
            ∧ send_attempts (trace (world st'))
              = (send_attempts (trace (world st)) + 5)%nat)
  ∧ (∀ scenario,
       scenario ∉ [lit "dramatic-save"; lit "efficiency-boost"; lit "load-test"] →
       ∃ st', run_demo_scenario scenario st = (Return tt, st')
              ∧ send_attempts (trace (world st'))
                = (send_attempts (trace (world st)) + 1)%nat).
Proof.
  intros Hclock Hpeer.
  assert (Hsane : clock_sane (world st) ∧ peer_sane (world st)) by done.
  split; [|split].
  - destruct (load_test_sent st Hsane) as ([] & st' & Hrun & _ & _ & Hn). eauto.
  - destruct (efficiency_boost_sent st Hsane) as ([] & st' & Hrun & _ & _ & Hn). eauto.
  - intros scenario Hother.
    destruct (other_scenario_sent scenario st Hsane Hother)
      as ([] & st' & Hrun & _ & _ & Hn). eauto.
Qed.

Lemma peer_sane_sample : peer_sane sample_world.
Proof. intros i e. vm_compute. discriminate. Qed.

Lemma scenario_send_attempts_witness :
  ∃ st', run_demo_scenario (lit "load-test") sample_state = (Return tt, st')
         ∧ send_attempts (trace (world st')) = 100%nat.
Proof.
  exact (proj1 (scenario_send_attempts sample_state
                  clock_sane_sample peer_sane_sample)).
Defined.

(** ** Remarks *)

(** With a sane clock, every name that the tuple assignment rejects makes the
    builder raise [ValueError], after the counter was incremented. *)
Lemma create_hl7_message_unpack_error patient_name mrn modality st :
  clock_sane (world st) →
  name_parts patient_name = None →
  fst (create_hl7_message patient_name mrn modality st) = Raise exc_unpack
  ∧ message_count (self (snd (create_hl7_message patient_name mrn modality st)))
    = message_count (self st) + 1.
Proof.
  intros Hclock Hparts. split; [|apply create_hl7_message_mutates_counter_aux].
  rewrite create_hl7_message_unfold, create_hl7_segments_unfold. cbv zeta.
  destruct (mrn_of mrn (world st)) as [m rp].
  destruct (Hclock (S (clock_pos (world st)))) as [Hv Hy].
  destruct (datetime_add_two_hours_ok _ Hv Hy) as [apt ->].
  by rewrite Hparts.
Qed.


(** ** The decoder undoes the encoder *)

Lemma lor_small hi bound x :
  forallb (λ y, Z.lor hi y =? hi + y) (seqZ 0 bound) = true →
  0 <= x < bound → Z.lor hi x = hi + x.
Proof.
  intros Hall Hx. rewrite forallb_forall in Hall.
  apply Z.eqb_eq, Hall, list_elem_of_In, elem_of_seqZ. lia.
Qed.

Lemma lor_cont x : 0 <= x < 64 → Z.lor 0x80 x = 0x80 + x.
Proof. apply lor_small. vm_compute. reflexivity. Qed.

Lemma lor_lead2 x : 0 <= x < 32 → Z.lor 0xC0 x = 0xC0 + x.
Proof. apply lor_small. vm_compute. reflexivity. Qed.

Lemma lor_lead3 x : 0 <= x < 16 → Z.lor 0xE0 x = 0xE0 + x.
Proof. apply lor_small. vm_compute. reflexivity. Qed.

Lemma lor_lead4 x : 0 <= x < 8 → Z.lor 0xF0 x = 0xF0 + x.
Proof. apply lor_small. vm_compute. reflexivity. Qed.

Lemma land_low6 x : Z.land x 0x3F = x mod 64.
Proof. change 0x3F with (Z.ones 6). by rewrite Z.land_ones. Qed.

Ltac decide_ltb :=
  repeat match goal with
    | |- context [?a <? ?b] =>
        destruct (Z.ltb_spec a b); try (exfalso; Z.div_mod_to_equations; lia)
    | |- context [?a <=? ?b] =>
        destruct (Z.leb_spec a b); try (exfalso; Z.div_mod_to_equations; lia)
    | |- context [?a =? ?b] =>
        destruct (Z.eqb_spec a b); try (exfalso; Z.div_mod_to_equations; lia)
    end.

(** The bytes of an encoded scalar value, as sums. *)
Lemma utf8_encode_char_bytes c :
  valid_scalar c →
  utf8_encode_char c
  = Some (if c <? 0x80 then [c]
          else if c <? 0x800 then [0xC0 + c / 64; 0x80 + c mod 64]
          else if c <? 0x10000 then
            [0xE0 + c / 4096; 0x80 + (c / 64) mod 64; 0x80 + c mod 64]
          else [0xF0 + c / 262144; 0x80 + (c / 4096) mod 64;
                0x80 + (c / 64) mod 64; 0x80 + c mod 64]).
Proof.
  intros [Hrange Hsur]. unfold utf8_encode_char, is_surrogate.
  rewrite !land_low6, !Z.shiftr_div_pow2 by lia.
  change (2 ^ 6) with 64. change (2 ^ 12) with 4096. change (2 ^ 18) with 262144.
  destruct (Z.ltb_spec c 0x80); [done|].
  destruct (Z.ltb_spec c 0x800).
  { rewrite lor_lead2, lor_cont; [done| |]; Z.div_mod_to_equations; lia. }
  destruct (Z.leb_spec 0xD800 c), (Z.leb_spec c 0xDFFF); cbn [andb]; try lia;
    (destruct (Z.ltb_spec c 0x10000);
     [ rewrite lor_lead3, !lor_cont; [done|..]; Z.div_mod_to_equations; lia
     | rewrite lor_lead4, !lor_cont; [done|..]; Z.div_mod_to_equations; lia ]).
Qed.

Lemma utf8_decode_step_encode c bs rest :
  valid_scalar c → utf8_encode_char c = Some bs →
  utf8_decode_step (bs ++ rest) = (Some c, length bs) ∧ (1 ≤ length bs)%nat.
Proof.
  intros Hv. rewrite (utf8_encode_char_bytes c Hv). intros [= <-].
  destruct Hv as [Hrange Hsur].
  destruct (Z.ltb_spec c 0x80).
  { cbn [app utf8_decode_step length]. split; [|lia]. by decide_ltb. }
  destruct (Z.ltb_spec c 0x800).
  { cbn [app utf8_decode_step length]. unfold is_cont. split; [|lia].
    decide_ltb. cbn [andb]. rewrite Z.shiftl_mul_pow2 by lia.
    do 2 f_equal. Z.div_mod_to_equations. lia. }
  destruct (Z.ltb_spec c 0x10000).
  { cbn [app utf8_decode_step length]. unfold is_cont. split; [|lia].
    decide_ltb; cbn [andb negb orb]; rewrite !Z.shiftl_mul_pow2 by lia;
      do 2 f_equal; Z.div_mod_to_equations; lia. }
  cbn [app utf8_decode_step length]. unfold is_cont. split; [|lia].
  decide_ltb; cbn [andb negb orb]; rewrite !Z.shiftl_mul_pow2 by lia;
    do 2 f_equal; Z.div_mod_to_equations; lia.
Qed.

Lemma utf8_decode_fuel_encode s : ∀ b fuel,
  Forall valid_scalar s → utf8_encode s = Some b → (length b ≤ fuel)%nat →
  utf8_decode_fuel fuel b = s.
Proof.
  induction s as [|c r IH]; intros b fuel Hs Henc Hfuel.
  - injection Henc as <-. by destruct fuel.
  - apply Forall_cons in Hs as [Hc Hr]. cbn [utf8_encode] in Henc.
    destruct (utf8_encode_char c) as [bs|] eqn:Ec; [|done].
    destruct (utf8_encode r) as [br|] eqn:Er; [|done].
    injection Henc as <-.
    destruct (utf8_decode_step_encode c bs br Hc Ec) as [Hstep Hlen].
    rewrite length_app in Hfuel.
    destruct fuel as [|f]; [lia|]. cbn [utf8_decode_fuel].
    destruct (bs ++ br) as [|x t] eqn:Eapp.
    { apply (f_equal length) in Eapp. rewrite length_app in Eapp. simpl in Eapp. lia. }
    rewrite Hstep, <- Eapp, drop_app_length. f_equal. apply IH; [done..|lia].
Qed.

(** Decoding what [encode('utf-8')] produced gives the string back. *)
Lemma utf8_decode_ignore_encode s b :
  Forall valid_scalar s → utf8_encode s = Some b → utf8_decode_ignore b = s.
Proof. intros Hs Henc. by apply (utf8_decode_fuel_encode s). Qed.

Ltac step_case :=
  match goal with
  | |- context [if ?a <? ?b then _ else _] => destruct (Z.ltb_spec a b)
  | |- context [if ?a <=? ?b then _ else _] => destruct (Z.leb_spec a b)
  | |- context [if ?a =? ?b then _ else _] => destruct (Z.eqb_spec a b)
  | |- context [(?a <=? ?b) && _] => destruct (Z.leb_spec a b)
  | |- context [(?a <? ?b)] => destruct (Z.ltb_spec a b)
  | |- context [(?a =? ?b)] => destruct (Z.eqb_spec a b)
  end; cbn [andb orb negb].

(** Whatever the bytes, a decoded character is a Unicode scalar value. *)
Lemma utf8_decode_step_valid s c n :
  Forall is_byte s → utf8_decode_step s = (Some c, n) → valid_scalar c.
Proof.
  unfold is_byte, valid_scalar.
  destruct s as [|b1 t1]; [done|]. intros [Hb1 Ht1]%Forall_cons.
  unfold utf8_decode_step, is_cont.
  step_case; [intros [= <- _]; lia|].
  step_case; [done|].
  step_case.
  { destruct t1 as [|b2 t2]; [done|]. apply Forall_cons in Ht1 as [Hb2 _].
    repeat step_case; try done.
    rewrite Z.shiftl_mul_pow2 by lia. intros [= <- _]. lia. }
  step_case.
  { destruct t1 as [|b2 t2]; [done|]. apply Forall_cons in Ht1 as [Hb2 Ht2].
    repeat step_case; try done;
      (destruct t2 as [|b3 t3]; [done|]; apply Forall_cons in Ht2 as [Hb3 _];
       repeat step_case; try done;
       rewrite !Z.shiftl_mul_pow2 by lia; intros [= <- _]; lia). }
  step_case; [|done].
  destruct t1 as [|b2 t2]; [done|]. apply Forall_cons in Ht1 as [Hb2 Ht2].
  repeat step_case; try done;
    (destruct t2 as [|b3 t3]; [done|]; apply Forall_cons in Ht2 as [Hb3 Ht3];
     repeat step_case; try done;
     destruct t3 as [|b4 t4]; [done|]; apply Forall_cons in Ht3 as [Hb4 _];
     repeat step_case; try done;
     rewrite !Z.shiftl_mul_pow2 by lia; intros [= <- _]; lia).
Qed.

Lemma utf8_decode_fuel_valid fuel : ∀ b,
  Forall is_byte b → Forall valid_scalar (utf8_decode_fuel fuel b).
Proof.
  induction fuel as [|f IH]; intros b Hb; cbn [utf8_decode_fuel]; [constructor|].
  destruct b as [|x t]; [constructor|].
  destruct (utf8_decode_step (x :: t)) as [[c|] n] eqn:Hstep.
  - constructor; [by eapply utf8_decode_step_valid|]. by apply IH, Forall_drop.
  - by apply IH, Forall_drop.
Qed.

(** [decode('utf-8', errors='ignore')] turns any bytes into a well-formed
    string; nothing is rejected. *)
Lemma utf8_decode_ignore_valid b :
  Forall is_byte b → Forall valid_scalar (utf8_decode_ignore b).
Proof. apply utf8_decode_fuel_valid. Qed.

(** * Further properties *)

(** ** [send_message]: the socket calls *)

Lemma send_message_unfold message st :
  send_message message st
  = (send_outcome (peer (world st) (peer_pos (world st))),
     after_exchange st
       (net_events (peer (world st) (peer_pos (world st)))
                   (host (self st)) (port (self st)) message)).
Proof.
  destruct st as [s w].
  unfold send_message, try_except, send_outcome, first_failure, received,
    after_exchange, net_events.
  cbv [bind ret raise get_self next_exchange emit io].
  cbn [self world rng rng_pos clock clock_pos peer peer_pos trace].
  destruct (peer w (peer_pos w)) as [[[]|e1] [[]|e2] [[]|e3] [data|e4] [[]|e5]];
    cbn [x_socket x_connect x_send x_recv x_close];
    repeat match goal with
      | |- context [is_Exception ?c] => destruct (is_Exception c)
      end;
    cbn [self world rng rng_pos clock clock_pos peer peer_pos trace];
    rewrite <- ?app_assoc; reflexivity.
Qed.

(** X1: [send_message] closes the socket only on the path where creating it,
    connecting, sending and receiving all succeeded; when any of these four
    calls fails the socket is left unclosed, and nothing is sent unless the
    connection was established. *)
Theorem send_message_closes_only_after_recv message st :
  ∃ evs,
    trace (world (snd (send_message message st))) = trace (world st) ++ evs
    ∧ head evs = Some EvSocket
    ∧ (EvClose ∈ evs ↔
       ∃ data, x_socket (peer (world st) (peer_pos (world st))) = IoOk tt
               ∧ x_connect (peer (world st) (peer_pos (world st))) = IoOk tt
               ∧ x_send (peer (world st) (peer_pos (world st))) = IoOk tt
               ∧ x_recv (peer (world st) (peer_pos (world st))) = IoOk data)
    ∧ (EvSend message ∈ evs ↔
       x_socket (peer (world st) (peer_pos (world st))) = IoOk tt
       ∧ x_connect (peer (world st) (peer_pos (world st))) = IoOk tt).
Proof.
  rewrite send_message_unfold. cbn [snd after_exchange world trace].
  eexists. split; [reflexivity|]. unfold net_events.
  destruct (peer (world st) (peer_pos (world st)))
    as [[[]|e1] [[]|e2] [[]|e3] [data|e4] x5];
    cbn [x_socket x_connect x_send x_recv x_close head];
    (split; [reflexivity|]);
    rewrite ?elem_of_cons, ?elem_of_nil;
    (split; split; [intros H|intros H| intros H | intros H]);
    try (destruct H as (d & H1 & H2 & H3 & H4));
    try (destruct H as [H1 H2]);
    try discriminate; eauto 10;
    repeat match goal with
      | H : _ ∨ _ |- _ => destruct H
      | H : False |- _ => destruct H
      end; discriminate.
Qed.

Lemma utf8_decode_fuel_length fuel : ∀ b,
  (length (utf8_decode_fuel fuel b) ≤ fuel)%nat.
Proof.
  induction fuel as [|f IH]; intros b; cbn [utf8_decode_fuel]; [simpl; lia|].
  destruct b as [|x t]; [simpl; lia|].
  destruct (utf8_decode_step (x :: t)) as [[c|] n];
    [cbn [length]|]; specialize (IH (drop n (x :: t))); lia.
Qed.

(** X2: [send_message] leaves the instance, the random source and the clock
    alone and uses up exactly one exchange; the only socket calls it makes are
    creating the socket, connecting to the instance's own [host] and [port],
    sending the given message unchanged, one [recv(1024)] and [close]. *)
Theorem send_message_only_talks_to_its_peer message st :
  let st' := snd (send_message message st) in
  self st' = self st
  ∧ rng_pos (world st') = rng_pos (world st)
  ∧ clock_pos (world st') = clock_pos (world st)
  ∧ peer_pos (world st') = S (peer_pos (world st))
  ∧ ∃ evs,
      trace (world st') = trace (world st) ++ evs
      ∧ ∀ ev, ev ∈ evs →
          ev = EvSocket ∨ ev = EvConnect (host (self st)) (port (self st))
          ∨ ev = EvSend message ∨ ev = EvRecv 1024 ∨ ev = EvClose.
Proof.
  cbv zeta. rewrite send_message_unfold. cbn [snd after_exchange self world
    rng_pos clock_pos peer_pos trace].
  repeat split. eexists. split; [reflexivity|].
  intros ev. unfold net_events.
  destruct (peer (world st) (peer_pos (world st))) as [[] [] [] [] x5];
    cbn [x_socket x_connect x_send x_recv];
    rewrite ?elem_of_cons, ?elem_of_nil; tauto.
Qed.

(** X3: the response text [send_message] returns on success never has more
    than 1024 characters, however much the peer sends. *)
Theorem send_message_response_at_most_1024 message st text :
  fst (send_message message st) = Return (true, text) →
  (length text ≤ 1024)%nat.
Proof.
  rewrite send_message_unfold. cbn [fst]. unfold send_outcome.
  destruct (first_failure _) as [e|].
  - by destruct (is_Exception _).
  - intros [= <-]. unfold utf8_decode_ignore.
    etrans; [apply utf8_decode_fuel_length|].
    unfold received. destruct (x_recv _); [|simpl; lia].
    rewrite length_take. lia.
Qed.

Lemma send_message_response_at_most_1024_witness :
  ∃ text,
    fst (send_message [0x0B; 0x1C; 0x0D] (receiving_state (replicate 3000 65)))
    = Return (true, text)
    ∧ (length text ≤ 1024)%nat.
Proof.
  eexists. split; [vm_compute; reflexivity|].
  apply (send_message_response_at_most_1024 [0x0B; 0x1C; 0x0D]
           (receiving_state (replicate 3000 65))).
  vm_compute. reflexivity.
Defined.

(** A character cut short: the first bytes of an encoded scalar value, but
    not all of them, decode to nothing. *)
Lemma utf8_decode_fuel_truncated c bs n fuel :
  valid_scalar c → utf8_encode_char c = Some bs → (n < length bs)%nat →
  utf8_decode_fuel fuel (take n bs) = [].
Proof.
  intros Hv. rewrite (utf8_encode_char_bytes c Hv). intros [= <-] Hn.
  destruct Hv as [Hrange Hsur].
  destruct fuel as [|f]; [done|].
  destruct (Z.ltb_spec c 0x80).
  { cbn [length] in Hn. replace n with 0%nat by lia. done. }
  destruct (Z.ltb_spec c 0x800).
  { cbn [length] in Hn. destruct n as [|[|n]]; [done| |lia].
    cbn [take utf8_decode_fuel utf8_decode_step]. decide_ltb.
    cbn [drop]. by destruct f. }
  destruct (Z.ltb_spec c 0x10000).
  { cbn [length] in Hn. destruct n as [|[|[|n]]]; [done| | |lia];
      cbn [take utf8_decode_fuel utf8_decode_step]; unfold is_cont;
      decide_ltb; cbn [andb negb orb drop]; by destruct f. }
  cbn [length] in Hn. destruct n as [|[|[|[|n]]]]; [done| | | |lia];
    cbn [take utf8_decode_fuel utf8_decode_step]; unfold is_cont;
    decide_ltb; cbn [andb negb orb drop]; by destruct f.
Qed.

Lemma utf8_length_cons c bs r :
  utf8_encode_char c = Some bs → is_Some (utf8_encode r) →
  utf8_length (c :: r) = (length bs + utf8_length r)%nat.
Proof.
  intros Hc [br Hr]. unfold utf8_length. cbn [utf8_encode].
  by rewrite Hc, Hr, length_app.
Qed.

Lemma utf8_encode_take s b k :
  utf8_encode s = Some b → is_Some (utf8_encode (take k s)).
Proof.
  revert b k. induction s as [|c r IH]; intros b k Henc.
  - rewrite take_nil. by eexists.
  - destruct k as [|k]; [by eexists|]. cbn [take utf8_encode] in *.
    destruct (utf8_encode_char c) as [bs|]; [|done].
    destruct (utf8_encode r) as [br|] eqn:Er; [|done].
    destruct (IH br k eq_refl) as [bk ->]. by eexists.
Qed.

(** Decoding the first [n] bytes of an encoded string gives its longest
    prefix whose encoding lies within these bytes. *)
Lemma utf8_decode_fuel_take s : ∀ b n fuel,
  Forall valid_scalar s → utf8_encode s = Some b →
  (length (take n b) ≤ fuel)%nat →
  ∃ k,
    utf8_decode_fuel fuel (take n b) = take k s
    ∧ (utf8_length (take k s) ≤ n)%nat
    ∧ ((k < length s)%nat → (n < utf8_length (take (S k) s))%nat)
    ∧ ((length b ≤ n)%nat → take k s = s).
Proof.
  induction s as [|c r IH]; intros b n fuel Hs Henc Hfuel.
  - injection Henc as <-. exists 0%nat. rewrite !take_nil.
    split; [by destruct fuel|]. cbn [length utf8_length utf8_encode].
    split; [lia|]. split; [intros; lia|done].
  - apply Forall_cons in Hs as [Hc Hr]. cbn [utf8_encode] in Henc.
    destruct (utf8_encode_char c) as [bs|] eqn:Ec; [|done].
    destruct (utf8_encode r) as [br|] eqn:Er; [|done].
    injection Henc as <-.
    destruct (utf8_decode_step_encode c bs (take (n - length bs) br) Hc Ec)
      as [Hstep Hlen].
    destruct (decide (n < length bs)%nat) as [Hcut|Hwhole].
    + exists 0%nat. rewrite take_app_le by lia.
      rewrite (utf8_decode_fuel_truncated c bs n fuel Hc Ec Hcut).
      split; [done|]. split; [cbn; lia|]. split.
      * intros _. cbn [take]. rewrite take_0.
        rewrite (utf8_length_cons c bs []) by (done || by eexists). lia.
      * rewrite length_app. lia.
    + rewrite take_app_ge in * by lia.
      rewrite length_app in Hfuel.
      destruct fuel as [|f]; [lia|]. cbn [utf8_decode_fuel].
      destruct (bs ++ take (n - length bs) br) as [|x t] eqn:Eapp.
      { apply (f_equal length) in Eapp. rewrite length_app in Eapp.
        simpl in Eapp. lia. }
      rewrite Hstep, <- Eapp, drop_app_length.
      destruct (IH br (n - length bs)%nat f Hr eq_refl ltac:(lia))
        as (k & Hdec & Hfit & Hmax & Hall).
      exists (S k). rewrite Hdec. cbn [take length].
      rewrite !(utf8_length_cons c bs) by (done || by eapply utf8_encode_take).
      split; [done|]. split; [lia|]. split.
      * intros Hk. specialize (Hmax ltac:(lia)). lia.
      * rewrite length_app. intros Hn. f_equal. apply Hall. lia.
Qed.

Lemma utf8_decode_ignore_take s b n :
  Forall valid_scalar s → utf8_encode s = Some b →
  ∃ k,
    utf8_decode_ignore (take n b) = take k s
    ∧ (utf8_length (take k s) ≤ n)%nat
    ∧ ((k < length s)%nat → (n < utf8_length (take (S k) s))%nat)
    ∧ ((length b ≤ n)%nat → take k s = s).
Proof. intros Hs Henc. by apply (utf8_decode_fuel_take s b n). Qed.

(** X4: when every socket call succeeds and the bytes [recv(1024)] hands
    back are the first [n] bytes of the UTF-8 encoding of a well-formed
    string (all of it, or a part cut anywhere, also inside a character),
    [send_message] returns [True] and the longest prefix of that string whose
    encoding lies within these bytes: a character cut short is dropped, and
    when the whole encoding was handed back the string itself is returned. *)
Theorem send_message_decodes_reply message st s reply n :
  Forall valid_scalar s → utf8_encode s = Some reply →
  first_failure (peer (world st) (peer_pos (world st))) = None →
  received (peer (world st) (peer_pos (world st))) = take n reply →
  ∃ k,
    fst (send_message message st) = Return (true, take k s)
    ∧ (utf8_length (take k s) ≤ n)%nat
    ∧ ((k < length s)%nat → (n < utf8_length (take (S k) s))%nat)
    ∧ ((length reply ≤ n)%nat → take k s = s).
Proof.
  intros Hs Henc Hok Hrecv. rewrite send_message_unfold. cbn [fst].
  unfold send_outcome. rewrite Hok, Hrecv.
  destruct (utf8_decode_ignore_take s reply n Hs Henc) as (k & -> & H).
  by exists k.
Qed.

Lemma send_message_decodes_reply_witness :
  fst (send_message [0x0B; 0x1C; 0x0D] (receiving_state [0x41; 0xC3; 0xA9; 0xE2; 0x82]))
  = Return (true, [0x41; 0xE9])
  ∧ fst (send_message [0x0B; 0x1C; 0x0D]
           (receiving_state [0x41; 0xC3; 0xA9; 0xE2; 0x82; 0xAC]))
    = Return (true, [0x41; 0xE9; 0x20AC]).
Proof.
  assert (Hs : Forall valid_scalar [0x41; 0xE9; 0x20AC])
    by (repeat constructor; unfold valid_scalar; lia).
  split.
  - destruct (send_message_decodes_reply [0x0B; 0x1C; 0x0D]
                (receiving_state [0x41; 0xC3; 0xA9; 0xE2; 0x82])
                [0x41; 0xE9; 0x20AC] [0x41; 0xC3; 0xA9; 0xE2; 0x82; 0xAC] 5
                Hs eq_refl eq_refl eq_refl) as (k & Hrun & Hfit & Hmax & _).
    rewrite Hrun. do 2 f_equal.
    destruct k as [|[|[|k]]].
    + specialize (Hmax ltac:(simpl; lia)). vm_compute in Hmax. lia.
    + specialize (Hmax ltac:(simpl; lia)). vm_compute in Hmax. lia.
    + reflexivity.
    + cbn [take] in Hfit. rewrite take_nil in Hfit. vm_compute in Hfit. lia.
  - destruct (send_message_decodes_reply [0x0B; 0x1C; 0x0D]
                (receiving_state [0x41; 0xC3; 0xA9; 0xE2; 0x82; 0xAC])
                [0x41; 0xE9; 0x20AC] [0x41; 0xC3; 0xA9; 0xE2; 0x82; 0xAC] 6
                Hs eq_refl eq_refl eq_refl) as (k & Hrun & _ & _ & Hall).
    rewrite Hrun, Hall; [reflexivity | simpl; lia].
Defined.

(** ** [create_hl7_message]: which calls raise *)

(** [split] then [join] gives the string back, and no part holds the
    separator. *)
Lemma str_join_split_aux c s :
  str_join [c] (str_split c s) = s
  ∧ Forall (Forall (λ x, x ≠ c)) (str_split c s).
Proof.
  induction s as [|x r [IH IHf]]; [split; [done | by repeat constructor]|].
  cbn [str_split].
  pose proof (str_split_nonempty c r) as Hne.
  destruct (Z.eqb_spec x c) as [->|Hx];
    destruct (str_split c r) as [|w ws] eqn:E; try done.
  - split; [|by constructor].
    change (str_join [c] ([] :: w :: ws)) with (c :: str_join [c] (w :: ws)).
    by rewrite IH.
  - apply Forall_cons in IHf as [Hw Hws].
    split; [|constructor; [by constructor | done]].
    destruct ws as [|w' ws'].
    + simpl in *. by rewrite IH.
    + change (str_join [c] ((x :: w) :: w' :: ws'))
        with (x :: str_join [c] (w :: w' :: ws')).
      by rewrite IH.
Qed.

(** The two ways the tuple assignment succeeds. *)
Lemma name_parts_inv_aux patient_name a b :
  name_parts patient_name = Some (a, b) →
  (patient_name = a ∧ b = lit "Test" ∧ Forall (λ x, x ≠ SPACE) patient_name)
  ∨ patient_name = a ++ SPACE :: b.
Proof.
  unfold name_parts.
  destruct (str_contains_char SPACE patient_name) eqn:Hsp.
  - pose proof (str_join_split_aux SPACE patient_name) as [Hjoin _].
    destruct (str_split SPACE patient_name) as [|x [|y [|z l]]]; try done.
    intros [= <- <-]. right. by rewrite <- Hjoin.
  - intros [= <- <-]. left. by apply str_contains_char_false in Hsp.
Qed.

Lemma utf8_encode_char_is_Some c :
  is_Some (utf8_encode_char c) ↔ encodable c.
Proof.
  unfold utf8_encode_char, encodable, is_surrogate.
  destruct (Z.ltb_spec c 0x80); [split; [intros _|by eexists]|].
  { destruct (Z.leb_spec 0xD800 c); [lia | done]. }
  destruct (Z.ltb_spec c 0x800); [split; [intros _|by eexists]|].
  { destruct (Z.leb_spec 0xD800 c); [lia | done]. }
  destruct ((0xD800 <=? c) && (c <=? 0xDFFF)).
  - split; [by intros [? ?] | done].
  - destruct (c <? 0x10000); split; try done; by eexists.
Qed.

(** [encode('utf-8')] fails exactly on strings holding a surrogate. *)
Lemma utf8_encode_is_Some s :
  is_Some (utf8_encode s) ↔ Forall encodable s.
Proof.
  induction s as [|c r IH]; cbn [utf8_encode].
  - split; [constructor | by eexists].
  - rewrite Forall_cons, <- IH, <- utf8_encode_char_is_Some.
    destruct (utf8_encode_char c), (utf8_encode r); split;
      try (intros [? ?]; done); try (intros [[? ?] [? ?]]; done);
      intros; try split; by eexists.
Qed.

Lemma encodableb_spec s : forallb encodableb s = true → Forall encodable s.
Proof.
  rewrite forallb_forall, Forall_forall. intros H c Hc.
  apply list_elem_of_In, H in Hc. unfold encodableb in Hc.
  by apply negb_true_iff in Hc.
Qed.

Lemma seg_char_encodable s : Forall seg_char s → Forall encodable s.
Proof.
  intros H. eapply Forall_impl; [exact H|]. intros c [Hc _].
  unfold encodable, is_surrogate. destruct (Z.leb_spec 0xD800 c); [lia | done].
Qed.

Ltac encodable_part :=
  first
    [ assumption
    | apply seg_char_encodable;
      first [ seg_lit
            | apply study_code_of_seg
            | apply Forall_plain_seg, Forall_digits_plain;
              first [ apply format_d_chars | apply format_0d_chars
                    | apply strftime_YmdHM_chars | apply strftime_YmdHMS_chars ]
            | apply Forall_plain_seg, message_id_plain ] ].

(** Of a message only the MRN and the two name parts can fail to encode. *)
Lemma mllp_wrap_encodable ts mid filler apt_ts mrn_str a b modality :
  Forall encodable
    (mllp_wrap [msh_segment (strftime_YmdHMS ts) (lit "MSG" ++ format_0d 6 mid);
                sch_segment filler (strftime_YmdHM apt_ts);
                pid_segment mrn_str a b;
                rgs_segment;
                ais_segment (study_code_of modality) (strftime_YmdHM apt_ts);
                aip_segment (strftime_YmdHM apt_ts)])
  ↔ Forall encodable mrn_str ∧ Forall encodable a ∧ Forall encodable b.
Proof.
  unfold mllp_wrap. rewrite str_join_six.
  unfold msh_segment, sch_segment, pid_segment, rgs_segment, ais_segment,
    aip_segment.
  rewrite !Forall_app. split.
  - tauto.
  - intros (Hm & Ha & Hb).
    assert (Hcr : Forall encodable [CR]) by (by repeat constructor).
    repeat split; try encodable_part; by repeat constructor.
Qed.

Lemma name_parts_encodable patient_name a b :
  name_parts patient_name = Some (a, b) →
  Forall encodable a ∧ Forall encodable b ↔ Forall encodable patient_name.
Proof.
  intros [(-> & -> & _) | ->]%name_parts_inv_aux.
  - split; [tauto|]. intros H. split; [done|]. apply seg_char_encodable. seg_lit.
  - rewrite Forall_app, Forall_cons. split; [|tauto].
    intros [Ha Hb]. repeat split; done.
Qed.

Lemma mrn_of_encodable mrn w :
  Forall encodable (fst (mrn_of mrn w)) ↔ Forall encodable (default [] mrn).
Proof.
  assert (Hgen : ∀ r, Forall encodable (lit "MRN" ++ format_d r)).
  { intros r. apply Forall_app. split.
    - apply seg_char_encodable. seg_lit.
    - apply seg_char_encodable, Forall_plain_seg, Forall_digits_plain,
        format_d_chars. }
  unfold mrn_of. destruct mrn as [[|c m]|]; cbn [falsy fst default]; [|done|];
    (split; [intros _; constructor | intros _; apply Hgen]).
Qed.

(** X5: with a sane clock and a name the tuple assignment accepts,
    [create_hl7_message] returns exactly when neither the patient name nor a
    supplied MRN holds a surrogate code point, and raises an exception of
    class [UnicodeEncodeError] otherwise; the modality never makes the call
    fail, whatever it contains. *)
Theorem create_hl7_message_encode_error patient_name mrn modality st a b :
  clock_sane (world st) →
  name_parts patient_name = Some (a, b) →
  (Forall encodable (patient_name ++ default [] mrn) →
   ∃ frame, fst (create_hl7_message patient_name mrn modality st) = Return frame)
  ∧ (¬ Forall encodable (patient_name ++ default [] mrn) →
     ∃ e, fst (create_hl7_message patient_name mrn modality st) = Raise e
          ∧ exc_class e = UnicodeEncodeError).
Proof.
  intros Hclock Hparts.
  destruct (create_hl7_segments_returns patient_name mrn modality st a b
              Hclock Hparts) as (segs & st' & Hsegs).
  destruct (create_hl7_segments_shape _ _ _ _ _ _ Hsegs)
    as (apt & a' & b' & _ & Hparts' & Heq & _).
  rewrite Hparts in Hparts'. injection Hparts' as <- <-.
  assert (Hiff : is_Some (utf8_encode (mllp_wrap segs))
                 ↔ Forall encodable (patient_name ++ default [] mrn)).
  { rewrite utf8_encode_is_Some, Heq, mllp_wrap_encodable, Forall_app.
    rewrite mrn_of_encodable, <- (name_parts_encodable _ _ _ Hparts). tauto. }
  rewrite create_hl7_message_unfold, Hsegs.
  destruct (utf8_encode (mllp_wrap segs)) as [frame|]; cbn [fst].
  - split; [eauto|]. intros Hn. exfalso. apply Hn, Hiff. by eexists.
  - split; [|by eexists]. intros [fr Hfr]%Hiff. done.
Qed.

Lemma create_hl7_message_encode_error_witness :
  ∃ frame,
    fst (create_hl7_message (lit "Zo" ++ [0xEB] ++ lit " Smith" ++ [0x1F600]) (Some (lit "A1"))
           [0xD800] sample_state) = Return frame.
Proof.
  refine (proj1 (create_hl7_message_encode_error
                   (lit "Zo" ++ [0xEB] ++ lit " Smith" ++ [0x1F600])
                   (Some (lit "A1")) [0xD800] sample_state
                   (lit "Zo" ++ [0xEB]) (lit "Smith" ++ [0x1F600])
                   clock_sane_sample eq_refl) _).
  apply encodableb_spec. vm_compute. reflexivity.
Defined.

(** The text of the error names the codec, the offending character and its
    position in the wrapped message; a run of surrogates is reported by its
    first and last position. *)
Example create_hl7_message_encode_error_text :
  fst (create_hl7_message (lit "Ann" ++ [0xDC80]) None (lit "MRI") sample_state)
  = Raise (mk_exc UnicodeEncodeError
             (lit "'utf-8' codec can't encode character '\udc80' in position 164: surrogates not allowed"))
  ∧ fst (create_hl7_message (lit "Ann" ++ [0xDC80; 0xDFFF]) None (lit "MRI")
           sample_state)
    = Raise (mk_exc UnicodeEncodeError
               (lit "'utf-8' codec can't encode characters in position 164-165: surrogates not allowed")).
Proof. split; vm_compute; reflexivity. Qed.

(** ** [create_hl7_message]: the end of the calendar *)

Lemma toordinal_max dt :
  datetime_valid dt = true →
  toordinal dt = MAXORDINAL ↔ year dt = 9999 ∧ month dt = 12 ∧ day dt = 31.
Proof.
  intros Hv. pose proof (toordinal_bounds dt Hv) as [_ Hlt].
  apply datetime_valid_iff in Hv as (Hy & Hm & Hd & _).
  unfold toordinal, ymd2ord, days_before_month, days_in_month, MAXORDINAL in *.
  split.
  - intros Hmax. assert (Hy9 : year dt = 9999) by lia.
    rewrite Hy9 in *. change (is_leap 9999) with false in *.
    change (days_before_year 9999) with 3651694 in Hmax.
    assert (Hc : month dt = 1 ∨ month dt = 2 ∨ month dt = 3 ∨ month dt = 4
                 ∨ month dt = 5 ∨ month dt = 6 ∨ month dt = 7 ∨ month dt = 8
                 ∨ month dt = 9 ∨ month dt = 10 ∨ month dt = 11 ∨ month dt = 12)
      by lia.
    repeat (destruct Hc as [Hc | Hc]); rewrite Hc in *;
      set (x := dim _ _) in Hd; vm_compute in x; subst x;
      set (x := dbm _ _) in Hmax; vm_compute in x; subst x; lia.
  - intros (-> & -> & ->). reflexivity.
Qed.

(** [now + timedelta(hours=2)] overflows exactly in the last two hours of
    31 December 9999. *)
Lemma datetime_add_two_hours_overflow dt :
  datetime_valid dt = true →
  datetime_add dt (timedelta_hours 2) = None
  ↔ year dt = 9999 ∧ month dt = 12 ∧ day dt = 31 ∧ 22 <= hour dt.
Proof.
  intros Hv. pose proof (toordinal_bounds dt Hv) as [Hord _].
  pose proof (toordinal_max dt Hv) as Hmax.
  apply datetime_valid_iff in Hv as (_ & _ & _ & Hh & Hmi & Hs & Hus).
  rewrite timedelta_two_hours. unfold datetime_add, timedelta_norm.
  cbn [td_days td_seconds td_microseconds].
  rewrite Z.add_0_r, (Z.add_0_r (microsecond dt)).
  rewrite (Z.div_small (microsecond dt)) by lia. rewrite Z.add_0_r.
  set (T := hour dt * 3600 + minute dt * 60 + second dt + 7200).
  assert (HT : (hour dt < 22 ∧ T / 86400 = 0) ∨ (22 <= hour dt ∧ T / 86400 = 1)).
  { subst T. destruct (Z_lt_le_dec (hour dt) 22); [left|right];
      (split; [done|]); Z.div_mod_to_equations; lia. }
  unfold MAXORDINAL in *.
  destruct ((0 <? toordinal dt + T / 86400)
            && (toordinal dt + T / 86400 <=? 3652059)) eqn:Hrange.
  - apply andb_true_iff in Hrange as [_ Hhi%Z.leb_le].
    destruct (ord2ymd _) as [[y m] d]. split; [done|].
    intros (Hy & Hm & Hd & Hh22). exfalso.
    assert (toordinal dt = 3652059) by (apply Hmax; done). lia.
  - split; [intros _|done].
    apply andb_false_iff in Hrange as [Hlo%Z.ltb_ge | Hhi%Z.leb_gt]; [lia|].
    assert (toordinal dt = 3652059) as Hm%Hmax by lia. intuition lia.
Qed.

(** X6: for a valid clock reading, [create_hl7_message] raises
    [OverflowError] exactly when the reading used for the appointment time is
    31 December 9999, 22:00 or later; in that case the error comes before the
    name is looked at, so even a malformed name yields [OverflowError]. *)
Theorem create_hl7_message_overflow patient_name mrn modality st :
  datetime_valid (clock (world st) (S (clock_pos (world st)))) = true →
  fst (create_hl7_message patient_name mrn modality st) = Raise exc_overflow
  ↔ year (clock (world st) (S (clock_pos (world st)))) = 9999
    ∧ month (clock (world st) (S (clock_pos (world st)))) = 12
    ∧ day (clock (world st) (S (clock_pos (world st)))) = 31
    ∧ 22 <= hour (clock (world st) (S (clock_pos (world st)))).
Proof.
  intros Hv. rewrite <- (datetime_add_two_hours_overflow _ Hv).
  rewrite create_hl7_message_unfold, create_hl7_segments_unfold. cbv zeta.
  destruct (mrn_of mrn (world st)) as [m rp].
  destruct (datetime_add _ _) as [apt|]; [|done].
  destruct (name_parts patient_name) as [[a b]|]; cbn [fst].
  - destruct (utf8_encode _); split; discriminate.
  - split; discriminate.
Qed.

Lemma create_hl7_message_overflow_witness :
  fst (create_hl7_message (lit "Mary Ann Smith") None (lit "MRI") last_hours_state)
  = Raise exc_overflow.
Proof.
  apply (create_hl7_message_overflow (lit "Mary Ann Smith") None (lit "MRI")
           last_hours_state eq_refl).
  vm_compute. repeat split; discriminate.
Defined.

(** ** [create_hl7_message]: reading the fields back *)

(** Leading plain-text segments of a frame are read back unchanged, whatever
    follows them. *)
Lemma frame_leading_segments pre : ∀ rest payload,
  Forall (Forall seg_char) pre → rest ≠ [] →
  utf8_encode (str_join [CR] (pre ++ rest)) = Some payload →
  ∃ tail, str_split CR payload = pre ++ tail.
Proof.
  induction pre as [|s pre' IH]; intros rest payload Hpre Hrest Henc.
  - by exists (str_split CR payload).
  - apply Forall_cons in Hpre as [Hs Hpre'].
    assert (Hne : pre' ++ rest ≠ []) by (destruct pre'; [done | discriminate]).
    destruct (pre' ++ rest) as [|b l] eqn:E; [done|].
    change (str_join [CR] ((s :: pre') ++ rest))
      with (str_join [CR] (s :: (pre' ++ rest))) in Henc.
    rewrite E in Henc.
    change (str_join [CR] (s :: b :: l))
      with (s ++ [CR] ++ str_join [CR] (b :: l)) in Henc.
    rewrite utf8_encode_app, (utf8_encode_ascii s) in Henc
      by by apply Forall_seg_ascii.
    rewrite utf8_encode_app in Henc.
    change (utf8_encode [CR]) with (Some [CR]) in Henc.
    destruct (utf8_encode (str_join [CR] (b :: l))) as [tl|] eqn:Etl; [|done].
    injection Henc as <-. rewrite <- E in Etl.
    destruct (IH rest tl Hpre' Hrest Etl) as [tail Htail].
    exists tail. cbn [app].
    rewrite str_split_app by by apply Forall_seg_no_cr. by rewrite Htail.
Qed.

Lemma sch_segment_seg filler ts :
  Forall plain_char ts → Forall seg_char (sch_segment filler ts).
Proof.
  intros Hts. unfold sch_segment. rewrite !Forall_app.
  repeat split; try seg_lit; [|by apply Forall_plain_seg].
  apply Forall_plain_seg, Forall_digits_plain, format_d_chars.
Qed.

Ltac no_pipe :=
  first [ assumption | apply str_contains_char_false; reflexivity ].

(** The twenty-six fields of the SCH segment. *)
Lemma sch_segment_fields filler ts :
  Forall plain_char ts →
  str_split PIPE (sch_segment filler ts)
  = [lit "SCH"; []; format_d filler; []; []; []; []; []; []; lit "30"; lit "MIN";
     lit "^^30^" ++ ts ++ lit "^^R";
     []; []; []; []; []; []; []; []; []; []; []; []; []; lit "SCHEDULED"].
Proof.
  intros Hts%Forall_plain_no_pipe.
  pose proof (Forall_plain_no_pipe _ (Forall_digits_plain _ (format_d_chars filler)))
    as Hf.
  assert (Hmid : Forall (λ x, x ≠ PIPE) (lit "^^30^" ++ ts ++ lit "^^R")).
  { rewrite !Forall_app. repeat split; no_pipe. }
  replace (sch_segment filler ts)
    with (lit "SCH" ++ PIPE :: [] ++ PIPE :: format_d filler ++ PIPE ::
          [] ++ PIPE :: [] ++ PIPE :: [] ++ PIPE :: [] ++ PIPE :: [] ++ PIPE ::
          [] ++ PIPE :: lit "30" ++ PIPE :: lit "MIN" ++ PIPE ::
          (lit "^^30^" ++ ts ++ lit "^^R") ++ PIPE ::
          [] ++ PIPE :: [] ++ PIPE :: [] ++ PIPE :: [] ++ PIPE :: [] ++ PIPE ::
          [] ++ PIPE :: [] ++ PIPE :: [] ++ PIPE :: [] ++ PIPE :: [] ++ PIPE ::
          [] ++ PIPE :: [] ++ PIPE :: [] ++ PIPE :: lit "SCHEDULED").
  2:{ unfold sch_segment. rewrite <- !app_assoc. reflexivity. }
  repeat (rewrite str_split_app; [|no_pipe]).
  rewrite str_split_no_sep; [done|no_pipe].
Qed.

(** The fourteen fields of the PID segment, for a record number and name
    parts without a field separator. *)
Lemma pid_segment_fields mrn a b :
  Forall (λ x, x ≠ PIPE) mrn → Forall (λ x, x ≠ PIPE) a →
  Forall (λ x, x ≠ PIPE) b →
  str_split PIPE (pid_segment mrn a b)
  = [lit "PID"; lit "1"; []; mrn; []; a ++ lit "^" ++ b; []; lit "19800101";
     lit "M"; []; []; lit "123 Main St^^Boston^MA^02101"; []; lit "617-555-0123"].
Proof.
  intros Hm Ha Hb.
  assert (Hname : Forall (λ x, x ≠ PIPE) (a ++ lit "^" ++ b)).
  { rewrite !Forall_app. repeat split; no_pipe. }
  replace (pid_segment mrn a b)
    with (lit "PID" ++ PIPE :: lit "1" ++ PIPE :: [] ++ PIPE :: mrn ++ PIPE ::
          [] ++ PIPE :: (a ++ lit "^" ++ b) ++ PIPE :: [] ++ PIPE ::
          lit "19800101" ++ PIPE :: lit "M" ++ PIPE :: [] ++ PIPE :: [] ++ PIPE ::
          lit "123 Main St^^Boston^MA^02101" ++ PIPE :: [] ++ PIPE ::
          lit "617-555-0123").
  2:{ unfold pid_segment. rewrite <- !app_assoc. reflexivity. }
  repeat (rewrite str_split_app; [|no_pipe]).
  rewrite str_split_no_sep; [done|no_pipe].
Qed.

(** What the first two segments of any returned frame are. *)
Lemma create_hl7_message_header patient_name mrn modality st frame st' :
  create_hl7_message patient_name mrn modality st = (Return frame, st') →
  ∃ apt_time,
    datetime_add (clock (world st) (S (clock_pos (world st)))) (timedelta_hours 2)
    = Some apt_time
    ∧ hl7_segment 0 frame
      = msh_segment (strftime_YmdHMS (clock (world st) (clock_pos (world st))))
                    (lit "MSG" ++ format_0d 6 (message_count (self st) + 1))
    ∧ hl7_segment 1 frame
      = sch_segment (1000 + rng (world st) (snd (mrn_of mrn (world st)))
                            mod (9999 - 1000 + 1))
                    (strftime_YmdHM apt_time).
Proof.
  intros Hrun.
  destruct (create_hl7_message_frame_shape _ _ _ _ _ _ Hrun)
    as (segs & payload & Hsegs & _ & Henc & ->).
  destruct (create_hl7_segments_shape _ _ _ _ _ _ Hsegs)
    as (apt & a & b & Hadd & _ & -> & _).
  exists apt. split; [done|].
  unfold hl7_segment, hl7_segments. rewrite mllp_payload_frame.
  match type of Henc with
  | utf8_encode (str_join _ (?m :: ?s :: ?rest)) = _ =>
      destruct (frame_leading_segments [m; s] rest payload) as [tail ->];
        [|done|exact Henc|done]
  end.
  each_segment.
  - apply msh_segment_seg; [|apply message_id_plain].
    apply Forall_digits_plain, strftime_YmdHMS_chars.
  - apply sch_segment_seg, Forall_digits_plain, strftime_YmdHM_chars.
Qed.

Lemma strftime_YmdHMS_format dt :
  datetime_valid dt = true → 1000 <= year dt →
  length (strftime_YmdHMS dt) = 14%nat
  ∧ Forall (λ c, is_digit c = true) (strftime_YmdHMS dt)
  ∧ take 12 (strftime_YmdHMS dt) = strftime_YmdHM dt
  ∧ int_of_digits (drop 12 (strftime_YmdHMS dt)) = second dt.
Proof.
  intros Hv Hy. destruct (strftime_YmdHM_format dt Hv Hy) as (Hlen & Hdig & _).
  apply datetime_valid_iff in Hv as (_ & _ & _ & _ & _ & Hs & _).
  assert (Ls : length (format_0d 2 (second dt)) = 2%nat)
    by (apply format_0d_length; [lia | simpl; lia]).
  unfold strftime_YmdHMS. repeat split.
  - rewrite length_app. lia.
  - apply Forall_app. split; [done|]. apply format_0d_digits. lia.
  - by apply take_app_length'.
  - rewrite drop_app_length' by done. apply format_0d_value. lia.
Qed.

(** X7: whatever the arguments, the MSH segment of a returned message has
    the twelve fields MSH, the encoding characters, RIS, MEMORIAL, RADSCHED,
    RAD, the timestamp, an empty field, SIU^S12, the control ID, P and 2.5;
    the timestamp is the first clock reading as fourteen digits
    YYYYMMDDHHMMSS.  No patient name or MRN can disturb the header. *)
Theorem msh_fields_of_every_message patient_name mrn modality st frame st' :
  create_hl7_message patient_name mrn modality st = (Return frame, st') →
  datetime_valid (clock (world st) (clock_pos (world st))) = true →
  1000 <= year (clock (world st) (clock_pos (world st))) →
  ∃ ts,
    str_split PIPE (hl7_segment 0 frame)
    = [lit "MSH"; lit "^~\&"; lit "RIS"; lit "MEMORIAL"; lit "RADSCHED"; lit "RAD";
       ts; []; lit "SIU^S12";
       lit "MSG" ++ format_0d 6 (message_count (self st) + 1); lit "P"; lit "2.5"]
    ∧ ts = strftime_YmdHMS (clock (world st) (clock_pos (world st)))
    ∧ length ts = 14%nat
    ∧ Forall (λ c, is_digit c = true) ts
    ∧ parse_YmdHM (take 12 ts)
      = (year (clock (world st) (clock_pos (world st))),
         month (clock (world st) (clock_pos (world st))),
         day (clock (world st) (clock_pos (world st))),
         hour (clock (world st) (clock_pos (world st))),
         minute (clock (world st) (clock_pos (world st))))
    ∧ int_of_digits (drop 12 ts) = second (clock (world st) (clock_pos (world st))).
Proof.
  intros Hrun Hv Hy.
  destruct (create_hl7_message_header _ _ _ _ _ _ Hrun) as (apt & _ & Hmsh & _).
  destruct (strftime_YmdHMS_format _ Hv Hy) as (Hlen & Hdig & Htake & Hsec).
  destruct (strftime_YmdHM_format _ Hv Hy) as (_ & _ & Hparse).
  eexists. split; [|split; [reflexivity|]].
  - rewrite Hmsh. apply msh_segment_fields; [|apply message_id_plain].
    apply Forall_digits_plain, strftime_YmdHMS_chars.
  - rewrite Htake. done.
Qed.

Lemma msh_fields_of_every_message_witness :
  ∃ frame,
    fst (create_hl7_message (lit "Jane Smith") None (lit "CT") sample_state)
    = Return frame
    ∧ hl7_field 0 6 frame = lit "20240228225959".
Proof.
  destruct (create_hl7_message (lit "Jane Smith") None (lit "CT") sample_state)
    as [o st'] eqn:E.
  assert (∃ frame, o = Return frame) as [frame ->].
  { apply (f_equal fst) in E. vm_compute in E. subst o. eauto. }
  destruct (msh_fields_of_every_message _ _ _ _ _ _ E eq_refl ltac:(simpl; lia))
    as (ts & Hfields & -> & _).
  exists frame. split; [reflexivity|].
  unfold hl7_field. rewrite Hfields. reflexivity.
Defined.

Lemma format_d_length_4 r : 1000 <= r <= 9999 → length (format_d r) = 4%nat.
Proof.
  intros Hr. unfold format_d.
  destruct (r <? 0) eqn:E; [apply Z.ltb_lt in E; lia|].
  apply (str_of_nonneg_length 3). simpl. lia.
Qed.

(** X8: whatever the arguments, the SCH segment of a returned message has
    its 26 fields in place: the filler ID is a four-digit number of
    1000..9999, the duration is 30 MIN, the appointment timestamp sits in
    [^^30^...^^R] and the status is SCHEDULED. *)
Theorem sch_fields_of_every_message patient_name mrn modality st frame st' :
  create_hl7_message patient_name mrn modality st = (Return frame, st') →
  ∃ filler apt_timestamp,
    str_split PIPE (hl7_segment 1 frame)
    = [lit "SCH"; []; format_d filler; []; []; []; []; []; []; lit "30"; lit "MIN";
       lit "^^30^" ++ apt_timestamp ++ lit "^^R";
       []; []; []; []; []; []; []; []; []; []; []; []; []; lit "SCHEDULED"]
    ∧ 1000 <= filler <= 9999
    ∧ length (format_d filler) = 4%nat
    ∧ int_of_digits (format_d filler) = filler
    ∧ Forall (λ c, c ≠ PIPE ∧ c ≠ CR) apt_timestamp.
Proof.
  intros Hrun.
  destruct (create_hl7_message_header _ _ _ _ _ _ Hrun) as (apt & _ & _ & Hsch).
  set (filler := 1000 + rng (world st) (snd (mrn_of mrn (world st)))
                        mod (9999 - 1000 + 1)) in *.
  assert (Hr : 1000 <= filler <= 9999) by (apply randint_range; lia).
  pose proof (Forall_digits_plain _ (strftime_YmdHM_chars apt)) as Hts.
  exists filler, (strftime_YmdHM apt). repeat split; try lia.
  - rewrite Hsch. by apply sch_segment_fields.
  - by apply format_d_length_4.
  - apply format_d_value. lia.
  - eapply Forall_impl; [exact Hts|]. unfold plain_char. tauto.
Qed.

Lemma sch_fields_of_every_message_witness :
  ∃ frame,
    fst (create_hl7_message (lit "Jane Smith") None (lit "CT") sample_state)
    = Return frame
    ∧ length (hl7_field 1 2 frame) = 4%nat.
Proof.
  destruct (create_hl7_message (lit "Jane Smith") None (lit "CT") sample_state)
    as [o st'] eqn:E.
  assert (∃ frame, o = Return frame) as [frame ->].
  { apply (f_equal fst) in E. vm_compute in E. subst o. eauto. }
  destruct (sch_fields_of_every_message _ _ _ _ _ _ E)
    as (filler & ts & Hfields & _ & Hlen & _).
  exists frame. split; [reflexivity|].
  unfold hl7_field. rewrite Hfields. exact Hlen.
Defined.

Lemma mrn_of_plain mrn w :
  Forall plain_char (default [] mrn) → Forall plain_char (fst (mrn_of mrn w)).
Proof.
  intros H. unfold mrn_of. destruct (falsy mrn); cbn [fst]; [|done].
  apply Forall_app. split; [plain_lit|].
  apply Forall_digits_plain, format_d_chars.
Qed.

Lemma mrn_of_cases mrn w :
  match mrn with
  | Some (c :: m) => fst (mrn_of mrn w) = c :: m
  | _ => ∃ r, 100000 <= r <= 999999 ∧ fst (mrn_of mrn w) = lit "MRN" ++ format_d r
  end.
Proof.
  unfold mrn_of. destruct mrn as [[|c m]|]; cbn [falsy fst default]; [|done|];
    (eexists; split; [|reflexivity]; apply randint_range; lia).
Qed.

(** X9: for a patient name and MRN of plain text (ASCII, no carriage return,
    no field separator) the PID segment of the returned message reads back
    as its fourteen fields: PID-3 is a supplied non-empty MRN verbatim, or
    else MRN and a number of 100000..999999; PID-5 is [last^first], where the
    name is [last], a space, [first], or is [last] alone with [first] being
    Test. *)
Theorem pid_fields_of_plain_message patient_name mrn modality st frame st' :
  create_hl7_message patient_name mrn modality st = (Return frame, st') →
  Forall plain_char patient_name → Forall plain_char (default [] mrn) →
  ∃ mrn_str last_name first_name,
    str_split PIPE (hl7_segment 2 frame)
    = [lit "PID"; lit "1"; []; mrn_str; []; last_name ++ lit "^" ++ first_name; [];
       lit "19800101"; lit "M"; []; [];
       lit "123 Main St^^Boston^MA^02101"; []; lit "617-555-0123"]
    ∧ match mrn with
      | Some (c :: m) => mrn_str = c :: m
      | _ => ∃ r, 100000 <= r <= 999999 ∧ mrn_str = lit "MRN" ++ format_d r
      end
    ∧ ((patient_name = last_name ∧ first_name = lit "Test"
        ∧ Forall (λ x, x ≠ SPACE) patient_name)
       ∨ (patient_name = last_name ++ SPACE :: first_name
          ∧ Forall (λ x, x ≠ SPACE) last_name
          ∧ Forall (λ x, x ≠ SPACE) first_name)).
Proof.
  intros Hrun Hname Hmrn.
  destruct (create_hl7_message_frame_shape _ _ _ _ _ _ Hrun)
    as (segs & payload & Hsegs & _ & _ & _).
  pose proof (mrn_of_plain mrn (world st) Hmrn) as Hmrn'.
  destruct (create_hl7_message_plain _ _ _ _ _ _ Hsegs
              (Forall_plain_seg _ Hname) (Forall_plain_seg _ Hmrn'))
    as [Hmsg Hread].
  rewrite Hrun in Hmsg. injection Hmsg as ->.
  destruct (create_hl7_segments_shape _ _ _ _ _ _ Hsegs)
    as (apt & a & b & _ & Hparts & -> & _).
  destruct (name_parts_Forall plain_char _ _ _ Hname ltac:(plain_lit) Hparts)
    as [Ha Hb].
  exists (fst (mrn_of mrn (world st))), a, b.
  split; [|split; [apply mrn_of_cases|]].
  - unfold hl7_segment. rewrite Hread. cbn [nth].
    apply pid_segment_fields; by apply Forall_plain_no_pipe.
  - revert Hparts. unfold name_parts.
    destruct (str_contains_char SPACE patient_name) eqn:Hsp.
    + pose proof (str_join_split_aux SPACE patient_name) as (Hjoin & Hfree).
      destruct (str_split SPACE patient_name) as [|x [|y [|z l]]]; try done.
      intros [= <- <-]. right. split; [by rewrite <- Hjoin|].
      apply Forall_cons in Hfree as [Hx Hy]. apply Forall_cons in Hy as [Hy _].
      done.
    + intros [= <- <-]. left. by apply str_contains_char_false in Hsp.
Qed.

Lemma pid_fields_of_plain_message_witness :
  ∃ frame,
    fst (create_hl7_message (lit "Doe") (Some (lit "A-17")) (lit "US") sample_state)
    = Return frame
    ∧ hl7_field 2 3 frame = lit "A-17"
    ∧ hl7_field 2 5 frame = lit "Doe^Test".
Proof.
  destruct (create_hl7_message (lit "Doe") (Some (lit "A-17")) (lit "US") sample_state)
    as [o st'] eqn:E.
  assert (∃ frame, o = Return frame) as [frame ->].
  { apply (f_equal fst) in E. vm_compute in E. subst o. eauto. }
  destruct (pid_fields_of_plain_message _ _ _ _ _ _ E
              ltac:(plain_lit)
              ltac:(change (Forall plain_char (lit "A-17")); plain_lit))
    as (m & a & b & Hfields & Hm & Hname).
  exists frame. split; [reflexivity|].
  unfold hl7_field. rewrite Hfields. cbn [nth]. vm_compute in Hm. subst m.
  split; [reflexivity|].
  destruct Hname as [(<- & -> & _) | (Heq & Ha & _)]; [reflexivity|].
  exfalso. assert (Hin : SPACE ∈ lit "Doe").
  { rewrite Heq. apply elem_of_app. right. apply list_elem_of_here. }
  vm_compute in Hin. repeat (apply elem_of_cons in Hin as [Hin|Hin]; [discriminate|]).
  by apply elem_of_nil in Hin.
Defined.

(** ** [create_hl7_message]: carriage returns in the arguments *)

Lemma str_count_app c a b : str_count c (a ++ b) = (str_count c a + str_count c b)%nat.
Proof. unfold str_count. by rewrite List.filter_app, length_app. Qed.

Lemma str_count_free c s : Forall (λ x, x ≠ c) s → str_count c s = 0%nat.
Proof.
  unfold str_count. induction 1 as [|x r Hx _ IH]; [done|]. simpl.
  rewrite (Z.eqb_sym c x). apply Z.eqb_neq in Hx. by rewrite Hx.
Qed.

Lemma str_count_seg s : Forall seg_char s → str_count CR s = 0%nat.
Proof. intros H. apply str_count_free. by apply Forall_seg_no_cr. Qed.

Lemma str_split_count c s : length (str_split c s) = S (str_count c s).
Proof. apply str_split_length. Qed.

Lemma name_parts_count patient_name a b :
  name_parts patient_name = Some (a, b) →
  (str_count CR a + str_count CR b)%nat = str_count CR patient_name.
Proof.
  intros [(-> & -> & _) | ->]%name_parts_inv_aux.
  - change (str_count CR (lit "Test")) with 0%nat. lia.
  - rewrite str_count_app. change (SPACE :: b) with ([SPACE] ++ b).
    rewrite str_count_app. change (str_count CR [SPACE]) with 0%nat. lia.
Qed.

Lemma name_parts_ascii patient_name a b :
  ascii_str patient_name → name_parts patient_name = Some (a, b) →
  ascii_str a ∧ ascii_str b.
Proof.
  intros Hname Hparts.
  apply (name_parts_Forall (λ c, c < 0x80) patient_name a b Hname); [|done].
  apply Forall_seg_ascii. seg_lit.
Qed.

Lemma mrn_of_count mrn w :
  str_count CR (fst (mrn_of mrn w)) = str_count CR (default [] mrn).
Proof.
  unfold mrn_of. destruct mrn as [[|c m]|]; cbn [falsy fst default]; try done;
    apply str_count_seg, Forall_app;
    (split; [seg_lit
            | apply Forall_plain_seg, Forall_digits_plain, format_d_chars]).
Qed.

Lemma mrn_of_ascii mrn w :
  ascii_str (default [] mrn) → ascii_str (fst (mrn_of mrn w)).
Proof.
  intros H. unfold mrn_of. destruct (falsy mrn); cbn [fst]; [|done].
  apply Forall_seg_ascii, Forall_app. split; [seg_lit|].
  apply Forall_plain_seg, Forall_digits_plain, format_d_chars.
Qed.

Ltac ascii_part :=
  first
    [ assumption
    | apply Forall_seg_ascii;
      first [ seg_lit
            | apply study_code_of_seg
            | apply Forall_plain_seg, Forall_digits_plain;
              first [ apply format_d_chars | apply format_0d_chars
                    | apply strftime_YmdHM_chars | apply strftime_YmdHMS_chars ]
            | apply Forall_plain_seg, message_id_plain ] ].

Ltac count_part :=
  first
    [ apply str_count_seg;
      first [ seg_lit
            | apply study_code_of_seg
            | apply Forall_plain_seg, Forall_digits_plain;
              first [ apply format_d_chars | apply format_0d_chars
                    | apply strftime_YmdHM_chars | apply strftime_YmdHMS_chars ]
            | apply Forall_plain_seg, message_id_plain ] ].

(** X10: for an ASCII patient name and MRN, the returned frame splits at
    carriage returns into six segments plus one for every carriage return in
    the name and in the supplied MRN (the arguments are not sanitised);
    joining the segments gives the payload back, and without such carriage
    returns the segment names are MSH, SCH, PID, RGS, AIS, AIP in this order. *)
Theorem segment_count_of_ascii_message patient_name mrn modality st frame st' :
  create_hl7_message patient_name mrn modality st = (Return frame, st') →
  ascii_str patient_name → ascii_str (default [] mrn) →
  length (hl7_segments frame)
  = (6 + str_count CR patient_name + str_count CR (default [] mrn))%nat
  ∧ str_join [CR] (hl7_segments frame) = mllp_payload frame
  ∧ (str_count CR patient_name = 0%nat → str_count CR (default [] mrn) = 0%nat →
     take 3 <$> hl7_segments frame = SEGMENT_IDS).
Proof.
  intros Hrun Hname Hmrn.
  destruct (create_hl7_message_frame_shape _ _ _ _ _ _ Hrun)
    as (segs & payload & Hsegs & _ & Henc & ->).
  destruct (create_hl7_segments_shape _ _ _ _ _ _ Hsegs)
    as (apt & a & b & _ & Hparts & Heq & _).
  destruct (name_parts_ascii _ _ _ Hname Hparts) as [Ha Hb].
  pose proof (mrn_of_ascii mrn (world st) Hmrn) as Hm.
  pose proof (name_parts_count _ _ _ Hparts) as Hcn.
  pose proof (mrn_of_count mrn (world st)) as Hcm.
  assert (Hascii : ascii_str (str_join [CR] segs)).
  { subst segs. rewrite str_join_six.
    unfold ascii_str, msh_segment, sch_segment, pid_segment, rgs_segment,
      ais_segment, aip_segment.
    rewrite !Forall_app.
    assert (Forall (λ c, c < 128) [CR]) by (by repeat constructor).
    repeat split; ascii_part. }
  rewrite (utf8_encode_ascii _ Hascii) in Henc. injection Henc as <-.
  unfold hl7_segments. rewrite mllp_payload_frame.
  split; [|split; [apply str_join_split_aux|]].
  - rewrite str_split_count. subst segs. rewrite str_join_six.
    unfold msh_segment, sch_segment, pid_segment, rgs_segment, ais_segment,
      aip_segment.
    rewrite !str_count_app. change (str_count CR [CR]) with 1%nat.
    repeat match goal with
      | |- context [str_count CR ?s] =>
          lazymatch s with
          | fst _ => fail
          | a => fail
          | b => fail
          | _ => replace (str_count CR s) with 0%nat by (symmetry; count_part)
          end
      end.
    lia.
  - intros Hn0 Hm0.
    assert (Hfree : ∀ s, ascii_str s → str_count CR s = 0%nat → Forall seg_char s).
    { intros s Hs Hc. unfold str_count in Hc. apply Forall_forall. intros c Hin.
      split; [by eapply Forall_forall in Hs|].
      intros ->. apply list_elem_of_In in Hin.
      assert (In CR (List.filter (Z.eqb CR) s))
        by (apply filter_In; split; [done | apply Z.eqb_refl]).
      destruct (List.filter (Z.eqb CR) s); [done | discriminate]. }
    destruct (create_hl7_message_plain _ _ _ _ _ _ Hsegs) as [_ Hread].
    + by apply Hfree.
    + apply Hfree; [done|]. by rewrite Hcm.
    + unfold hl7_segments, mllp_wrap in Hread.
      rewrite mllp_payload_frame in Hread.
      rewrite Hread. subst segs. reflexivity.
Qed.

Lemma segment_count_of_ascii_message_witness :
  ∃ frame,
    fst (create_hl7_message (lit "Jane" ++ [CR] ++ lit "EVN|A01 Smith") None
           (lit "CT") sample_state) = Return frame
    ∧ length (hl7_segments frame) = 7%nat.
Proof.
  destruct (create_hl7_message (lit "Jane" ++ [CR] ++ lit "EVN|A01 Smith") None
              (lit "CT") sample_state) as [o st'] eqn:E.
  assert (∃ frame, o = Return frame) as [frame ->].
  { apply (f_equal fst) in E. vm_compute in E. subst o. eauto. }
  exists frame. split; [reflexivity|].
  refine (proj1 (segment_count_of_ascii_message _ _ _ _ _ _ E _ _)).
  - apply Forall_forall. intros c Hc. apply list_elem_of_In in Hc.
    vm_compute in Hc. intuition (subst; reflexivity).
  - constructor.
Defined.

(** ** [send_test_appointment] *)

Lemma create_hl7_message_returns_plain patient_name modality st :
  clock_sane (world st) → good_name patient_name →
  ∃ segments st',
    create_hl7_segments patient_name None modality st = (Return segments, st')
    ∧ create_hl7_message patient_name None modality st
      = (Return (mllp_wrap segments), st')
    ∧ hl7_segments (mllp_wrap segments) = segments.
Proof.
  intros Hclock [Hplain [[a b] Hparts]].
  destruct (create_hl7_segments_returns patient_name None modality st a b
              Hclock Hparts) as (segs & st' & Hsegs).
  destruct (create_hl7_message_plain _ _ _ _ _ _ Hsegs Hplain
              (mrn_of_generated_seg _)) as [Hmsg Hread].
  by exists segs, st'.
Qed.

Lemma picked_name patient_name r :
  good_name_arg patient_name →
  let name := if falsy patient_name
              then nth (Z.to_nat (r mod Z.of_nat (length NAMES))) NAMES []
              else default [] patient_name in
  good_name name ∧ chosen patient_name NAMES name.
Proof.
  intros Hgood. unfold chosen.
  destruct patient_name as [[|c n]|]; cbn [falsy default]; cbv zeta.
  - split; [apply names_good|]; by apply random_choice_elem.
  - done.
  - split; [apply names_good|]; by apply random_choice_elem.
Qed.

Lemma picked_modality modality r :
  let mo := if falsy modality
            then nth (Z.to_nat (r mod Z.of_nat (length MODALITIES))) MODALITIES []
            else default [] modality in
  chosen modality MODALITIES mo.
Proof.
  unfold chosen. destruct modality as [[|c n]|]; cbn [falsy default]; cbv zeta;
    try done; by apply random_choice_elem.
Qed.

(** One appointment, step by step. *)
Lemma send_test_appointment_run patient_name modality st :
  clock_sane (world st) → good_name_arg patient_name →
  ∃ name mo frame st1 a b r ts,
    chosen patient_name NAMES name ∧ chosen modality MODALITIES mo
    ∧ name_parts name = Some (a, b)
    ∧ 100000 <= r <= 999999
    ∧ hl7_segment 2 frame = pid_segment (lit "MRN" ++ format_d r) a b
    ∧ hl7_segment 4 frame = ais_segment (study_code_of mo) ts
    ∧ length (hl7_segments frame) = 6%nat
    ∧ self st1 = bump (self st)
    ∧ clock (world st1) = clock (world st)
    ∧ peer (world st1) = peer (world st)
    ∧ peer_pos (world st1) = peer_pos (world st)
    ∧ trace (world st1) = trace (world st)
    ∧ send_test_appointment patient_name modality st
      = let x := peer (world st) (peer_pos (world st)) in
        let st2 :=
          after_exchange
            (logged st1
               [EvPrint (Text (lit "Sending HL7 message for " ++ name
                               ++ lit " - " ++ mo));
                EvPrint (TextBytes (lit "Message preview: ")
                                   (take 100 frame) (lit "..."))])
            (net_events x (host (self st)) (port (self st)) frame) in
        match send_outcome x with
        | Return (ok, _) => (Return ok, logged st2 [EvPrint (result_line x)])
        | Raise e => (Raise e, st2)
        end.
Proof.
  intros Hclock Hgood. destruct st as [s w]. cbn [self world] in *.
  set (r1 := rng w (rng_pos w)).
  set (rp1 := if falsy patient_name then S (rng_pos w) else rng_pos w).
  set (r2 := rng w rp1).
  set (rp2 := if falsy modality then S rp1 else rp1).
  destruct (picked_name patient_name r1 Hgood) as [Hgn Hcn].
  pose proof (picked_modality modality r2) as Hcm. cbv zeta in Hgn, Hcn, Hcm.
  set (name := if falsy patient_name
              then nth (Z.to_nat (r1 mod Z.of_nat (length NAMES))) NAMES []
              else default [] patient_name) in *.
  set (mo := if falsy modality
            then nth (Z.to_nat (r2 mod Z.of_nat (length MODALITIES))) MODALITIES []
            else default [] modality) in *.
  set (st0 := {| self := s; world := advance w rp2 (clock_pos w) |}).
  destruct (create_hl7_message_returns_plain name mo st0 Hclock Hgn)
    as (segs & st1 & Hsegs & Hmsg & Hread).
  destruct (create_hl7_segments_shape _ _ _ _ _ _ Hsegs)
    as (apt & a & b & _ & Hparts & Hshape & Hst1).
  exists name, mo, (mllp_wrap segs), st1, a, b,
    (100000 + rng (world st0) (rng_pos (world st0)) mod (999999 - 100000 + 1)),
    (strftime_YmdHM apt).
  split; [done|]. split; [done|]. split; [done|].
  split; [apply randint_range; lia|].
  unfold hl7_segment. rewrite Hread.
  split; [by rewrite Hshape|]. split; [by rewrite Hshape|].
  split; [by rewrite Hshape|].
  repeat (split; [by rewrite Hst1|]).
  unfold send_test_appointment.
  assert (Hpick :
    ∀ k : list Z → list Z → M bool,
      bind (if falsy patient_name then random_choice [] NAMES
            else ret (default [] patient_name))
        (λ n, bind (if falsy modality then random_choice [] MODALITIES
                    else ret (default [] modality)) (λ m, k n m))
        {| self := s; world := w |}
      = k name mo st0).
  { intros k. subst name mo st0 rp2 r2 rp1 r1.
    destruct w as [rg rpos ck cpos pr ppos tr].
    destruct (falsy patient_name), (falsy modality);
      cbv [bind ret random_choice random_raw advance];
      cbn [self world rng rng_pos clock clock_pos peer peer_pos trace];
      reflexivity. }
  rewrite Hpick. unfold bind at 1. rewrite Hmsg.
  cbv [bind print emit ret]. rewrite send_message_unfold.
  subst st1 st0. unfold after_exchange, logged.
  cbn [self world rng rng_pos clock clock_pos peer peer_pos trace advance bump
       host port].
  cbv zeta.
  destruct (send_outcome (peer w (peer_pos w))) as [[ok text]|e] eqn:Hout.
  - cbn [self world rng rng_pos clock clock_pos peer peer_pos trace].
    assert (Hline : (if ok
                     then EvPrint (Text (lit "Success! Response: " ++ take 100 text))
                     else EvPrint (Text (lit "Failed: " ++ text)))
                    = EvPrint (result_line (peer w (peer_pos w)))).
    { unfold send_outcome, result_line in *.
      destruct (first_failure (peer w (peer_pos w))) as [e|].
      - destruct (is_Exception (exc_class e)); [|done]. by injection Hout as <- <-.
      - by injection Hout as <- <-. }
    destruct ok; rewrite <- Hline;
      cbn [self world rng rng_pos clock clock_pos peer peer_pos trace];
      rewrite <- ?app_assoc; reflexivity.
  - cbn [self world rng rng_pos clock clock_pos peer peer_pos trace].
    rewrite <- ?app_assoc. reflexivity.
Qed.

Lemma app_assoc4 {A} (a b c d : list A) :
  ((a ++ b) ++ c) ++ d = a ++ b ++ c ++ d.
Proof. by rewrite <- !app_assoc. Qed.

(** What one appointment returns and adds to the trace. *)
Lemma send_test_appointment_trace patient_name modality st :
  clock_sane (world st) → good_name_arg patient_name →
  (∀ e, first_failure (peer (world st) (peer_pos (world st))) = Some e →
        is_Exception (exc_class e) = true) →
  ∃ name mo frame st',
    chosen patient_name NAMES name ∧ chosen modality MODALITIES mo
    ∧ send_test_appointment patient_name modality st
      = (Return match first_failure (peer (world st) (peer_pos (world st))) with
                | None => true
                | Some _ => false
                end, st')
    ∧ trace (world st')
      = trace (world st)
        ++ appointment_events (peer (world st) (peer_pos (world st)))
             (host (self st)) (port (self st)) name mo frame
    ∧ length (hl7_segments frame) = 6%nat
    ∧ (∃ a b r, name_parts name = Some (a, b) ∧ 100000 <= r <= 999999
                ∧ hl7_segment 2 frame = pid_segment (lit "MRN" ++ format_d r) a b)
    ∧ (∃ ts, hl7_segment 4 frame = ais_segment (study_code_of mo) ts)
    ∧ self st' = bump (self st)
    ∧ peer_pos (world st') = S (peer_pos (world st)).
Proof.
  intros Hclock Hgood Hexc.
  destruct (send_test_appointment_run patient_name modality st Hclock Hgood)
    as (name & mo & frame & st1 & a & b & r & ts & Hcn & Hcm & Hparts & Hr
        & Hpid & Hais & Hlen & Hself & _ & _ & Hpos & Htrace & Hrun).
  cbv zeta in Hrun. unfold send_outcome in Hrun.
  exists name, mo, frame.
  destruct (first_failure (peer (world st) (peer_pos (world st)))) as [e|] eqn:Hff.
  - rewrite (Hexc e eq_refl) in Hrun. eexists. split; [done|]. split; [done|].
    split; [exact Hrun|].
    cbn [logged after_exchange world trace self peer_pos].
    rewrite Htrace, Hself, Hpos. unfold appointment_events.
    split; [apply app_assoc4|]. eauto 15.
  - eexists. split; [done|]. split; [done|]. split; [exact Hrun|].
    cbn [logged after_exchange world trace self peer_pos].
    rewrite Htrace, Hself, Hpos. unfold appointment_events.
    split; [apply app_assoc4|]. eauto 15.
Qed.

(** X11: under a sane clock, with a patient-name argument that is falsy or
    ASCII text without carriage return and with at most one space, a modality
    argument that is falsy or ASCII text, and socket failures that are
    [Exception]s, [send_test_appointment] returns [True] exactly when no
    socket call failed.  A falsy argument is replaced by a member of the pool,
    a truthy one is used as given.  The call prints the announcement and the
    first 100 bytes of the frame, performs the exchange with that frame, and
    prints the success or failure line last; it builds one six-segment message
    and uses up one exchange. *)
Theorem send_test_appointment_reports_exchange patient_name modality st :
  clock_sane (world st) → good_name_arg patient_name → printable_arg modality →
  (∀ e, first_failure (peer (world st) (peer_pos (world st))) = Some e →
        is_Exception (exc_class e) = true) →
  ∃ name mo frame st',
    chosen patient_name NAMES name ∧ chosen modality MODALITIES mo
    ∧ send_test_appointment patient_name modality st
      = (Return match first_failure (peer (world st) (peer_pos (world st))) with
                | None => true
                | Some _ => false
                end, st')
    ∧ trace (world st')
      = trace (world st)
        ++ appointment_events (peer (world st) (peer_pos (world st)))
             (host (self st)) (port (self st)) name mo frame
    ∧ length (hl7_segments frame) = 6%nat
    ∧ (∃ a b r, name_parts name = Some (a, b) ∧ 100000 <= r <= 999999
                ∧ hl7_segment 2 frame = pid_segment (lit "MRN" ++ format_d r) a b)
    ∧ (∃ ts, hl7_segment 4 frame = ais_segment (study_code_of mo) ts)
    ∧ self st' = bump (self st)
    ∧ peer_pos (world st') = S (peer_pos (world st)).
Proof. intros Hclock Hname _. by apply send_test_appointment_trace. Qed.

Lemma send_test_appointment_reports_exchange_witness :
  fst (send_test_appointment (Some (lit "Jane Smith")) (Some (lit "CT"))
         refusing_state) = Return false.
Proof.
  assert (Hclock : clock_sane (world refusing_state))
    by (intros i; split; [reflexivity | simpl; lia]).
  assert (Hname : good_name_arg (Some (lit "Jane Smith"))).
  { change (good_name (lit "Jane Smith")). split; [seg_lit | by eexists]. }
  assert (Hmod : printable_arg (Some (lit "CT")))
    by (repeat constructor).
  assert (Hexc : ∀ e,
            first_failure (peer (world refusing_state)
                                (peer_pos (world refusing_state))) = Some e →
            is_Exception (exc_class e) = true).
  { intros e. vm_compute. intros [= <-]. reflexivity. }
  destruct (send_test_appointment_reports_exchange
              (Some (lit "Jane Smith")) (Some (lit "CT")) refusing_state
              Hclock Hname Hmod Hexc)
    as (name & mo & frame & st' & _ & _ & Hrun & _).
  rewrite Hrun. reflexivity.
Defined.

(** ** The fields of the AIS segment *)

Lemma ais_segment_fields code ts :
  Forall (λ x, x ≠ PIPE) code → Forall (λ x, x ≠ PIPE) ts →
  str_split PIPE (ais_segment code ts) = [lit "AIS"; lit "1"; lit "A"; code; ts].
Proof.
  intros Hc Hts.
  replace (ais_segment code ts)
    with (lit "AIS" ++ PIPE :: lit "1" ++ PIPE :: lit "A" ++ PIPE ::
          code ++ PIPE :: ts).
  2:{ unfold ais_segment. reflexivity. }
  repeat (rewrite str_split_app; [|no_pipe]).
  by rewrite str_split_no_sep.
Qed.

(** The fourth field of an AIS segment whose study code has no separator;
    the timestamp that follows is arbitrary. *)
Lemma ais_segment_fields_any ts :
  nth 3 (str_split PIPE (ais_segment (study_code_of (lit "MRI")) ts)) []
  = lit "MRI001^MRI BRAIN W/O CONTRAST".
Proof.
  replace (ais_segment (study_code_of (lit "MRI")) ts)
    with (lit "AIS" ++ PIPE :: lit "1" ++ PIPE :: lit "A" ++ PIPE ::
          lit "MRI001^MRI BRAIN W/O CONTRAST" ++ PIPE :: ts).
  2:{ unfold ais_segment. rewrite study_code_of_spec. reflexivity. }
  repeat (rewrite str_split_app; [|no_pipe]).
  pose proof (str_split_nonempty PIPE ts).
  by destruct (str_split PIPE ts).
Qed.

(** ** The example of the specification, field by field *)

Lemma digit_or_minus_below x : digit_or_minus x → x < 64.
Proof. unfold digit_or_minus, is_digit, MINUS. intros [H| ->]; lia. Qed.

(** C1: for ["Jane Smith"], [None], ["CT"] the call returns a message whose
    name field PID-5 is [Jane^Smith], the two words in the order they were
    given: line 50 takes the word before the space as the family name.  No
    field of the PID segment is [Smith^Jane], nor does the segment contain
    that text anywhere.  The AIS segment carries the study code
    [CT002^CT CHEST W CONTRAST] in AIS-3. *)
Theorem jane_smith_name_not_transposed st :
  clock_sane (world st) →
  ∃ frame st' r,
    create_hl7_message (lit "Jane Smith") None (lit "CT") st = (Return frame, st')
    ∧ 100000 <= r <= 999999
    ∧ str_split PIPE (hl7_segment 2 frame)
      = [lit "PID"; lit "1"; []; lit "MRN" ++ format_d r; []; lit "Jane^Smith"; [];
         lit "19800101"; lit "M"; []; []; lit "123 Main St^^Boston^MA^02101"; [];
         lit "617-555-0123"]
    ∧ hl7_field 2 5 frame = lit "Jane^Smith"
    ∧ str_contains (lit "Smith^Jane") (hl7_segment 2 frame) = false
    ∧ hl7_field 4 3 frame = lit "CT002^CT CHEST W CONTRAST".
Proof.
  intros Hclock.
  destruct (create_hl7_segments_returns (lit "Jane Smith") None (lit "CT") st
              (lit "Jane") (lit "Smith") Hclock eq_refl) as (segs & st' & Hsegs).
  destruct (create_hl7_message_plain _ _ _ _ _ _ Hsegs ltac:(seg_lit)
              (mrn_of_generated_seg _)) as [Hmsg Hread].
  destruct (create_hl7_segments_shape _ _ _ _ _ _ Hsegs)
    as (apt & a & b & _ & Hparts & Heq & _).
  injection Hparts as <- <-.
  set (r := 100000 + rng (world st) (rng_pos (world st)) mod (999999 - 100000 + 1)).
  assert (Hr : 100000 <= r <= 999999) by (apply randint_range; lia).
  assert (Hpid : hl7_segment 2 (mllp_wrap segs)
                 = pid_segment (lit "MRN" ++ format_d r) (lit "Jane") (lit "Smith")).
  { unfold hl7_segment. rewrite Hread, Heq. reflexivity. }
  assert (Hais : hl7_segment 4 (mllp_wrap segs)
                 = ais_segment (study_code_of (lit "CT")) (strftime_YmdHM apt)).
  { unfold hl7_segment. rewrite Hread, Heq. reflexivity. }
  assert (Hfields : str_split PIPE (hl7_segment 2 (mllp_wrap segs))
      = [lit "PID"; lit "1"; []; lit "MRN" ++ format_d r; []; lit "Jane^Smith"; [];
         lit "19800101"; lit "M"; []; []; lit "123 Main St^^Boston^MA^02101"; [];
         lit "617-555-0123"]).
  { rewrite Hpid. apply pid_segment_fields; [|no_pipe..].
    apply Forall_app. split; [no_pipe|].
    apply Forall_plain_no_pipe, Forall_digits_plain, format_d_chars. }
  exists (mllp_wrap segs), st', r.
  split; [exact Hmsg|]. split; [exact Hr|]. split; [exact Hfields|].
  split; [unfold hl7_field; by rewrite Hfields|]. split.
  - rewrite Hpid. pose proof (format_d_length_6 r Hr) as Hlen.
    pose proof (format_d_chars r) as Hd.
    destruct (format_d r) as [|d1 [|d2 [|d3 [|d4 [|d5 [|d6 [|d7 ds]]]]]]];
      try discriminate Hlen.
    assert (Hne : ∀ c x, digit_or_minus x → 64 <= c → (c =? x) = false).
    { intros c x Hx%digit_or_minus_below Hc. apply Z.eqb_neq. lia. }
    apply Forall_cons in Hd as [H1 Hd]. apply Forall_cons in Hd as [H2 Hd].
    apply Forall_cons in Hd as [H3 Hd]. apply Forall_cons in Hd as [H4 Hd].
    apply Forall_cons in Hd as [H5 Hd]. apply Forall_cons in Hd as [H6 _].
    cbv -[Z.eqb].
    rewrite !(Hne _ d1 H1), !(Hne _ d2 H2), !(Hne _ d3 H3), !(Hne _ d4 H4),
      !(Hne _ d5 H5), !(Hne _ d6 H6) by lia.
    vm_compute. reflexivity.
  - unfold hl7_field. rewrite Hais, ais_segment_fields; [by rewrite study_code_of_spec| |].
    + rewrite study_code_of_spec. no_pipe.
    + apply Forall_plain_no_pipe, Forall_digits_plain, strftime_YmdHM_chars.
Qed.

Lemma jane_smith_name_not_transposed_witness :
  ∃ frame,
    fst (create_hl7_message (lit "Jane Smith") None (lit "CT") sample_state)
    = Return frame
    ∧ hl7_field 2 5 frame = lit "Jane^Smith"
    ∧ str_contains (lit "Smith^Jane") (hl7_segment 2 frame) = false.
Proof.
  destruct (jane_smith_name_not_transposed sample_state clock_sane_sample)
    as (frame & st' & r & Hrun & _ & _ & Hname & Hnot & _).
  exists frame. rewrite Hrun. by repeat split.
Defined.

(** ** The scenario [dramatic-save] *)

(** X12: the scenario [dramatic-save] prints its two banner texts, sleeps
    one second and then performs a single appointment; the frame it sends has
    PID-5 [John^Doe], a generated MRN, and the study code
    [MRI001^MRI BRAIN W/O CONTRAST]. *)
Theorem dramatic_save_sends_john_doe st :
  clock_sane (world st) → peer_sane (world st) →
  ∃ frame st' r,
    run_demo_scenario (lit "dramatic-save") st = (Return tt, st')
    ∧ trace (world st')
      = trace (world st)
        ++ [EvPrint (Text (NL :: lit "=== DRAMATIC SAVE SCENARIO ==="));
            EvPrint (Text (lit "Sending appointment for John Doe - MRI with contrast..."));
            EvSleep 1000]
        ++ appointment_events (peer (world st) (peer_pos (world st)))
             (host (self st)) (port (self st)) (lit "John Doe") (lit "MRI") frame
    ∧ 100000 <= r <= 999999
    ∧ hl7_field 2 3 frame = lit "MRN" ++ format_d r
    ∧ hl7_field 2 5 frame = lit "John^Doe"
    ∧ hl7_field 4 3 frame = lit "MRI001^MRI BRAIN W/O CONTRAST".
Proof.
  intros Hclock Hpeer. unfold run_demo_scenario.
  case_bool_decide as Heq; [clear Heq|done].
  cbv [bind print time_sleep emit ret].
  cbn [self world rng rng_pos clock clock_pos peer peer_pos trace].
  rewrite <- !app_assoc. cbn [app].
  set (st0 := {| self := self st; world := _ |}).
  assert (Hgood : good_name_arg (Some (lit "John Doe"))).
  { change (good_name (lit "John Doe")). split; [seg_lit | by eexists]. }
  destruct (send_test_appointment_trace
              (Some (lit "John Doe")) (Some (lit "MRI")) st0 Hclock Hgood)
    as (name & mo & frame & st' & Hcn & Hcm & Hrun & Htrace & _
        & (a & b & r & Hparts & Hr & Hpid) & (ts & Hais) & _).
  { intros e. apply (Hpeer (peer_pos (world st))). }
  injection Hcn as <-. injection Hcm as <-.
  injection Hparts as <- <-.
  rewrite Hrun. exists frame, st', r. split.
  { by destruct (first_failure _). }
  split; [|split; [done|]].
  - rewrite Htrace. subst st0. cbn [world trace self peer peer_pos].
    rewrite <- !app_assoc. reflexivity.
  - unfold hl7_field. rewrite Hpid, Hais.
    rewrite pid_segment_fields.
    + rewrite ais_segment_fields_any. done.
    + apply Forall_app. split; [no_pipe|].
      apply Forall_plain_no_pipe, Forall_digits_plain, format_d_chars.
    + no_pipe.
    + no_pipe.
Qed.

Lemma dramatic_save_sends_john_doe_witness :
  ∃ frame st',
    run_demo_scenario (lit "dramatic-save") sample_state = (Return tt, st')
    ∧ hl7_field 2 5 frame = lit "John^Doe"
    ∧ hl7_field 4 3 frame = lit "MRI001^MRI BRAIN W/O CONTRAST".
Proof.
  destruct (dramatic_save_sends_john_doe sample_state
              clock_sane_sample peer_sane_sample)
    as (frame & st' & r & Hrun & _ & _ & _ & Hpid & Hais).
  exists frame, st'. split; [exact Hrun|]. split; [exact Hpid | exact Hais].
Defined.

(** ** Print calls, pauses and the counter over a scenario *)

Lemma sumZ_const {A} (c : Z) (l : list A) :
  sumZ (λ _, c) l = c * Z.of_nat (length l).
Proof. unfold sumZ. induction l as [|x r IH]; simpl foldr; [simpl; lia|]. rewrite IH. simpl length. lia. Qed.

Lemma sumZ_add {A} (f g : A → Z) (l : list A) :
  sumZ (λ x, f x + g x) l = sumZ f l + sumZ g l.
Proof. unfold sumZ. induction l as [|x r IH]; simpl; [done|]. rewrite IH. lia. Qed.

Lemma sumZ_if {A} (p : A → bool) (c : Z) (l : list A) :
  sumZ (λ x, if p x then c else 0) l = c * Z.of_nat (length (List.filter p l)).
Proof.
  unfold sumZ. induction l as [|x r IH]; simpl foldr; [simpl; lia|].
  rewrite IH. simpl List.filter. destruct (p x); simpl length; lia.
Qed.

Section Weighted.
Variables wp ws : Z.

Lemma total_app t1 t2 : total wp ws (t1 ++ t2) = total wp ws t1 + total wp ws t2.
Proof. unfold total. induction t1 as [|ev t IH]; simpl; [done|]. rewrite IH. lia. Qed.

Lemma total_net_events x h p message :
  total wp ws (net_events x h p message) = 0.
Proof.
  unfold net_events.
  by destruct (x_socket x), (x_connect x), (x_send x), (x_recv x).
Qed.

Lemma ran_refl st : ran wp ws 0 0 st st.
Proof. unfold ran. repeat split; lia. Qed.

Lemma ran_trans n1 n2 k1 k2 st st1 st2 :
  ran wp ws n1 k1 st st1 → ran wp ws n2 k2 st1 st2 →
  ran wp ws (n1 + n2) (k1 + k2) st st2.
Proof.
  intros (Hc & Hp & Hh & Hpo & Hm & Ht) (Hc' & Hp' & Hh' & Hpo' & Hm' & Ht').
  unfold ran. rewrite Hc', Hp', Hh', Hpo', Hm', Ht', Hc, Hp, Hh, Hpo, Hm, Ht.
  repeat split; lia.
Qed.

Lemma ran_sane n k st st' :
  ran wp ws n k st st' →
  clock_sane (world st) ∧ peer_sane (world st) →
  clock_sane (world st') ∧ peer_sane (world st').
Proof.
  intros (Hc & Hp & _) [Hclock Hpeer]. unfold clock_sane, peer_sane.
  rewrite Hc, Hp. done.
Qed.

Lemma returns_ran_seq {A B} (m : M A) (k : A → M B) n1 n2 k1 k2 st :
  clock_sane (world st) ∧ peer_sane (world st) →
  returns m st (λ _ st1, ran wp ws n1 k1 st st1) →
  (∀ a st1, clock_sane (world st1) ∧ peer_sane (world st1) →
            returns (k a) st1 (λ _ st2, ran wp ws n2 k2 st1 st2)) →
  returns (bind m k) st (λ _ st2, ran wp ws (n1 + n2) (k1 + k2) st st2).
Proof.
  intros Hsane Hm Hk. apply returns_bind.
  eapply returns_weaken; [exact Hm|]. intros a st1 H1. cbv beta in *.
  eapply returns_weaken; [apply Hk; by eapply ran_sane|].
  intros b st2 H2. by eapply ran_trans.
Qed.

Lemma emit_ran ev st :
  returns (emit ev) st (λ _ st', ran wp ws (weight wp ws ev) 0 st st').
Proof.
  eexists tt, _. split; [reflexivity|].
  unfold ran. cbn [world self clock peer trace host port message_count].
  rewrite total_app. unfold total at 2. cbn [foldr]. repeat split; lia.
Qed.

(** One appointment calls [print] three times and builds one message. *)
Lemma send_test_appointment_ran patient_name modality st :
  clock_sane (world st) ∧ peer_sane (world st) →
  good_name_arg patient_name →
  returns (send_test_appointment patient_name modality) st
          (λ _ st', ran wp ws (3 * wp) 1 st st').
Proof.
  intros [Hclock Hpeer] Hgood.
  destruct (send_test_appointment_run patient_name modality st Hclock Hgood)
    as (name & mo & frame & st1 & a & b & r & ts & _ & _ & _ & _ & _ & _ & _
        & Hself & Hck & Hpr & Hpos & Htrace & Hrun).
  cbv zeta in Hrun. unfold send_outcome in Hrun.
  assert (Hexc := Hpeer (peer_pos (world st))).
  assert (∃ ok, send_test_appointment patient_name modality st
                = (Return ok,
                   logged
                     (after_exchange
                        (logged st1
                           [EvPrint (Text (lit "Sending HL7 message for " ++ name
                                           ++ lit " - " ++ mo));
                            EvPrint (TextBytes (lit "Message preview: ")
                                               (take 100 frame) (lit "..."))])
                        (net_events (peer (world st) (peer_pos (world st)))
                                    (host (self st)) (port (self st)) frame))
                     [EvPrint (result_line (peer (world st) (peer_pos (world st))))]))
    as [ok Hok].
  { destruct (first_failure _) as [e|]; [rewrite (Hexc e eq_refl) in Hrun|];
      eauto. }
  eexists ok, _. split; [exact Hok|].
  unfold ran. cbn [logged after_exchange world self clock peer trace].
  rewrite Hself, Hck, Hpr, Htrace, !total_app, total_net_events.
  cbn [bump host port message_count]. unfold total at 2 3.
  cbn [foldr weight]. repeat split; lia.
Qed.

(** A loop adds up what its rounds contribute. *)
Lemma for_each_ran {A} (l : list A) (body : A → M unit) (f g : A → Z) : ∀ st,
  clock_sane (world st) ∧ peer_sane (world st) →
  (∀ x st1, clock_sane (world st1) ∧ peer_sane (world st1) →
            returns (body x) st1 (λ _ st2, ran wp ws (f x) (g x) st1 st2)) →
  returns (for_each l body) st (λ _ st', ran wp ws (sumZ f l) (sumZ g l) st st').
Proof.
  induction l as [|x rest IH]; intros st Hsane Hbody; cbn [for_each sumZ foldr].
  - apply returns_ret, ran_refl.
  - apply returns_ran_seq; [done | by apply Hbody |].
    intros _ st1 Hsane1. by apply IH.
Qed.

Lemma returns_ran_eq {A} (m : M A) n k n' k' st :
  n = n' → k = k' →
  returns m st (λ _ st', ran wp ws n k st st') →
  returns m st (λ _ st', ran wp ws n' k' st st').
Proof. by intros -> ->. Qed.

Lemma dramatic_save_ran st :
  clock_sane (world st) ∧ peer_sane (world st) →
  returns (run_demo_scenario (lit "dramatic-save")) st
          (λ _ st', ran wp ws (5 * wp + 1000 * ws) 1 st st').
Proof.
  intros Hsane. unfold run_demo_scenario.
  case_bool_decide as Heq; [clear Heq|done].
  eapply returns_ran_eq; [| |
    apply returns_ran_seq; [done | apply emit_ran |]; intros _ st1 Hs1;
    apply returns_ran_seq; [done | apply emit_ran |]; intros _ st2 Hs2;
    apply returns_ran_seq; [done | apply emit_ran |]; intros _ st3 Hs3;
    apply returns_ran_seq; [done | apply send_test_appointment_ran |
                            intros _ st4 _; apply returns_ret, ran_refl];
    [done|]; change (good_name (lit "John Doe"));
    split; [seg_lit | by eexists] ].
  - cbn [weight]. lia.
  - lia.
Qed.

Lemma efficiency_boost_ran st :
  clock_sane (world st) ∧ peer_sane (world st) →
  returns (run_demo_scenario (lit "efficiency-boost")) st
          (λ _ st', ran wp ws (17 * wp + 2500 * ws) 5 st st').
Proof.
  intros Hsane. unfold run_demo_scenario.
  case_bool_decide as Hne; [discriminate Hne|]; clear Hne.
  case_bool_decide as Heq; [clear Heq|done].
  eapply returns_ran_eq; [| |
    apply returns_ran_seq; [done | apply emit_ran |]; intros _ st1 Hs1;
    apply returns_ran_seq; [done | apply emit_ran |]; intros _ st2 Hs2;
    apply (for_each_ran _ _ (λ _, 3 * wp + ws * 500) (λ _, 1)); [done|];
    intros i st3 Hs3;
    eapply returns_ran_eq; [| |
      apply returns_ran_seq; [done | by apply send_test_appointment_ran |];
      intros _ st4 _; apply emit_ran ]; [cbn [weight]; reflexivity | reflexivity] ].
  - cbn [weight]. rewrite sumZ_const, length_seqZ. simpl. lia.
  - rewrite sumZ_const, length_seqZ. reflexivity.
Qed.

Lemma load_test_ran st :
  clock_sane (world st) ∧ peer_sane (world st) →
  returns (run_demo_scenario (lit "load-test")) st
          (λ _ st', ran wp ws (312 * wp + 10000 * ws) 100 st st').
Proof.
  intros Hsane. unfold run_demo_scenario.
  do 2 (case_bool_decide as Hne; [discriminate Hne|]; clear Hne).
  case_bool_decide as Heq; [clear Heq|done].
  eapply returns_ran_eq; [| |
    apply returns_ran_seq; [done | apply emit_ran |]; intros _ st1 Hs1;
    apply returns_ran_seq; [done | apply emit_ran |]; intros _ st2 Hs2;
    apply (for_each_ran _ _
             (λ i, 3 * wp + ((if i mod 10 =? 0 then wp else 0) + ws * 100))
             (λ _, 1 + (0 + 0))); [done|];
    intros i st3 Hs3;
    apply returns_ran_seq; [done | by apply send_test_appointment_ran |];
    intros _ st4 Hs4;
    apply returns_ran_seq; [done | | intros _ st5 _; apply emit_ran];
    destruct (i mod 10 =? 0); [apply emit_ran | apply returns_ret, ran_refl] ].
  - cbn [weight].
    rewrite (sumZ_add (λ _, 3 * wp)), (sumZ_add _ (λ _, ws * 100)).
    rewrite !sumZ_const, (sumZ_if (λ i, i mod 10 =? 0)), length_seqZ.
    replace (length (List.filter (λ i, i mod 10 =? 0) (seqZ 0 100))) with 10%nat
      by (vm_compute; reflexivity).
    simpl. lia.
  - rewrite sumZ_const, length_seqZ. reflexivity.
Qed.

Lemma other_scenario_ran scenario st :
  clock_sane (world st) ∧ peer_sane (world st) →
  scenario ∉ [lit "dramatic-save"; lit "efficiency-boost"; lit "load-test"] →
  returns (run_demo_scenario scenario) st
          (λ _ st', ran wp ws (3 * wp) 1 st st').
Proof.
  intros Hsane Hother. unfold run_demo_scenario.
  rewrite !not_elem_of_cons in Hother. destruct Hother as (H1 & H2 & H3 & _).
  do 3 (case_bool_decide; [done|]).
  eapply returns_ran_eq; [| |
    apply returns_ran_seq; [done | by apply send_test_appointment_ran |];
    intros _ st1 _; apply returns_ret, ran_refl ]; lia.
Qed.

End Weighted.

(** X13: the time a scenario spends in [time.sleep]: one second for
    [dramatic-save], 2.5 seconds for [efficiency-boost] (five pauses of 0.5 s),
    ten seconds for [load-test] (a hundred pauses of 0.1 s) and none for any
    other scenario name. *)
Theorem scenario_sleep_time st :
  clock_sane (world st) → peer_sane (world st) →
  (∃ st', run_demo_scenario (lit "dramatic-save") st = (Return tt, st')
          ∧ slept_millis (trace (world st')) = slept_millis (trace (world st)) + 1000)
  ∧ (∃ st', run_demo_scenario (lit "efficiency-boost") st = (Return tt, st')
            ∧ slept_millis (trace (world st'))
              = slept_millis (trace (world st)) + 2500)
  ∧ (∃ st', run_demo_scenario (lit "load-test") st = (Return tt, st')
            ∧ slept_millis (trace (world st'))
              = slept_millis (trace (world st)) + 10000)
  ∧ (∀ scenario,
       scenario ∉ [lit "dramatic-save"; lit "efficiency-boost"; lit "load-test"] →
       ∃ st', run_demo_scenario scenario st = (Return tt, st')
              ∧ slept_millis (trace (world st')) = slept_millis (trace (world st))).
Proof.
  intros Hclock Hpeer.
  assert (Hsane : clock_sane (world st) ∧ peer_sane (world st)) by done.
  unfold slept_millis. repeat split.
  - destruct (dramatic_save_ran 0 1 st Hsane) as ([] & st' & Hrun & H).
    exists st'. split; [done|]. unfold ran in H. lia.
  - destruct (efficiency_boost_ran 0 1 st Hsane) as ([] & st' & Hrun & H).
    exists st'. split; [done|]. unfold ran in H. lia.
  - destruct (load_test_ran 0 1 st Hsane) as ([] & st' & Hrun & H).
    exists st'. split; [done|]. unfold ran in H. lia.
  - intros scenario Hother.
    destruct (other_scenario_ran 0 1 scenario st Hsane Hother)
      as ([] & st' & Hrun & H).
    exists st'. split; [done|]. unfold ran in H. lia.
Qed.

Lemma scenario_sleep_time_witness :
  ∃ st', run_demo_scenario (lit "load-test") sample_state = (Return tt, st')
         ∧ slept_millis (trace (world st')) = 10000.
Proof.
  exact (proj1 (proj2 (proj2 (scenario_sleep_time sample_state
                                clock_sane_sample peer_sane_sample)))).
Defined.

(** X14: the number of [print] calls a scenario makes: 5 for
    [dramatic-save], 17 for [efficiency-boost], 312 for [load-test] (two for
    the banner, three per appointment and ten progress reports) and 3 for any
    other scenario name. *)
Theorem scenario_print_calls st :
  clock_sane (world st) → peer_sane (world st) →
  (∃ st', run_demo_scenario (lit "dramatic-save") st = (Return tt, st')
          ∧ print_calls (trace (world st')) = print_calls (trace (world st)) + 5)
  ∧ (∃ st', run_demo_scenario (lit "efficiency-boost") st = (Return tt, st')
            ∧ print_calls (trace (world st'))
              = print_calls (trace (world st)) + 17)
  ∧ (∃ st', run_demo_scenario (lit "load-test") st = (Return tt, st')
            ∧ print_calls (trace (world st'))
              = print_calls (trace (world st)) + 312)
  ∧ (∀ scenario,
       scenario ∉ [lit "dramatic-save"; lit "efficiency-boost"; lit "load-test"] →
       ∃ st', run_demo_scenario scenario st = (Return tt, st')
              ∧ print_calls (trace (world st'))
                = print_calls (trace (world st)) + 3).
Proof.
  intros Hclock Hpeer.
  assert (Hsane : clock_sane (world st) ∧ peer_sane (world st)) by done.
  unfold print_calls. repeat split.
  - destruct (dramatic_save_ran 1 0 st Hsane) as ([] & st' & Hrun & H).
    exists st'. split; [done|]. unfold ran in H. lia.
  - destruct (efficiency_boost_ran 1 0 st Hsane) as ([] & st' & Hrun & H).
    exists st'. split; [done|]. unfold ran in H. lia.
  - destruct (load_test_ran 1 0 st Hsane) as ([] & st' & Hrun & H).
    exists st'. split; [done|]. unfold ran in H. lia.
  - intros scenario Hother.
    destruct (other_scenario_ran 1 0 scenario st Hsane Hother)
      as ([] & st' & Hrun & H).
    exists st'. split; [done|]. unfold ran in H. lia.
Qed.

Lemma scenario_print_calls_witness :
  ∃ st', run_demo_scenario (lit "load-test") sample_state = (Return tt, st')
         ∧ print_calls (trace (world st')) = 312.
Proof.
  exact (proj1 (proj2 (proj2 (scenario_print_calls sample_state
                                clock_sane_sample peer_sane_sample)))).
Defined.

(** Every scenario returns, with one message built per send attempt. *)
Lemma run_demo_scenario_counts scenario st :
  clock_sane (world st) ∧ peer_sane (world st) →
  ∃ (n : nat) st',
    run_demo_scenario scenario st = (Return tt, st')
    ∧ (1 ≤ n)%nat ∧ sent n st st' ∧ ran 0 0 0 (Z.of_nat n) st st'.
Proof.
  intros Hsane.
  destruct (decide (scenario = lit "dramatic-save")) as [->|H1].
  { destruct (dramatic_save_sent st Hsane) as ([] & st' & Hrun & Hs).
    destruct (dramatic_save_ran 0 0 st Hsane) as ([] & st'' & Hrun' & Hr).
    rewrite Hrun in Hrun'. injection Hrun' as <-.
    exists 1%nat, st'. split; [exact Hrun|]. split; [lia|]. split; [exact Hs | exact Hr]. }
  destruct (decide (scenario = lit "efficiency-boost")) as [->|H2].
  { destruct (efficiency_boost_sent st Hsane) as ([] & st' & Hrun & Hs).
    destruct (efficiency_boost_ran 0 0 st Hsane) as ([] & st'' & Hrun' & Hr).
    rewrite Hrun in Hrun'. injection Hrun' as <-.
    exists 5%nat, st'. split; [exact Hrun|]. split; [lia|]. split; [exact Hs | exact Hr]. }
  destruct (decide (scenario = lit "load-test")) as [->|H3].
  { destruct (load_test_sent st Hsane) as ([] & st' & Hrun & Hs).
    destruct (load_test_ran 0 0 st Hsane) as ([] & st'' & Hrun' & Hr).
    rewrite Hrun in Hrun'. injection Hrun' as <-.
    exists 100%nat, st'. split; [exact Hrun|]. split; [lia|]. split; [exact Hs | exact Hr]. }
  assert (Hother : scenario ∉ [lit "dramatic-save"; lit "efficiency-boost";
                               lit "load-test"]).
  { rewrite !not_elem_of_cons. repeat split; try done. apply not_elem_of_nil. }
  destruct (other_scenario_sent scenario st Hsane Hother) as ([] & st' & Hrun & Hs).
  destruct (other_scenario_ran 0 0 scenario st Hsane Hother)
    as ([] & st'' & Hrun' & Hr).
  rewrite Hrun in Hrun'. injection Hrun' as <-.
  exists 1%nat, st'. split; [exact Hrun|]. split; [lia|]. split; [exact Hs | exact Hr].
Qed.

(** X15: every scenario, whatever its name, returns with [host] and [port]
    unchanged and with [message_count] grown by exactly the number of send
    attempts it made: one message is built per attempt. *)
Theorem scenario_counter_matches_sends scenario st :
  clock_sane (world st) → peer_sane (world st) →
  ∃ st',
    run_demo_scenario scenario st = (Return tt, st')
    ∧ host (self st') = host (self st)
    ∧ port (self st') = port (self st)
    ∧ message_count (self st') - message_count (self st)
      = Z.of_nat (send_attempts (trace (world st')))
        - Z.of_nat (send_attempts (trace (world st))).
Proof.
  intros Hclock Hpeer.
  destruct (run_demo_scenario_counts scenario st (conj Hclock Hpeer))
    as (n & st' & Hrun & _ & (_ & _ & Hs) & (_ & _ & Hh & Hp & Hm & _)).
  exists st'. repeat split; try done. lia.
Qed.

Lemma scenario_counter_matches_sends_witness :
  ∃ st',
    run_demo_scenario (lit "efficiency-boost") sample_state = (Return tt, st')
    ∧ message_count (self st') = 5.
Proof.
  destruct (scenario_counter_matches_sends (lit "efficiency-boost") sample_state
              clock_sane_sample peer_sane_sample)
    as (st' & Hrun & _ & _ & Hm).
  exists st'. split; [exact Hrun|].
  destruct (efficiency_boost_sent sample_state
              (conj clock_sane_sample peer_sane_sample))
    as ([] & st'' & Hrun' & _ & _ & Hs).
  rewrite Hrun in Hrun'. injection Hrun' as <-.
  rewrite Hs in Hm. change (message_count (self sample_state)) with 0 in Hm.
  change (send_attempts (trace (world sample_state))) with 0%nat in Hm. lia.
Defined.

(** ** [main] *)

(** Without a scenario argument: the usage texts, then one appointment on a
    fresh instance. *)
Lemma main_usage_run argv st :
  (length argv ≤ 1)%nat →
  clock_sane (world st) → peer_sane (world st) →
  ∃ name mo frame st',
    name ∈ NAMES ∧ mo ∈ MODALITIES
    ∧ main argv st = (Return tt, st')
    ∧ trace (world st')
      = trace (world st) ++ USAGE
        ++ appointment_events (peer (world st) (peer_pos (world st)))
             (lit "localhost") 8661 name mo frame
    ∧ self st' = bump HL7Simulator_default
    ∧ send_attempts (trace (world st')) = S (send_attempts (trace (world st))).
Proof.
  intros Hlen Hclock Hpeer.
  assert (Hmain : main argv
                  = (let* _ := new_simulator in
                     let* _ := print (Text (lit "Usage: python send-hl7.py [scenario]")) in
                     let* _ := print (Text (lit "Scenarios: dramatic-save, efficiency-boost, load-test, random")) in
                     let* _ := print (Text (NL :: lit "Sending random appointment...")) in
                     let* _ := send_test_appointment None None in
                     ret tt)).
  { destruct argv as [|prog [|scenario rest]]; [done|done|simpl in Hlen; lia]. }
  rewrite Hmain. cbv [bind new_simulator print emit ret].
  cbn [self world rng rng_pos clock clock_pos peer peer_pos trace].
  rewrite <- !app_assoc. cbn [app].
  set (st0 := {| self := HL7Simulator_default; world := _ |}).
  destruct (send_test_appointment_trace None None st0 Hclock I)
    as (name & mo & frame & st' & Hcn & Hcm & Hrun & Htrace & _ & _ & _ & Hself & _).
  { intros e. apply (Hpeer (peer_pos (world st))). }
  destruct (send_test_appointment_sent None None st0 (conj Hclock Hpeer) I)
    as (ok & st'' & Hrun' & _ & _ & Hs).
  rewrite Hrun in Hrun'. injection Hrun' as _ <-.
  rewrite Hrun. exists name, mo, frame, st'.
  split; [exact Hcn|]. split; [exact Hcm|].
  split; [by destruct (first_failure _)|]. split; [|split].
  - rewrite Htrace. subst st0. cbn [world trace self peer peer_pos].
    unfold USAGE. rewrite <- !app_assoc. reflexivity.
  - rewrite Hself. reflexivity.
  - rewrite Hs. subst st0. cbn [world trace]. unfold send_attempts.
    rewrite List.filter_app, length_app.
    cbn [List.filter is_socket_event length]. lia.
Qed.

(** X16: called without a scenario argument, [main] makes the three usage
    prints and then performs one appointment with a patient and a modality
    from the pools.  It works on an instance of its own: the exchange goes to
    localhost, port 8661, and the one message built is the first of that
    instance, whatever instance existed before. *)
Theorem main_without_scenario argv st :
  (length argv ≤ 1)%nat →
  clock_sane (world st) → peer_sane (world st) →
  ∃ name mo frame st',
    name ∈ NAMES ∧ mo ∈ MODALITIES
    ∧ main argv st = (Return tt, st')
    ∧ trace (world st')
      = trace (world st) ++ USAGE
        ++ appointment_events (peer (world st) (peer_pos (world st)))
             (lit "localhost") 8661 name mo frame
    ∧ self st' = bump HL7Simulator_default.
Proof.
  intros Hlen Hclock Hpeer.
  destruct (main_usage_run argv st Hlen Hclock Hpeer)
    as (name & mo & frame & st' & Hn & Hm & Hrun & Htrace & Hself & _).
  by exists name, mo, frame, st'.
Qed.

Lemma main_without_scenario_witness :
  ∃ st', main [lit "send-hl7.py"] sample_state = (Return tt, st')
         ∧ message_count (self st') = 1.
Proof.
  destruct (main_without_scenario [lit "send-hl7.py"] sample_state
              ltac:(simpl; lia) clock_sane_sample peer_sane_sample)
    as (name & mo & frame & st' & _ & _ & Hrun & _ & Hm).
  exists st'. split; [exact Hrun|]. rewrite Hm. reflexivity.
Defined.

(** X17: [main] returns for every argument vector.  The instance it worked
    on has the default host and port, and its [message_count] is the number
    of send attempts [main] made, which is at least one; arguments after the
    scenario name are ignored. *)
Theorem main_counts_its_sends argv st :
  clock_sane (world st) → peer_sane (world st) →
  ∃ st',
    main argv st = (Return tt, st')
    ∧ main (take 2 argv) st = (Return tt, st')
    ∧ host (self st') = lit "localhost"
    ∧ port (self st') = 8661
    ∧ 1 <= message_count (self st')
    ∧ message_count (self st')
      = Z.of_nat (send_attempts (trace (world st')))
        - Z.of_nat (send_attempts (trace (world st))).
Proof.
  intros Hclock Hpeer.
  destruct (decide (length argv ≤ 1)%nat) as [Hlen|Hlen].
  { destruct (main_usage_run argv st Hlen Hclock Hpeer)
      as (name & mo & frame & st' & _ & _ & Hrun & _ & Hself & Hs).
    exists st'. rewrite Hself, Hs.
    cbn [bump HL7Simulator_default HL7Simulator_init host port message_count].
    rewrite take_ge by lia. repeat split; try done; lia. }
  destruct argv as [|prog [|scenario rest]]; [simpl in Hlen; lia..|].
  set (st0 := {| self := HL7Simulator_default; world := world st |}).
  destruct (run_demo_scenario_counts scenario st0 (conj Hclock Hpeer))
    as (n & st' & Hrun & Hn & (_ & _ & Hs) & (_ & _ & Hh & Hp & Hm & _)).
  assert (Hmain : ∀ rest', main (prog :: scenario :: rest') st = (Return tt, st')).
  { intros rest'. unfold main. cbv [bind new_simulator]. fold st0.
    rewrite Hrun. reflexivity. }
  exists st'. split; [apply Hmain|]. split; [apply Hmain|].
  split; [exact Hh|]. split; [exact Hp|].
  change (message_count (self st0)) with 0 in Hm.
  change (send_attempts (trace (world st0)))
    with (send_attempts (trace (world st))) in Hs.
  lia.
Qed.

Lemma main_counts_its_sends_witness :
  ∃ st', main [lit "send-hl7.py"; lit "load-test"; lit "ignored"] sample_state
         = (Return tt, st')
         ∧ 1 <= message_count (self st').
Proof.
  destruct (main_counts_its_sends
              [lit "send-hl7.py"; lit "load-test"; lit "ignored"] sample_state
              clock_sane_sample peer_sane_sample)
    as (st' & Hrun & _ & _ & _ & Hm & _).
  exists st'. split; [exact Hrun | exact Hm].
Defined.
